(** * attract: the AT Computing Traffic Achievement Tool

    A shallow embedding of the client and the server of [attract.c]
    (command line, handshake, transfer loops, statistics) and the
    properties of the measurement engine checked against it.

    Conventions.
    - C integers are [Z]; [unsigned int] values are reduced modulo 2^32
      and signed 32/64-bit values are normalised to two's complement, the
      way the program behaves once compiled for Linux on a 64-bit machine
      ([long], [long long] and [clock_t] are all 64 bits wide there).
    - [char] buffers are [list ascii]; a C string is the list of the
      characters before its terminating NUL.
    - System calls are answered by an environment: scripted input
      (bytes, datagrams, clock samples) and oracles (does this write
      succeed, is this port free).  A process either goes on with a
      value or leaves through [exit(code)]. *)

From Stdlib Require Import ZArith List Ascii String Bool Lia.
Import ListNotations.
Local Open Scope Z_scope.

(* ================================================================== *)
(** ** Machine integers *)

Module CInt.

Definition uint32 (z : Z) : Z := z mod 2 ^ 32.
Definition sint32 (z : Z) : Z := (z + 2 ^ 31) mod 2 ^ 32 - 2 ^ 31.
Definition sint64 (z : Z) : Z := (z + 2 ^ 63) mod 2 ^ 64 - 2 ^ 63.

Definition INT_MAX : Z := 2 ^ 31 - 1.
Definition INT_MIN : Z := - 2 ^ 31.
Definition LLONG_MAX : Z := 2 ^ 63 - 1.
Definition LLONG_MIN : Z := - 2 ^ 63.

Definition in_sint32 (z : Z) : Prop := INT_MIN <= z <= INT_MAX.
Definition in_sint64 (z : Z) : Prop := LLONG_MIN <= z <= LLONG_MAX.

(** 64-bit signed arithmetic ([long], [long long], [clock_t]); division
    truncates towards zero as in C. *)
Definition add64 (a b : Z) : Z := sint64 (a + b).
Definition sub64 (a b : Z) : Z := sint64 (a - b).
Definition mul64 (a b : Z) : Z := sint64 (a * b).
Definition div64 (a b : Z) : Z := sint64 (Z.quot a b).
Definition rem64 (a b : Z) : Z := sint64 (Z.rem a b).

(** [strtol]/[strtoll] saturate at the ends of the 64-bit range. *)
Definition clamp64 (z : Z) : Z := Z.max LLONG_MIN (Z.min LLONG_MAX z).

End CInt.

(* ================================================================== *)
(** ** The pieces of the C library the program relies on *)

Module Libc.
Import CInt.

Definition NUL : ascii := ascii_of_nat 0.
Definition NL : ascii := ascii_of_nat 10.
Definition SP : ascii := " "%char.

Definition code (c : ascii) : Z := Z.of_nat (nat_of_ascii c).

(** [isspace] and [isdigit] in the C locale. *)
Definition isspace (c : ascii) : bool :=
  (code c =? 32) || ((9 <=? code c) && (code c <=? 13)).

Definition isdigit (c : ascii) : bool :=
  (48 <=? code c) && (code c <=? 57).

Definition digit_char (d : Z) : ascii := ascii_of_nat (Z.to_nat (48 + d)).
Definition digit_val (c : ascii) : Z := code c - 48.

(** [strlen]-view of a byte buffer: the characters before the first NUL. *)
Fixpoint cstring (bs : list ascii) : list ascii :=
  match bs with
  | [] => []
  | c :: rest => if Ascii.eqb c NUL then [] else c :: cstring rest
  end.

(** *** Output conversions *)

(** Decimal digits of a non-negative number, most significant first. *)
Fixpoint dec_digits (fuel : nat) (n : Z) (acc : list ascii) : list ascii :=
  match fuel with
  | O => acc
  | S fuel' =>
      let acc' := digit_char (n mod 10) :: acc in
      if n <? 10 then acc' else dec_digits fuel' (n / 10) acc'
  end.

Definition print_unsigned (n : Z) : list ascii :=
  dec_digits (S (Z.to_nat (Z.log2 n))) n [].

(** [%d], [%ld], [%lld]. *)
Definition print_dec (z : Z) : list ascii :=
  if z <? 0 then "-"%char :: print_unsigned (- z) else print_unsigned z.

Inductive parg : Type :=
| Pc (c : ascii)          (* %c *)
| Plit (s : list ascii)   (* ordinary characters of the format *)
| Pd (z : Z).             (* %d, %ld, %lld *)

Fixpoint sprintf (args : list parg) : list ascii :=
  match args with
  | [] => []
  | Pc c :: rest => c :: sprintf rest
  | Plit s :: rest => s ++ sprintf rest
  | Pd z :: rest => print_dec z ++ sprintf rest
  end.

(** *** Input conversions *)

Fixpoint skip_space (s : list ascii) : list ascii :=
  match s with
  | c :: rest => if isspace c then skip_space rest else s
  | [] => []
  end.

(** Longest run of digits at the head of [s], accumulated onto [acc]. *)
Fixpoint scan_digits (s : list ascii) (acc : Z) : Z * list ascii :=
  match s with
  | c :: rest =>
      if isdigit c then scan_digits rest (acc * 10 + digit_val c)
      else (acc, s)
  | [] => (acc, [])
  end.

Definition starts_with_digit (s : list ascii) : bool :=
  match s with
  | c :: _ => isdigit c
  | [] => false
  end.

(** The subject sequence of [strtol] with base 10: optional white space,
    optional sign, at least one digit.  [None] when there is no digit. *)
Definition scan_int (s : list ascii) : option (Z * list ascii) :=
  let s1 := skip_space s in
  let '(neg, s2) :=
    match s1 with
    | c :: rest =>
        if Ascii.eqb c "-"%char then (true, rest)
        else if Ascii.eqb c "+"%char then (false, rest)
        else (false, s1)
    | [] => (false, s1)
    end in
  if starts_with_digit s2 then
    let '(v, rest) := scan_digits s2 0 in
    Some (clamp64 (if neg then - v else v), rest)
  else None.

(** [atoi(s)] is [(int) strtol(s, 0, 10)]: 0 when nothing converts. *)
Definition atoi (s : list ascii) : Z :=
  match scan_int s with
  | Some (v, _) => sint32 v
  | None => 0
  end.

Inductive sdir : Type :=
| Sc        (* %c: exactly one character, white space included *)
| Sws       (* white space in the format: skips any white space *)
| Sint.     (* %d, %ld, %lld *)

Inductive sval : Type :=
| Vchar (c : ascii)
| Vint (z : Z).

(** [sscanf]: the values of the conversions that succeed, in order; the
    scan stops at the first directive that fails. *)
Fixpoint sscanf (input : list ascii) (fmt : list sdir) : list sval :=
  match fmt with
  | [] => []
  | Sws :: fmt' => sscanf (skip_space input) fmt'
  | Sc :: fmt' =>
      match input with
      | c :: rest => Vchar c :: sscanf rest fmt'
      | [] => []
      end
  | Sint :: fmt' =>
      match scan_int input with
      | Some (z, rest) => Vint z :: sscanf rest fmt'
      | None => []
      end
  end.

End Libc.

(* ================================================================== *)
(** ** attract.c *)

Module Attract.
Import CInt Libc.

Definition str (s : string) : list ascii := list_ascii_of_string s.

Definition MYPORT : list ascii := str "31432".
Definition MAXLEN : Z := 65636.
Definition UDPTOUT : Z := 5.

Definition chr_eq (a b : ascii) : bool := Ascii.eqb a b.

(** *** Processes and their environment *)

Record tms : Type := { tms_utime : Z; tms_stime : Z }.

Inductive udp_event : Type :=
| Datagram (d : list ascii)   (* a datagram arrives in time *)
| Timeout                     (* SIGALRM interrupts the receive *)
| RecvError.                  (* recvfrom fails for another reason *)

Inductive family : Type := AF_UNSPEC | AF_INET | AF_INET6.

Inductive bind_result : Type :=
| GaiFail       (* getaddrinfo fails for this port *)
| SocketFail    (* socket() fails *)
| BindFail      (* bind() fails: port in use *)
| BindOk.

(** What the operating system answers.  [rd n] decides the n-th [read]
    on the TCP socket: not positive means the call fails, a positive
    value bounds the number of bytes it delivers (short reads).  [wr n]
    tells whether the n-th [write]/[sendto] succeeds.  [clk n] is the
    n-th sample of [times]. *)
Record env : Type := {
  localhz : Z;
  rd : nat -> Z;
  wr : nat -> bool;
  clk : nat -> Z * tms;
  tcp_connect : family -> bool;
  udp_open : bool;
  port_try : family -> Z -> bind_result
}.

(** The part of the process state that the generic routines touch: the
    two timeout globals, the bytes and datagrams still to arrive, what
    has been sent, and how many system calls of each kind were made. *)
Record world : Type := {
  timedout : Z;
  numtout : Z;
  tcp_in : list ascii;
  udp_in : list udp_event;
  tcp_out : list ascii;
  udp_out : list (list ascii);
  nread : nat;
  nwrite : nat;
  ntimes : nat
}.

Definition set_timedout (v : Z) (w : world) : world :=
  {| timedout := v; numtout := numtout w; tcp_in := tcp_in w;
     udp_in := udp_in w; tcp_out := tcp_out w; udp_out := udp_out w;
     nread := nread w; nwrite := nwrite w; ntimes := ntimes w |}.

Definition set_numtout (v : Z) (w : world) : world :=
  {| timedout := timedout w; numtout := v; tcp_in := tcp_in w;
     udp_in := udp_in w; tcp_out := tcp_out w; udp_out := udp_out w;
     nread := nread w; nwrite := nwrite w; ntimes := ntimes w |}.

Definition took_read (rest : list ascii) (w : world) : world :=
  {| timedout := timedout w; numtout := numtout w; tcp_in := rest;
     udp_in := udp_in w; tcp_out := tcp_out w; udp_out := udp_out w;
     nread := S (nread w); nwrite := nwrite w; ntimes := ntimes w |}.

Definition took_recv (rest : list udp_event) (w : world) : world :=
  {| timedout := timedout w; numtout := numtout w; tcp_in := tcp_in w;
     udp_in := rest; tcp_out := tcp_out w; udp_out := udp_out w;
     nread := nread w; nwrite := nwrite w; ntimes := ntimes w |}.

Definition did_write (bytes : list ascii) (w : world) : world :=
  {| timedout := timedout w; numtout := numtout w; tcp_in := tcp_in w;
     udp_in := udp_in w; tcp_out := tcp_out w ++ bytes;
     udp_out := udp_out w;
     nread := nread w; nwrite := S (nwrite w); ntimes := ntimes w |}.

Definition did_sendto (dgram : list ascii) (w : world) : world :=
  {| timedout := timedout w; numtout := numtout w; tcp_in := tcp_in w;
     udp_in := udp_in w; tcp_out := tcp_out w;
     udp_out := udp_out w ++ [dgram];
     nread := nread w; nwrite := S (nwrite w); ntimes := ntimes w |}.

Definition failed_write (w : world) : world :=
  {| timedout := timedout w; numtout := numtout w; tcp_in := tcp_in w;
     udp_in := udp_in w; tcp_out := tcp_out w; udp_out := udp_out w;
     nread := nread w; nwrite := S (nwrite w); ntimes := ntimes w |}.

Definition took_times (w : world) : world :=
  {| timedout := timedout w; numtout := numtout w; tcp_in := tcp_in w;
     udp_in := udp_in w; tcp_out := tcp_out w; udp_out := udp_out w;
     nread := nread w; nwrite := nwrite w; ntimes := S (ntimes w) |}.

(** A computation runs from a state of the world and goes on with a
    value, leaves through [exit(code)], or (loops only) is cut off
    because the iteration budget of the model is used up. *)
Inductive outcome (A : Type) : Type :=
| Go (a : A) (w : world)
| Exit (code : Z) (w : world)
| Fuel.

Arguments Go {A} a w.
Arguments Exit {A} code w.
Arguments Fuel {A}.

Definition M (A : Type) : Type := world -> outcome A.

Definition ret {A : Type} (a : A) : M A := fun w => Go a w.

Definition exit {A : Type} (code : Z) : M A := fun w => Exit code w.

Definition bind {A B : Type} (m : M A) (k : A -> M B) : M B :=
  fun w =>
    match m w with
    | Go a w' => k a w'
    | Exit c w' => Exit c w'
    | Fuel => Fuel
    end.

Definition get : M world := fun w => Go w w.

Definition modify (f : world -> world) : M unit := fun w => Go tt (f w).

Notation "x <- m ;; k" := (bind m (fun x => k))
  (at level 61, m at next level, right associativity).
Notation "' p <- m ;; k" := (bind m (fun p => k))
  (at level 61, p pattern, m at next level, right associativity).
Notation "m ;;; k" := (bind m (fun _ => k))
  (at level 61, right associativity).

(** *** System calls *)

Definition size_t (len : Z) : Z := len mod 2 ^ 64.

(** [read(tcpsock, p, count)]: the return value and the bytes put at [p]. *)
Definition sys_read (e : env) (count : Z) : M (Z * list ascii) :=
  fun w =>
    let k := rd e (nread w) in
    if k <=? 0 then Go (-1, []) (took_read (tcp_in w) w)
    else
      let n := Z.min k (Z.min (size_t count)
                              (Z.of_nat (List.length (tcp_in w)))) in
      Go (n, firstn (Z.to_nat n) (tcp_in w))
         (took_read (skipn (Z.to_nat n) (tcp_in w)) w).

(** [write(tcpsock, p, len)]: the return value.  A write that fails is
    one that returns -1.  (The program leaves SIGPIPE at its default
    action, so a write on a connection that the peer has closed ends
    the process by that signal instead: the death of the process by a
    signal is not among the outcomes of this embedding.) *)
Definition sys_write (e : env) (p : list ascii) (len : Z) : M Z :=
  fun w =>
    if wr e (nwrite w)
    then Go len (did_write (firstn (Z.to_nat len) p) w)
    else Go (-1) (failed_write w).

(** [sendto(udpsock, p, len, ...)]. *)
Definition sys_sendto (e : env) (p : list ascii) (len : Z) : M Z :=
  fun w =>
    if wr e (nwrite w)
    then Go len (did_sendto (firstn (Z.to_nat len) p) w)
    else Go (-1) (failed_write w).

(** [recvfrom(udpsock, p, len, ...)] under [alarm(UDPTOUT)].  When
    nothing arrives the alarm goes off, [wakeupcall] sets [timedout] and
    the call returns -1. *)
Definition sys_recvfrom (len : Z) : M (Z * list ascii) :=
  fun w =>
    match udp_in w with
    | Datagram d :: rest =>
        let data := firstn (Z.to_nat (size_t len)) d in
        Go (Z.of_nat (List.length data), data) (took_recv rest w)
    | Timeout :: rest => Go (-1, []) (set_timedout 1 (took_recv rest w))
    | RecvError :: rest => Go (-1, []) (took_recv rest w)
    | [] => Go (-1, []) (set_timedout 1 w)
    end.

(** [times(&t)]: the tick count returned and the CPU times stored. *)
Definition sys_times (e : env) : M (Z * tms) :=
  fun w => Go (clk e (ntimes w)) (took_times w).

(** Bytes [data] stored at offset [p] of buffer [buf]. *)
Definition store (buf : list ascii) (p : Z) (data : list ascii) : list ascii :=
  firstn (Z.to_nat p) buf ++ data
    ++ skipn (Z.to_nat p + List.length data) buf.

Definition byte0 (buf : list ascii) : ascii := hd NUL buf.

Definition set_byte0 (c : ascii) (buf : list ascii) : list ascii :=
  match buf with
  | [] => []
  | _ :: rest => c :: rest
  end.

(** *** Generic: [getmes], [putmes], [wakeupcall] *)

(** The [while (len)] loop of the TCP branch of [getmes].  Every turn
    either leaves the process or takes at least one byte off the
    stream, so one more turn than there are bytes pending is enough. *)
Fixpoint getmes_tcp (e : env) (fuel : nat) (buf : list ascii) (p len : Z)
  : M (list ascii) :=
  if len =? 0 then ret buf
  else
    match fuel with
    | O => fun _ => Fuel
    | S fuel' =>
        '(rv, data) <- sys_read e len ;;
        if rv <=? 0 then exit 0
        else getmes_tcp e fuel' (store buf p data) (p + rv) (sint32 (len - rv))
    end.

(** [getmes(prot, tcpsock, udpsock, p, len, ...)]: the return value and
    the buffer afterwards. *)
Definition getmes (e : env) (prot : ascii) (buf : list ascii) (len : Z)
  : M (Z * list ascii) :=
  if chr_eq prot "t" then
    w <- get ;;
    buf' <- getmes_tcp e (S (List.length (tcp_in w))) buf 0 len ;;
    ret (0, buf')
  else
    modify (set_timedout 0) ;;;
    '(rv, data) <- sys_recvfrom len ;;
    if rv <? 0 then
      w <- get ;;
      if negb (timedout w =? 0) then
        modify (set_numtout (add64 (numtout w) 1)) ;;;
        ret (1, buf)
      else exit 1
    else ret (0, store buf 0 data).

(** [putmes(prot, tcpsock, udpsock, p, len, ...)]. *)
Definition putmes (e : env) (prot : ascii) (buf : list ascii) (len : Z)
  : M unit :=
  if chr_eq prot "t" then
    rv <- sys_write e buf len ;;
    if rv <? 0 then exit 1 else ret tt
  else
    rv <- sys_sendto e buf len ;;
    if rv <? 0 then exit 1 else ret tt.

Definition wakeupcall : M unit := modify (set_timedout 1).

(** *** [main]: command line *)

(** The file-scope configuration variables, with [serverflag] of [main]. *)
Record globals : Type := {
  ipvers : ascii;
  prot : ascii;
  direct : ascii;
  rawout : Z;
  myport : list ascii;
  mesnum : Z;        (* unsigned int *)
  meslen : Z;        (* unsigned int *)
  mestime : Z;       (* unsigned int *)
  serverflag : Z
}.

Definition initial_globals : globals :=
  {| ipvers := "?"; prot := "t"; direct := "u"; rawout := 0;
     myport := MYPORT; mesnum := 0; meslen := 512; mestime := 10;
     serverflag := 0 |}.

Definition set_ipvers (c : ascii) (g : globals) : globals :=
  {| ipvers := c; prot := prot g; direct := direct g; rawout := rawout g;
     myport := myport g; mesnum := mesnum g; meslen := meslen g;
     mestime := mestime g; serverflag := serverflag g |}.

Definition set_prot (c : ascii) (g : globals) : globals :=
  {| ipvers := ipvers g; prot := c; direct := direct g; rawout := rawout g;
     myport := myport g; mesnum := mesnum g; meslen := meslen g;
     mestime := mestime g; serverflag := serverflag g |}.

Definition set_direct (c : ascii) (g : globals) : globals :=
  {| ipvers := ipvers g; prot := prot g; direct := c; rawout := rawout g;
     myport := myport g; mesnum := mesnum g; meslen := meslen g;
     mestime := mestime g; serverflag := serverflag g |}.

Definition set_rawout (v : Z) (g : globals) : globals :=
  {| ipvers := ipvers g; prot := prot g; direct := direct g; rawout := v;
     myport := myport g; mesnum := mesnum g; meslen := meslen g;
     mestime := mestime g; serverflag := serverflag g |}.

Definition set_myport (s : list ascii) (g : globals) : globals :=
  {| ipvers := ipvers g; prot := prot g; direct := direct g;
     rawout := rawout g; myport := s; mesnum := mesnum g;
     meslen := meslen g; mestime := mestime g; serverflag := serverflag g |}.

Definition set_mesnum (v : Z) (g : globals) : globals :=
  {| ipvers := ipvers g; prot := prot g; direct := direct g;
     rawout := rawout g; myport := myport g; mesnum := v;
     meslen := meslen g; mestime := mestime g; serverflag := serverflag g |}.

Definition set_meslen (v : Z) (g : globals) : globals :=
  {| ipvers := ipvers g; prot := prot g; direct := direct g;
     rawout := rawout g; myport := myport g; mesnum := mesnum g;
     meslen := v; mestime := mestime g; serverflag := serverflag g |}.

Definition set_mestime (v : Z) (g : globals) : globals :=
  {| ipvers := ipvers g; prot := prot g; direct := direct g;
     rawout := rawout g; myport := myport g; mesnum := mesnum g;
     meslen := meslen g; mestime := v; serverflag := serverflag g |}.

Definition set_serverflag (v : Z) (g : globals) : globals :=
  {| ipvers := ipvers g; prot := prot g; direct := direct g;
     rawout := rawout g; myport := myport g; mesnum := mesnum g;
     meslen := meslen g; mestime := mestime g; serverflag := v |}.

(** [*optarg] *)
Definition deref (optarg : list ascii) : ascii := hd NUL optarg.

(** One turn of the [getopt] loop: the [switch (c)] on the flag that
    [getopt] returned, with its argument.  The comparisons [<= 0] and
    [> MAXLEN] are made on the [unsigned int] just assigned. *)
Definition option_case (c : ascii) (optarg : list ascii) (g : globals)
  : M globals :=
  if chr_eq c "s" then ret (set_serverflag 1 g)
  else if chr_eq c "r" then ret (set_rawout 1 g)
  else if chr_eq c "v" then
    let g := set_ipvers (deref optarg) g in
    if negb (chr_eq (ipvers g) "4") && negb (chr_eq (ipvers g) "6")
    then exit 1 else ret g
  else if chr_eq c "p" then
    let g := set_prot (deref optarg) g in
    if negb (chr_eq (prot g) "t") && negb (chr_eq (prot g) "u")
    then exit 1 else ret g
  else if chr_eq c "d" then
    let g := set_direct (deref optarg) g in
    if negb (chr_eq (direct g) "u") && negb (chr_eq (direct g) "b")
    then exit 1 else ret g
  else if chr_eq c "l" then
    let g := set_meslen (uint32 (atoi optarg)) g in
    if meslen g <=? 0 then exit 1
    else if meslen g >? uint32 MAXLEN then exit 1
    else ret g
  else if chr_eq c "c" then
    let g := set_mesnum (uint32 (atoi optarg)) g in
    if mesnum g <=? 0 then exit 1 else ret g
  else if chr_eq c "t" then
    let g := set_mestime (uint32 (atoi optarg)) g in
    if mestime g <=? 0 then exit 1 else ret g
  else if chr_eq c "P" then ret (set_myport optarg g)
  else exit 1.

(** The [while ((c = getopt(...)) != EOF)] loop over the flags found on
    the command line, in order. *)
Fixpoint parse_options (opts : list (ascii * list ascii)) (g : globals)
  : M globals :=
  match opts with
  | [] => ret g
  | (c, optarg) :: rest =>
      g' <- option_case c optarg g ;;
      parse_options rest g'
  end.

(** *** [main]: the client *)

(** The [switch (ipvers)] that opens the control channel; [gettcpsock]
    is answered by the environment. *)
Definition connect_control (e : env) (g : globals) : M globals :=
  if chr_eq (ipvers g) "4" then
    if tcp_connect e AF_INET then ret g else exit 1
  else if chr_eq (ipvers g) "6" then
    if tcp_connect e AF_INET6 then ret g else exit 1
  else if tcp_connect e AF_INET6 then ret (set_ipvers "6" g)
  else if tcp_connect e AF_INET then ret (set_ipvers "4" g)
  else exit 1.

(** [sprintf(buf, "%c %c %c %d\n", ipvers, prot, direct, meslen)] *)
Definition control_message (ipvers prot direct : ascii) (meslen : Z)
  : list ascii :=
  sprintf [Pc ipvers; Plit [SP]; Pc prot; Plit [SP]; Pc direct; Plit [SP];
           Pd (sint32 meslen); Plit [NL]].

(** [write(tcpsock, buf, strlen(buf)+1)] of a freshly printed string. *)
Definition write_string (e : env) (s : list ascii) : M Z :=
  let buf := s ++ [NUL] in
  sys_write e buf (Z.of_nat (List.length (cstring buf)) + 1).

(** The variables of the transfer loop of the client. *)
Record cloop : Type := {
  cnt : Z;              (* long long *)
  proceed : Z;
  buf : list ascii;
  endtms : tms
}.

(** The head of the loop body: [cnt++] and the check whether the
    transfer can be finished, because the required number of messages
    has been sent or the required time has passed. *)
Definition check_finished (e : env) (g : globals) (endtime : Z) (st : cloop)
  : M cloop :=
  let n := add64 (cnt st) 1 in        (* cnt++ *)
  if negb (mesnum g =? 0) then        (* counter-based transfer *)
    if n =? mesnum g then
      ret {| cnt := n; proceed := 0;
             buf := set_byte0 "E" (buf st); endtms := endtms st |}
    else
      ret {| cnt := n; proceed := proceed st;
             buf := buf st; endtms := endtms st |}
  else                                (* time-based transfer *)
    if Z.land n 31 =? 0 then
      '(now, t) <- sys_times e ;;
      if now >=? endtime then
        ret {| cnt := n; proceed := 0;
               buf := set_byte0 "E" (buf st); endtms := t |}
      else
        ret {| cnt := n; proceed := proceed st;
               buf := buf st; endtms := t |}
    else
      ret {| cnt := n; proceed := proceed st;
             buf := buf st; endtms := endtms st |}.

(** One turn of [while (proceed)]: the check, the send and, unless the
    transfer is unidirectional, the receive (whose result is ignored). *)
Definition client_iter (e : env) (g : globals) (endtime : Z) (st : cloop)
  : M cloop :=
  st1 <- check_finished e g endtime st ;;
  putmes e (prot g) (buf st1) (sint32 (meslen g)) ;;;
  if chr_eq (direct g) "u" then ret st1
  else
    '(_, buf') <- getmes e (prot g) (buf st1) (sint32 (meslen g)) ;;
    ret {| cnt := cnt st1; proceed := proceed st1;
           buf := buf'; endtms := endtms st1 |}.

Fixpoint client_loop (e : env) (g : globals) (endtime : Z) (fuel : nat)
  (st : cloop) : M cloop :=
  if proceed st =? 0 then ret st
  else
    match fuel with
    | O => fun _ => Fuel
    | S fuel' =>
        st' <- client_iter e g endtime st ;;
        client_loop e g endtime fuel' st'
    end.

(** Values stored by the successful conversions of a [sscanf] with
    three integer conversions; a variable whose conversion did not
    happen keeps what it held. *)
Definition assign3 (vs : list sval) (a b c : Z) : Z * Z * Z :=
  match vs with
  | Vint x :: Vint y :: Vint z :: _ => (x, y, z)
  | Vint x :: Vint y :: _ => (x, y, c)
  | Vint x :: _ => (x, b, c)
  | _ => (a, b, c)
  end.

Definition stats_fmt : list sdir := [Sint; Sws; Sint; Sws; Sint].

(** [realticks]: the elapsed ticks less the time the server sat in
    timeouts, with 0 replaced by 1. *)
Definition realticks_of (now begtime numtout localhz : Z) : Z :=
  let realticks := sub64 (sub64 now begtime) (mul64 numtout localhz) in
  if realticks =? 0 then 1 else realticks.

Definition factor_of (direct : ascii) : Z :=
  if chr_eq direct "b" then 2 else 1.

(** The expression printed as K/s by both output formats. *)
Definition throughput (numrcv meslen factor realticks localhz : Z) : Z :=
  div64 (mul64 (div64 (mul64 (mul64 numrcv meslen) factor) realticks)
               localhz)
        1024.

(** The integers that the report prints. *)
Record report : Type := {
  r_ipvers : ascii;
  r_meslen : Z;
  r_cnt : Z;
  r_realticks : Z;
  r_seconds : Z;
  r_centis : Z;
  r_kbps : Z;
  r_lost : Z;
  r_lostpct : Z;
  r_hogclnt : Z;
  r_hogserv : Z
}.

Definition statistics (e : env) (g : globals) (cnt numrcv numtout hogserv : Z)
  (begtime now : Z) (begtms endtms : tms) : report :=
  let realticks := realticks_of now begtime numtout (localhz e) in
  let hogclnt :=
    div64 (mul64 (add64 (sub64 (tms_utime endtms) (tms_utime begtms))
                        (sub64 (tms_stime endtms) (tms_stime begtms)))
                 100)
          realticks in
  let hogserv := div64 (mul64 hogserv (localhz e)) realticks in
  let factor := factor_of (direct g) in
  {| r_ipvers := ipvers g;
     r_meslen := meslen g;
     r_cnt := cnt;
     r_realticks := realticks;
     r_seconds := div64 realticks (localhz e);
     r_centis := div64 (mul64 (rem64 realticks (localhz e)) 100) (localhz e);
     r_kbps := throughput numrcv (meslen g) factor realticks (localhz e);
     r_lost := sub64 cnt numrcv;
     r_lostpct := div64 (mul64 (sub64 cnt numrcv) 100) cnt;
     r_hogclnt := hogclnt;
     r_hogserv := hogserv |}.

(** The end of [main]: the read of the final statistics message of
    the server and the report.  [numrcv0] and [hogserv0] stand for what
    the uninitialised locals [numrcv] and [hogserv] happen to hold. *)
Definition client_finish (e : env) (g : globals) (numrcv0 hogserv0 : Z)
  (begtime : Z) (begtms : tms) (st : cloop) : M report :=
  modify (set_timedout 0) ;;;
  '(len, data) <- sys_read e (MAXLEN + 1) ;;
  if len <=? 0 then exit 1 else
  let answer := store (buf st) 0 data in
  w <- get ;;
  let '(numrcv, numtout', hogserv) :=
    assign3 (sscanf (cstring answer) stats_fmt)
            numrcv0 (numtout w) hogserv0 in
  modify (set_numtout numtout') ;;;
  '(now, endtms) <- sys_times e ;;
  ret (statistics e g (cnt st) numrcv numtout' hogserv
                  begtime now begtms endtms).

(** The client part of [main], from the open of the control channel to
    [return 0]. *)
Definition client (e : env) (numrcv0 hogserv0 : Z) (fuel : nat) (g : globals)
  : M report :=
  g <- connect_control e g ;;
  rv <- write_string e
          (control_message (ipvers g) (prot g) (direct g) (meslen g)) ;;
  if rv <? 0 then exit 1 else
  '(rv, _) <- sys_read e 64 ;;
  if rv <? 0 then exit 1 else
  (if chr_eq (prot g) "u" then
     if udp_open e then ret tt else exit 3
   else ret tt) ;;;
  let filled := repeat "X"%char (Z.to_nat (MAXLEN + 1)) in
  wakeupcall ;;;
  '(begtime, begtms) <- sys_times e ;;
  let endtime := add64 begtime (mul64 (mestime g) (localhz e)) in
  st <- client_loop e g endtime fuel
          {| cnt := 0; proceed := 1; buf := filled; endtms := begtms |} ;;
  client_finish e g numrcv0 hogserv0 begtime begtms st.

(** [main] for the process started from the command line: the flags,
    then either the server or the client.  With [-s] this process calls
    [genserver], whose first [fork] makes it leave with [exit(0)]; the
    daemon that the fork leaves behind (the listening socket, [accept],
    one [handlecon] per connection) is not part of this process and is
    described by [genserver_setup] and [handlecon].  The command line
    is taken as [getopt] hands it over: [opts] are the flags with their
    arguments and [nhost] is [argc - optind] after them; a call without
    even a program name ([argc < 1], answered by the usage text and
    [exit(1)]) is not among the inputs. *)
Definition main (e : env) (numrcv0 hogserv0 : Z) (fuel : nat)
  (opts : list (ascii * list ascii)) (nhost : Z) : M report :=
  g <- parse_options opts initial_globals ;;
  if negb (serverflag g =? 0) then exit 0
  else if nhost <? 1 then exit 1
  else client e numrcv0 hogserv0 fuel g.

(** *** The server: [handlecon] *)

(** The locals that [sscanf] fills in from the control message; before
    that they hold whatever the stack held. *)
Record ctlvars : Type := {
  h_ipvers : ascii;
  h_prot : ascii;
  h_direct : ascii;
  h_targetlen : Z        (* long long *)
}.

Definition ctl_fmt : list sdir := [Sc; Sws; Sc; Sws; Sc; Sws; Sint].

(** Values stored by [sscanf(ctlinfo, "%c %c %c %lld", ...)]. *)
Definition assign_ctl (vs : list sval) (v : ctlvars) : ctlvars :=
  match vs with
  | Vchar a :: Vchar b :: Vchar c :: Vint n :: _ =>
      {| h_ipvers := a; h_prot := b; h_direct := c; h_targetlen := n |}
  | Vchar a :: Vchar b :: Vchar c :: _ =>
      {| h_ipvers := a; h_prot := b; h_direct := c;
         h_targetlen := h_targetlen v |}
  | Vchar a :: Vchar b :: _ =>
      {| h_ipvers := a; h_prot := b; h_direct := h_direct v;
         h_targetlen := h_targetlen v |}
  | Vchar a :: _ =>
      {| h_ipvers := a; h_prot := h_prot v; h_direct := h_direct v;
         h_targetlen := h_targetlen v |}
  | _ => v
  end.

Definition parse_control (ctlinfo : list ascii) (junk : ctlvars) : ctlvars :=
  assign_ctl (sscanf (cstring ctlinfo) ctl_fmt) junk.

(** The [switch (ipvers)] that picks [ai_family] in zeroed hints. *)
Definition family_of (ipvers : ascii) : family :=
  if chr_eq ipvers "4" then AF_INET
  else if chr_eq ipvers "6" then AF_INET6
  else AF_UNSPEC.

(** The trial-and-error [for (udpport = atoi(myport); ; udpport++)]:
    every failure ([continue], or falling off the end of the body) goes
    through [udpport++]; only a successful [bind] leaves the loop.
    [fuel] bounds the number of increments. *)
Fixpoint find_port (e : env) (fam : family) (fuel : nat) (udpport : Z)
  : option Z :=
  match port_try e fam udpport with
  | BindOk => Some udpport
  | GaiFail | SocketFail | BindFail =>
      match fuel with
      | O => None
      | S fuel' => find_port e fam fuel' (sint32 (udpport + 1))
      end
  end.

(** [sprintf(buf, "%d", udpport)] *)
Definition port_reply (udpport : Z) : list ascii := sprintf [Pd udpport].

(** The receive loop [for (EVER)] of the handler: the received count
    and the buffer when the loop is left by [break]. *)
Fixpoint server_loop (e : env) (fuel : nat) (prot direct : ascii)
  (targetlen : Z) (numrcv : Z) (sbuf : list ascii) : M (Z * list ascii) :=
  match fuel with
  | O => fun _ => Fuel
  | S fuel' =>
      '(rv, sbuf) <- getmes e prot sbuf (sint32 targetlen) ;;
      if negb (rv =? 0) then ret (numrcv, sbuf)
      else
        let numrcv := add64 numrcv 1 in
        (if chr_eq direct "b"
         then putmes e prot sbuf (sint32 targetlen)
         else ret tt) ;;;
        if chr_eq (byte0 sbuf) "E" then ret (numrcv, sbuf)
        else server_loop e fuel' prot direct targetlen numrcv sbuf
  end.

(** [sprintf(buf, "%lld %lld %ld", numrcv, numtout*UDPTOUT, cpuserv)] *)
Definition stats_message (numrcv numtout cpuserv : Z) : list ascii :=
  sprintf [Pd numrcv; Plit [SP]; Pd (mul64 numtout UDPTOUT); Plit [SP];
           Pd cpuserv].

(** The first part of [handlecon] after the control message has been
    split up: the search for a free port if UDP is asked for, and the
    reply that passes the port to the other side. *)
Definition announce_port (e : env) (g : globals) (v : ctlvars)
  (portfuel : nat) : M Z :=
  udpport <-
    (if chr_eq (h_prot v) "u" then
       match find_port e (family_of (h_ipvers v)) portfuel
                       (atoi (myport g)) with
       | Some port => ret port
       | None => fun _ => Fuel
       end
     else ret 0) ;;
  rv <- write_string e (port_reply udpport) ;;
  if rv <? 0 then exit 1 else ret udpport.

(** [handlecon] from [times(&begtms)] on, once the port [udpport] has
    been passed to the other side: the receive loop and the final
    statistics. *)
Definition receive_and_report (e : env) (v : ctlvars) (udpport : Z)
  (fuel : nat) : M Empty_set :=
  let sbuf := store (repeat NUL (Z.to_nat (MAXLEN + 1))) 0
                    (port_reply udpport ++ [NUL]) in
  '(_, begtms) <- sys_times e ;;
  '(numrcv, sbuf) <- server_loop e fuel (h_prot v) (h_direct v)
                                 (h_targetlen v) 0 sbuf ;;
  '(_, endtms) <- sys_times e ;;
  let cpuserv := add64 (sub64 (tms_utime endtms) (tms_utime begtms))
                       (sub64 (tms_stime endtms) (tms_stime begtms)) in
  let cpuserv := div64 (mul64 cpuserv 100) (localhz e) in
  w <- get ;;
  rv <- write_string e (stats_message numrcv (numtout w) cpuserv) ;;
  if rv <? 0 then exit 1 else exit 0.

(** [handlecon] once the control message has been split up: the port
    reply, the receive loop and the final statistics. *)
Definition serve (e : env) (g : globals) (v : ctlvars) (portfuel fuel : nat)
  : M Empty_set :=
  udpport <- announce_port e g v portfuel ;;
  receive_and_report e v udpport fuel.

(** The child process that serves one accepted connection.  It never
    returns: every path ends in [exit].  [junk] is what the locals
    [ipvers], [prot], [direct] and [targetlen] hold before [sscanf],
    whose return value is not looked at. *)
Definition handlecon (e : env) (g : globals) (junk : ctlvars)
  (portfuel fuel : nat) : M Empty_set :=
  '(rv, ctlinfo) <- sys_read e 32 ;;
  if rv <=? 0 then exit 1
  else serve e g (parse_control ctlinfo junk) portfuel fuel.

(** The exit status of a process, when it ends. *)
Definition exit_code {A : Type} (o : outcome A) : option Z :=
  match o with
  | Go _ _ => Some 0      (* [main] returns 0 *)
  | Exit c _ => Some c
  | Fuel => None
  end.

Definition final_world {A : Type} (o : outcome A) : option world :=
  match o with
  | Go _ w => Some w
  | Exit _ w => Some w
  | Fuel => None
  end.

(** A world in which nothing has happened yet. *)
Definition fresh (tcp : list ascii) (udp : list udp_event) : world :=
  {| timedout := 0; numtout := 0; tcp_in := tcp; udp_in := udp;
     tcp_out := []; udp_out := []; nread := 0; nwrite := 0; ntimes := 0 |}.

(** The world after [k] more reads on the TCP socket that left [rest]
    pending. *)
Definition after_reads (k : nat) (rest : list ascii) (w : world) : world :=
  {| timedout := timedout w; numtout := numtout w; tcp_in := rest;
     udp_in := udp_in w; tcp_out := tcp_out w; udp_out := udp_out w;
     nread := (k + nread w)%nat; nwrite := nwrite w; ntimes := ntimes w |}.

(** What a counter-based transfer of [n] packets of [len] bytes puts on
    the wire: [n - 1] packets of X's and a last one that starts with
    the end-of-transfer marker. *)
Definition plain_packet (len : Z) : list ascii :=
  repeat "X"%char (Z.to_nat len).

Definition final_packet (len : Z) : list ascii :=
  "E"%char :: repeat "X"%char (Z.to_nat (len - 1)).

Definition sent_stream (n len : Z) : list ascii :=
  List.concat (repeat (plain_packet len) (Z.to_nat (n - 1)))
    ++ final_packet len.

End Attract.

(* ================================================================== *)
(** ** Concrete runs *)

(** Small environments and worlds on which the program is run in the
    examples that accompany the theorems. *)
Module Scenario.
Import CInt Libc Attract.

Definition no_tms : tms := {| tms_utime := 0; tms_stime := 0 |}.

(** A quiet machine: every call succeeds, a read delivers all that is
    pending, the clock advances 50 ticks per sample, and the first two
    candidate ports are taken. *)
Definition quiet : env :=
  {| localhz := 100;
     rd := fun _ => 65637;
     wr := fun _ => true;
     clk := fun n => (Z.of_nat n * 50, no_tms);
     tcp_connect := fun _ => true;
     udp_open := true;
     port_try := fun _ port =>
       if port =? 31432 then GaiFail
       else if port =? 31433 then BindFail else BindOk |}.

(** The same machine with reads that deliver one byte at a time. *)
Definition bytewise : env :=
  {| localhz := 100;
     rd := fun _ => 1;
     wr := fun _ => true;
     clk := fun n => (Z.of_nat n * 50, no_tms);
     tcp_connect := fun _ => true;
     udp_open := true;
     port_try := fun _ _ => BindOk |}.


(** The same machine on which the third write fails. *)
Definition third_write_fails : env :=
  {| localhz := 100;
     rd := fun _ => 65637;
     wr := fun n => (n <? 2)%nat;
     clk := fun n => (Z.of_nat n * 50, no_tms);
     tcp_connect := fun _ => true;
     udp_open := true;
     port_try := fun _ _ => BindOk |}.

Definition junk0 : ctlvars :=
  {| h_ipvers := "?"; h_prot := "?"; h_direct := "u"; h_targetlen := 2 |}.



(** [-c 3 -l 2] *)
Definition g_three : globals := set_meslen 2 (set_mesnum 3 initial_globals).

(** [-c 1 -l 2 -d b] *)
Definition g_bidi : globals :=
  set_direct "b" (set_meslen 2 (set_mesnum 1 initial_globals)).

(** [-t 1 -l 1] *)
Definition g_timed : globals := set_meslen 1 (set_mestime 1 initial_globals).

Definition udp_request : ctlvars :=
  {| h_ipvers := "6"; h_prot := "u"; h_direct := "u"; h_targetlen := 512 |}.

(** The server answers the handshake and then closes the connection. *)
Definition w_closed : world := fresh (str "0" ++ [NUL]) [].

Definition closed_end : world :=
  match client quiet 0 0 5 g_bidi w_closed with
  | Exit _ w => w
  | _ => w_closed
  end.

Definition st_small : cloop :=
  {| cnt := 0; proceed := 1; buf := str "X"; endtms := no_tms |}.

Definition timed_end : cloop * world :=
  match client_loop quiet g_timed 100 100 st_small (fresh [] []) with
  | Go st w => (st, w)
  | _ => (st_small, fresh [] [])
  end.

(** The final statistics message of a server that received 3 packets,
    had no timeout and used 0.12 s of CPU time. *)
Definition w_stats : world := fresh (stats_message 3 0 12 ++ [NUL]) [].

End Scenario.

(* ================================================================== *)
(** ** attract.c: name resolution and sockets *)

Module Sockets.
Import CInt Libc Attract.

(** [numhost]: is the host given by a numerical string?  [nalpha] is
    the [int] counter of the characters that are neither digit, dot nor
    colon. *)
Fixpoint numhost_from (hp : list ascii) (nalpha : Z) : Z :=
  match hp with
  | [] => if negb (nalpha =? 0) then 0 else 1
  | c :: rest =>
      if chr_eq c ":" then 1
      else if chr_eq c "." then
        if negb (nalpha =? 0) then 0 else numhost_from rest nalpha
      else if negb (isdigit c) then numhost_from rest (sint32 (nalpha + 1))
      else numhost_from rest nalpha
  end.

Definition numhost (hp : list ascii) : Z := numhost_from hp 0.

Inductive socktype : Type := SOCK_STREAM | SOCK_DGRAM.

(** The fields of [struct addrinfo] that the program sets as hints. *)
Record hints : Type := {
  ai_numerichost : bool;     (* AI_NUMERICHOST in ai_flags *)
  ai_passive : bool;         (* AI_PASSIVE in ai_flags *)
  ai_family : family;
  ai_socktype : socktype
}.

(** One resolved address: its family and the address itself. *)
Record addrinfo : Type := { a_family : family; a_addr : Z }.

(** What the resolver and the socket layer answer.  [getaddrinfo] gives
    the list of addresses or fails; [socket_at n] is the descriptor
    returned by the n-th [socket] (negative: failure); [connect_at n a]
    tells whether the n-th [connect], to address [a], succeeds;
    [bind_ok] and [listen_ok] answer for a descriptor. *)
Record netenv : Type := {
  getaddrinfo : option (list ascii) -> list ascii -> hints
                -> option (list addrinfo);
  socket_at : nat -> family -> socktype -> Z;
  connect_at : nat -> Z -> bool;
  bind_ok : Z -> bool;
  listen_ok : Z -> bool
}.

(** The descriptors opened and closed so far and the addresses that a
    [connect] was tried on, in order. *)
Record net : Type := {
  nsocket : nat;
  opened : list Z;
  closed : list Z;
  tried : list Z
}.

Definition no_net : net :=
  {| nsocket := 0; opened := []; closed := []; tried := [] |}.

Definition did_socket (fd : Z) (w : net) : net :=
  {| nsocket := S (nsocket w);
     opened := if fd <? 0 then opened w else opened w ++ [fd];
     closed := closed w; tried := tried w |}.

Definition did_connect (addr : Z) (w : net) : net :=
  {| nsocket := nsocket w; opened := opened w; closed := closed w;
     tried := tried w ++ [addr] |}.

Definition did_close (fd : Z) (w : net) : net :=
  {| nsocket := nsocket w; opened := opened w; closed := closed w ++ [fd];
     tried := tried w |}.

(** The loop [for (r=*si; r; r=r->ai_next)] of [gettcpsock].  It makes
    one turn per entry [r] of the list, but every turn takes family,
    socket type and address from [*si], the head of the list. *)
Fixpoint tcp_attempts (n : netenv) (si : addrinfo) (r : list addrinfo)
  (w : net) : Z * net :=
  match r with
  | [] => (-1, w)
  | _ :: next =>
      let sockfd := socket_at n (nsocket w) (a_family si) SOCK_STREAM in
      let w := did_socket sockfd w in
      if sockfd <? 0 then tcp_attempts n si next w
      else
        let ok := connect_at n (List.length (tried w)) (a_addr si) in
        let w := did_connect (a_addr si) w in
        if ok then (sockfd, w)
        else tcp_attempts n si next (did_close sockfd w)
  end.

(** [gettcpsock(family, hostname, si, verbose)]: the descriptor or -1,
    and the address list left in [*si]. *)
Definition gettcpsock (n : netenv) (myport : list ascii) (fam : family)
  (hostname : list ascii) (w : net) : Z * option (list addrinfo) * net :=
  let sockhints :=
    {| ai_numerichost := negb (numhost hostname =? 0); ai_passive := false;
       ai_family := fam; ai_socktype := SOCK_STREAM |} in
  match getaddrinfo n (Some hostname) myport sockhints with
  | None => (-1, None, w)
  | Some [] => (-1, None, w)
  | Some (si :: rest) =>
      let '(fd, w') := tcp_attempts n si (si :: rest) w in
      (fd, if fd <? 0 then None else Some (si :: rest), w')
  end.

(** The loop of [getudpsock]: the first [socket] that opens is
    returned; nothing is connected. *)
Fixpoint udp_attempts (n : netenv) (si : addrinfo) (r : list addrinfo)
  (w : net) : Z * net :=
  match r with
  | [] => (-1, w)
  | _ :: next =>
      let sockfd := socket_at n (nsocket w) (a_family si) SOCK_DGRAM in
      let w := did_socket sockfd w in
      if sockfd >=? 0 then (sockfd, w) else udp_attempts n si next w
  end.

(** [getudpsock(family, host, port, si, verbose)]: the name resolved is
    the global [hostname], not the argument [host]. *)
Definition getudpsock (n : netenv) (hostname : list ascii) (fam : family)
  (host port : list ascii) (w : net) : Z * option (list addrinfo) * net :=
  let sockhints :=
    {| ai_numerichost := negb (numhost hostname =? 0); ai_passive := false;
       ai_family := fam; ai_socktype := SOCK_DGRAM |} in
  match getaddrinfo n (Some hostname) port sockhints with
  | None => (-1, None, w)
  | Some [] => (-1, None, w)
  | Some (si :: rest) =>
      let '(fd, w') := udp_attempts n si (si :: rest) w in
      (fd, if fd <? 0 then None else Some (si :: rest), w')
  end.

(** How the set-up of the listening socket in [genserver] ends: the
    server goes on to [accept] on [passock], or it has left. *)
Inductive listener : Type :=
| Accepting (passock : Z) (fam : option family)
| Quit (code : Z).

(** One attempt of [genserver] to create the endpoint of the control
    channel for a family: [None] when no socket could be had (the
    caller goes on), otherwise the listener or the exit. *)
Definition listen_on (n : netenv) (myport : list ascii) (fam : family)
  (w : net) : option (list addrinfo) * Z * option Z * net :=
  let sockhints :=
    {| ai_numerichost := false; ai_passive := true;
       ai_family := fam; ai_socktype := SOCK_STREAM |} in
  match getaddrinfo n None myport sockhints with
  | Some (si :: rest) =>
      let passock := socket_at n (nsocket w) (a_family si) SOCK_STREAM in
      let w := did_socket passock w in
      if passock >=? 0 then
        if bind_ok n passock then
          if listen_ok n passock then (Some (si :: rest), passock, None, w)
          else (Some (si :: rest), passock, Some 1, w)
        else (Some (si :: rest), passock, Some 1, w)
      else (Some (si :: rest), passock, None, w)
  | _ => (None, -1, None, w)
  end.

(** [genserver] from [passock = -1] to the [accept] loop. *)
Definition genserver_setup (n : netenv) (myport : list ascii) (w : net)
  : listener * net :=
  match listen_on n myport AF_INET6 w with
  | (_, _, Some code, w) => (Quit code, w)
  | (None, _, None, w) | (Some _, -1, None, w) =>
      (* passock == -1: create the endpoint for ipv4 *)
      match listen_on n myport AF_INET w with
      | (_, _, Some code, w) => (Quit code, w)
      | (None, _, None, w) => (Quit 1, w)      (* s: getaddrinfo ipv4 *)
      | (Some si, passock, None, w) =>
          (Accepting passock (option_map a_family (hd_error si)), w)
      end
  | (Some si, passock, None, w) =>
      (Accepting passock (option_map a_family (hd_error si)), w)
  end.

End Sockets.

(* ================================================================== *)
(** ** Notions used to state properties of runs *)

Module Notions.
Import CInt Libc Attract.

(** A configuration as the flag checks of [main] mean to leave it. *)
Definition valid_config (g : globals) : Prop :=
  (ipvers g = "?" \/ ipvers g = "4" \/ ipvers g = "6")%char
  /\ (prot g = "t" \/ prot g = "u")%char
  /\ (direct g = "u" \/ direct g = "b")%char
  /\ 1 <= meslen g <= MAXLEN
  /\ 0 <= mesnum g < 2 ^ 32
  /\ 1 <= mestime g < 2 ^ 32.

(** Of the first [n] receives on the UDP socket, how many end in a
    timeout: those answered by [Timeout] and those for which nothing is
    scripted any more. *)
Fixpoint lost_among (n : nat) (evs : list udp_event) : Z :=
  match n with
  | O => 0
  | S n' =>
      match evs with
      | [] => 1 + lost_among n' []
      | Timeout :: rest => 1 + lost_among n' rest
      | _ :: rest => lost_among n' rest
      end
  end.

(** The datagram [d] is one the receive loop of the server goes on
    after: it is not empty and does not start with the marker. *)
Definition plain_datagram (d : list ascii) : Prop :=
  d <> [] /\ byte0 d <> "E"%char.

(** An answer to a receive that does not end the process. *)
Definition no_recv_error (ev : udp_event) : Prop := ev <> RecvError.

(** The characters of a numerical IPv4 address. *)
Definition digit_or_dot (c : ascii) : Prop :=
  isdigit c = true \/ c = "."%char.

(** The outcome [o] of a computation started in [w] has taken nothing
    back of what was written on the control channel: when the process
    goes on or leaves, the bytes written start with those of [w]. *)
Definition output_kept {A : Type} (w : world) (o : outcome A) : Prop :=
  match o with
  | Go _ w' | Exit _ w' => exists more, tcp_out w' = tcp_out w ++ more
  | Fuel => True
  end.

(** A computation that only adds to what was written. *)
Definition only_adds {A : Type} (m : M A) : Prop :=
  forall w, output_kept w (m w).

End Notions.

(* ================================================================== *)
(** ** More concrete runs *)

Module Scenario2.
Import CInt Libc Attract Scenario Sockets Notions.

(** A resolver that gives two IPv6 addresses, 10 and 20, of which only
    the second can be connected to; on this machine no socket can be
    bound. *)
Definition both_addresses : list addrinfo :=
  [ {| a_family := AF_INET6; a_addr := 10 |};
    {| a_family := AF_INET6; a_addr := 20 |} ].

Definition two_addresses : netenv :=
  {| getaddrinfo := fun _ _ _ => Some both_addresses;
     socket_at := fun n _ _ => 3 + Z.of_nat n;
     connect_at := fun _ a => a =? 20;
     bind_ok := fun _ => false;
     listen_ok := fun _ => true |}.

(** What [gettcpsock] leaves on that machine: two sockets opened and
    closed again, two connects, both to address 10. *)
Definition after_two_tries : net :=
  {| nsocket := 2; opened := [3; 4]; closed := [3; 4]; tried := [10; 10] |}.

Definition one_socket : net :=
  {| nsocket := 1; opened := [3]; closed := []; tried := [] |}.

(** [-v 6 -c 3 -l 2]: three packets of two bytes over TCP, one way. *)
Definition g_session : globals := set_ipvers "6" g_three.

(** [-v 6 -c 3 -l 2 -p u -d b] *)
Definition g_udp_bidi : globals :=
  set_direct "b" (set_prot "u" g_session).

Definition session_msg : list ascii :=
  control_message "6" "t" "u" 2 ++ [NUL].

(** The machine of a server whose first read returns the nine bytes of
    that control message. *)
Definition server_side : env :=
  {| localhz := 100;
     rd := fun n => match n with O => 9 | _ => 65637 end;
     wr := fun _ => true;
     clk := fun n => (Z.of_nat n * 50, no_tms);
     tcp_connect := fun _ => true;
     udp_open := true;
     port_try := fun _ _ => BindOk |}.

(** The machine of a client whose first read returns the two bytes of
    the port reply. *)
Definition client_side : env :=
  {| localhz := 100;
     rd := fun n => match n with O => 2 | _ => 65637 end;
     wr := fun _ => true;
     clk := fun n => (Z.of_nat n * 50, no_tms);
     tcp_connect := fun _ => true;
     udp_open := true;
     port_try := fun _ _ => BindOk |}.

(** What reaches the server in that session. *)
Definition ws_session : world :=
  fresh (session_msg ++ sent_stream 3 2) [].

(** Two datagrams reach the server, the third is lost, the final one
    comes too late. *)
Definition two_then_timeout : world :=
  fresh [] [Datagram (str "XX"); Datagram (str "XX"); Timeout;
            Datagram (str "EX")].

(** Of the echoes to the client the first is lost, the second arrives
    and nothing comes after it. *)
Definition echoes_lost : world := fresh [] [Timeout; Datagram (str "XX")].

(** Three bytes are pending: one packet of two bytes and a half. *)
Definition three_bytes : world := fresh (str "XXE") [].

(** A statistics message that holds the received count only. *)
Definition w_short_stats : world := fresh (print_dec 3 ++ [NUL]) [].

End Scenario2.

(* ================================================================== *)
(** ** Facts about machine integers *)

Module CIntFacts.
Import CInt.

Lemma sint64_id (z : Z) : in_sint64 z -> sint64 z = z.
Proof.
  unfold in_sint64, sint64, LLONG_MIN, LLONG_MAX. intros H.
  rewrite Z.mod_small; lia.
Qed.

Lemma sint32_id (z : Z) : in_sint32 z -> sint32 z = z.
Proof.
  unfold in_sint32, sint32, INT_MIN, INT_MAX. intros H.
  rewrite Z.mod_small; lia.
Qed.

Lemma sint32_range (z : Z) : in_sint32 (sint32 z).
Proof.
  unfold in_sint32, sint32, INT_MIN, INT_MAX.
  pose proof (Z.mod_pos_bound (z + 2 ^ 31) (2 ^ 32) ltac:(lia)). lia.
Qed.

Lemma sint64_range (z : Z) : in_sint64 (sint64 z).
Proof.
  unfold in_sint64, sint64, LLONG_MIN, LLONG_MAX.
  pose proof (Z.mod_pos_bound (z + 2 ^ 63) (2 ^ 64) ltac:(lia)). lia.
Qed.

Lemma clamp64_id (z : Z) : in_sint64 z -> clamp64 z = z.
Proof. unfold in_sint64, clamp64. lia. Qed.

Lemma uint32_neg (z : Z) : - 2 ^ 32 <= z < 0 -> uint32 z = 2 ^ 32 + z.
Proof.
  intros H. unfold uint32.
  replace z with ((2 ^ 32 + z) + (-1) * 2 ^ 32) by lia.
  rewrite Z.mod_add by lia. rewrite Z.mod_small; lia.
Qed.

End CIntFacts.

(* ================================================================== *)
(** ** Facts about the conversions: printing and scanning decimals *)

Module LibcFacts.
Import CInt Libc CIntFacts.

Lemma digit_char_spec (d : Z) :
  0 <= d < 10 -> isdigit (digit_char d) = true /\ digit_val (digit_char d) = d.
Proof.
  intros H.
  assert (d = 0 \/ d = 1 \/ d = 2 \/ d = 3 \/ d = 4 \/ d = 5 \/ d = 6
          \/ d = 7 \/ d = 8 \/ d = 9) as Hd by lia.
  repeat (destruct Hd as [Hd | Hd]; [subst d; split; reflexivity |]).
  subst d; split; reflexivity.
Qed.

Lemma isdigit_code (c : ascii) : isdigit c = true -> 48 <= code c <= 57.
Proof.
  unfold isdigit. intros H. apply andb_true_iff in H. destruct H as [H1 H2].
  apply Z.leb_le in H1, H2. lia.
Qed.

Lemma isdigit_not_space (c : ascii) : isdigit c = true -> isspace c = false.
Proof.
  intros H. apply isdigit_code in H. unfold isspace.
  destruct (Z.eqb_spec (code c) 32); [lia |].
  destruct (Z.leb_spec 9 (code c)); [| reflexivity].
  destruct (Z.leb_spec (code c) 13); [lia | reflexivity].
Qed.

Lemma isdigit_neq (c d : ascii) :
  isdigit c = true -> isdigit d = false -> Ascii.eqb c d = false.
Proof.
  intros Hc Hd. destruct (Ascii.eqb_spec c d); [| reflexivity].
  subst. congruence.
Qed.

Lemma dec_digits_acc (fuel : nat) :
  forall n acc, dec_digits fuel n acc = dec_digits fuel n [] ++ acc.
Proof.
  induction fuel as [| fuel IH]; intros n acc; simpl; [reflexivity |].
  destruct (n <? 10); [reflexivity |].
  rewrite (IH _ (_ :: acc)), (IH _ [_]), <- app_assoc. reflexivity.
Qed.

Lemma dec_digits_all (fuel : nat) :
  forall n, 0 <= n -> Forall (fun c => isdigit c = true) (dec_digits fuel n []).
Proof.
  induction fuel as [| fuel IH]; intros n Hn; simpl; [constructor |].
  assert (isdigit (digit_char (n mod 10)) = true) as Hd
    by (apply digit_char_spec, Z.mod_pos_bound; lia).
  destruct (n <? 10).
  - repeat constructor; assumption.
  - rewrite dec_digits_acc. apply Forall_app. split.
    + apply IH. apply Z.div_pos; lia.
    + repeat constructor; assumption.
Qed.

Lemma dec_digits_nonempty (fuel : nat) (n : Z) :
  dec_digits (S fuel) n [] <> [].
Proof.
  simpl. destruct (n <? 10); [discriminate |].
  rewrite dec_digits_acc. intros H. apply app_eq_nil in H.
  destruct H; discriminate.
Qed.

Lemma scan_dec_digits (fuel : nat) :
  forall n rest,
    0 <= n < 2 ^ Z.of_nat fuel ->
    scan_digits (dec_digits fuel n [] ++ rest) 0 = scan_digits rest n.
Proof.
  induction fuel as [| fuel IH]; intros n rest Hn.
  - simpl in *. replace n with 0 by lia. reflexivity.
  - assert (0 <= n mod 10 < 10) as Hm by (apply Z.mod_pos_bound; lia).
    destruct (digit_char_spec _ Hm) as [Hd Hv].
    cbn [dec_digits]. destruct (Z.ltb_spec n 10) as [Hlt | Hge].
    + cbn [app scan_digits]. rewrite Hd, Hv, Z.mod_small by lia.
      reflexivity.
    + rewrite dec_digits_acc, <- app_assoc. rewrite IH.
      * cbn [app scan_digits]. rewrite Hd, Hv.
        f_equal. pose proof (Z.div_mod n 10 ltac:(lia)). lia.
      * rewrite Nat2Z.inj_succ, Z.pow_succ_r in Hn by lia.
        split; [apply Z.div_pos; lia |].
        apply Z.div_lt_upper_bound; lia.
Qed.

Lemma scan_digits_stop (rest : list ascii) (acc : Z) :
  starts_with_digit rest = false -> scan_digits rest acc = (acc, rest).
Proof.
  destruct rest as [| c rest]; simpl; [reflexivity |].
  intros ->. reflexivity.
Qed.

Lemma print_unsigned_all (n : Z) :
  0 <= n -> Forall (fun c => isdigit c = true) (print_unsigned n).
Proof. apply dec_digits_all. Qed.

Lemma print_unsigned_head (n : Z) :
  0 <= n -> exists c tl, print_unsigned n = c :: tl /\ isdigit c = true.
Proof.
  intros Hn. pose proof (print_unsigned_all n Hn) as Hall.
  pose proof (dec_digits_nonempty (Z.to_nat (Z.log2 n)) n) as Hne.
  fold (print_unsigned n) in Hne.
  destruct (print_unsigned n) as [| c tl]; [congruence |].
  exists c, tl. split; [reflexivity |]. now inversion Hall.
Qed.

Lemma scan_print_unsigned (n : Z) (rest : list ascii) :
  0 <= n -> starts_with_digit rest = false ->
  scan_digits (print_unsigned n ++ rest) 0 = (n, rest).
Proof.
  intros Hn Hrest. unfold print_unsigned. rewrite scan_dec_digits.
  - now apply scan_digits_stop.
  - split; [assumption |].
    rewrite Nat2Z.inj_succ, Z2Nat.id by apply Z.log2_nonneg.
    destruct (Z.eq_dec n 0) as [-> | Hnz]; [reflexivity |].
    apply Z.log2_spec. lia.
Qed.

(** Scanning what [%d] printed gives the number back, provided the text
    that follows does not go on with a digit. *)
Lemma scan_int_print_dec (z : Z) (rest : list ascii) :
  in_sint64 z -> starts_with_digit rest = false ->
  scan_int (print_dec z ++ rest) = Some (z, rest).
Proof.
  intros Hz Hrest. unfold print_dec, scan_int.
  destruct (Z.ltb_spec z 0) as [Hneg | Hpos].
  - destruct (print_unsigned_head (- z) ltac:(lia)) as (c & tl & Heq & Hc).
    cbn [app skip_space]. change (isspace "-") with false. cbv iota.
    change (Ascii.eqb "-" "-") with true. cbv iota.
    pose proof (scan_print_unsigned (- z) rest ltac:(lia) Hrest) as Hscan.
    rewrite Heq in *. cbn [app starts_with_digit]. rewrite Hc.
    cbn [app] in Hscan. rewrite Hscan.
    rewrite clamp64_id; [do 2 f_equal; lia |].
    now replace (- - z) with z by lia.
  - destruct (print_unsigned_head z Hpos) as (c & tl & Heq & Hc).
    pose proof (scan_print_unsigned z rest Hpos Hrest) as Hscan.
    rewrite Heq in *. cbn [app skip_space] in *.
    rewrite (isdigit_not_space c Hc).
    rewrite (isdigit_neq c "-" Hc eq_refl), (isdigit_neq c "+" Hc eq_refl).
    cbn [starts_with_digit]. rewrite Hc, Hscan.
    now rewrite clamp64_id.
Qed.

Lemma atoi_print_dec (z : Z) : in_sint32 z -> atoi (print_dec z) = z.
Proof.
  intros Hz. unfold atoi.
  rewrite <- (app_nil_r (print_dec z)), scan_int_print_dec.
  - now apply sint32_id.
  - unfold in_sint32, in_sint64, INT_MIN, INT_MAX, LLONG_MIN, LLONG_MAX in *.
    lia.
  - reflexivity.
Qed.

Lemma print_dec_no_nul (z : Z) :
  Forall (fun c => Ascii.eqb c NUL = false) (print_dec z).
Proof.
  assert (forall n, 0 <= n ->
            Forall (fun c => Ascii.eqb c NUL = false) (print_unsigned n)) as H.
  { intros n Hn. eapply Forall_impl; [| apply (print_unsigned_all n Hn)].
    intros c Hc. now apply isdigit_neq. }
  unfold print_dec. destruct (Z.ltb_spec z 0).
  - constructor; [reflexivity | apply H; lia].
  - apply H; lia.
Qed.

Lemma cstring_app_nul (s t : list ascii) :
  Forall (fun c => Ascii.eqb c NUL = false) s -> cstring (s ++ NUL :: t) = s.
Proof.
  induction 1 as [| c s Hc Hs IH]; simpl.
  - reflexivity.
  - rewrite Hc, IH. reflexivity.
Qed.

Lemma atoi_range (s : list ascii) : in_sint32 (atoi s).
Proof.
  unfold atoi. destruct (scan_int s) as [[v rest] |].
  - apply sint32_range.
  - unfold in_sint32, INT_MIN, INT_MAX. lia.
Qed.

Lemma cstring_app (s t : list ascii) :
  Forall (fun c => Ascii.eqb c NUL = false) s -> cstring (s ++ t) = s ++ cstring t.
Proof.
  induction 1 as [| c s Hc Hs IH]; simpl.
  - reflexivity.
  - rewrite Hc, IH. reflexivity.
Qed.

Lemma skip_space_print_dec (z : Z) (rest : list ascii) :
  skip_space (print_dec z ++ rest) = print_dec z ++ rest.
Proof.
  unfold print_dec. destruct (Z.ltb_spec z 0).
  - reflexivity.
  - destruct (print_unsigned_head z ltac:(lia)) as (c & tl & -> & Hc).
    cbn [app skip_space]. now rewrite isdigit_not_space.
Qed.

Lemma cstring_cons (c : ascii) (s : list ascii) :
  Ascii.eqb c NUL = false -> cstring (c :: s) = c :: cstring s.
Proof. intros H. simpl. now rewrite H. Qed.

Lemma sscanf_char (c : ascii) (s : list ascii) (fmt : list sdir) :
  sscanf (c :: s) (Sc :: fmt) = Vchar c :: sscanf s fmt.
Proof. reflexivity. Qed.

Lemma sscanf_space (c : ascii) (s : list ascii) (fmt : list sdir) :
  isspace c = true -> sscanf (c :: s) (Sws :: fmt) = sscanf s (Sws :: fmt).
Proof. intros H. simpl. now rewrite H. Qed.

Lemma sscanf_nospace (c : ascii) (s : list ascii) (fmt : list sdir) :
  isspace c = false -> sscanf (c :: s) (Sws :: fmt) = sscanf (c :: s) fmt.
Proof. intros H. simpl. now rewrite H. Qed.

Lemma sscanf_space_dec (z : Z) (s : list ascii) (fmt : list sdir) :
  sscanf (print_dec z ++ s) (Sws :: fmt) = sscanf (print_dec z ++ s) fmt.
Proof. cbn [sscanf]. now rewrite skip_space_print_dec. Qed.

Lemma sscanf_int_dec (z : Z) (s : list ascii) (fmt : list sdir) :
  in_sint64 z -> starts_with_digit s = false ->
  sscanf (print_dec z ++ s) (Sint :: fmt) = Vint z :: sscanf s fmt.
Proof. intros Hz Hs. cbn [sscanf]. now rewrite scan_int_print_dec. Qed.

Lemma dec_digits_length (fuel : nat) :
  forall n acc, (List.length (dec_digits fuel n acc) <= fuel + List.length acc)%nat.
Proof.
  induction fuel as [| fuel IH]; intros n acc; simpl; [lia |].
  destruct (n <? 10); simpl; [lia |].
  specialize (IH (n / 10) (digit_char (n mod 10) :: acc)). simpl in IH. lia.
Qed.

Lemma print_dec_length (z : Z) :
  in_sint64 z -> (List.length (print_dec z) <= 65)%nat.
Proof.
  unfold in_sint64, LLONG_MIN, LLONG_MAX. intros Hz.
  assert (forall n, 0 <= n <= 2 ^ 63 ->
            (List.length (print_unsigned n) <= 64)%nat) as H.
  { intros n Hn. unfold print_unsigned.
    assert (Z.log2 n < 64).
    { destruct (Z.eq_dec n 0) as [-> | Hnz]; [reflexivity |].
      apply Z.log2_lt_pow2; lia. }
    pose proof (Z.log2_nonneg n).
    pose proof (dec_digits_length (S (Z.to_nat (Z.log2 n))) n []) as Hl.
    cbn [List.length] in Hl. lia. }
  unfold print_dec. destruct (Z.ltb_spec z 0).
  - simpl. specialize (H (- z) ltac:(lia)). lia.
  - specialize (H z ltac:(lia)). lia.
Qed.

End LibcFacts.

(* ================================================================== *)
(** ** The handshake *)

Module Handshake.
Import CInt Libc Attract Scenario CIntFacts LibcFacts.

(** C2.  Handshake round trip: for an IP version in 4/6, a protocol in
    t/u, a direction in u/b and a packet length from 1 to 65636, the
    control message that the client prints with ["%c %c %c %d\n"] and
    sends with its terminating NUL is split up by the ["%c %c %c %lld"]
    of the server into exactly the same four values, whatever the
    variables of the server held before. *)
Theorem control_roundtrip (ipv prt dir : ascii) (len : Z) (junk : ctlvars) :
  (ipv = "4" \/ ipv = "6")%char ->
  (prt = "t" \/ prt = "u")%char ->
  (dir = "u" \/ dir = "b")%char ->
  1 <= len <= MAXLEN ->
  parse_control (control_message ipv prt dir len ++ [NUL]) junk =
  {| h_ipvers := ipv; h_prot := prt; h_direct := dir; h_targetlen := len |}.
Proof.
  intros Hi Hp Hd Hlen. unfold MAXLEN in Hlen.
  unfold parse_control, control_message, ctl_fmt.
  rewrite sint32_id by (unfold in_sint32, INT_MIN, INT_MAX; lia).
  cbn [sprintf app]. rewrite <- app_assoc. cbn [app].
  assert (Hin : in_sint64 len) by (unfold in_sint64, LLONG_MIN, LLONG_MAX; lia).
  destruct Hi as [-> | ->], Hp as [-> | ->], Hd as [-> | ->];
    rewrite !cstring_cons by reflexivity;
    rewrite (cstring_app _ _ (print_dec_no_nul len));
    change (cstring [NL; NUL]) with [NL];
    rewrite sscanf_char, sscanf_space, sscanf_nospace by reflexivity;
    rewrite sscanf_char, sscanf_space, sscanf_nospace by reflexivity;
    rewrite sscanf_char, sscanf_space, sscanf_space_dec by reflexivity;
    rewrite sscanf_int_dec by (assumption || reflexivity);
    reflexivity.
Qed.

Lemma control_roundtrip_witness :
  parse_control (control_message "6" "t" "u" 512 ++ [NUL])
    {| h_ipvers := "?"; h_prot := "?"; h_direct := "?"; h_targetlen := -1 |}
  = {| h_ipvers := "6"; h_prot := "t"; h_direct := "u"; h_targetlen := 512 |}.
Proof.
  apply control_roundtrip.
  - right; reflexivity.
  - left; reflexivity.
  - left; reflexivity.
  - unfold MAXLEN; lia.
Defined.

Lemma find_port_bounds (e : env) (fam : family) (fuel : nat) :
  forall base p,
    in_sint32 base -> base + Z.of_nat fuel <= INT_MAX ->
    find_port e fam fuel base = Some p ->
    base <= p <= base + Z.of_nat fuel /\ port_try e fam p = BindOk.
Proof.
  induction fuel as [| fuel IH]; intros base p Hb Hf Hfind;
    cbn [find_port] in Hfind;
    destruct (port_try e fam base) eqn:Htry; try discriminate;
    try (injection Hfind as <-; split; [lia | assumption]).
  all: rewrite sint32_id in Hfind
      by (unfold in_sint32, INT_MIN, INT_MAX in *; lia);
    apply IH in Hfind;
    [ split; [lia | tauto]
    | unfold in_sint32, INT_MIN, INT_MAX in *; lia
    | lia ].
Qed.

Lemma write_string_ok (e : env) (s : list ascii) (w : world) :
  wr e (nwrite w) = true ->
  Forall (fun c => Ascii.eqb c NUL = false) s ->
  write_string e s w
  = Go (Z.of_nat (List.length s) + 1) (did_write (s ++ [NUL]) w).
Proof.
  intros Hw Hs. unfold write_string, sys_write. rewrite Hw.
  rewrite cstring_app_nul by assumption.
  replace (Z.to_nat (Z.of_nat (List.length s) + 1))
    with (List.length (s ++ [NUL])) by (rewrite length_app; simpl; lia).
  now rewrite firstn_all.
Qed.

Lemma write_string_fail (e : env) (s : list ascii) (w : world) :
  wr e (nwrite w) = false -> write_string e s w = Go (-1) (failed_write w).
Proof. intros Hw. unfold write_string, sys_write. now rewrite Hw. Qed.

(** C8.  In a UDP session whose trial-binding loop ends, the port
    written back in the port reply is at least the base port of the
    server: the loop starts at the base port, only increments, passes
    over candidates whose resolution, socket or bind fails, and the
    reply is the decimal text of the port that was bound.  (Stated for
    searches that stay below [INT_MAX], where [udpport++] is defined.) *)
Theorem udp_port_at_least_base (e : env) (g : globals) (v : ctlvars)
  (portfuel : nat) (w w' : world) (port : Z) :
  h_prot v = "u"%char ->
  atoi (myport g) + Z.of_nat portfuel <= INT_MAX ->
  announce_port e g v portfuel w = Go port w' ->
  atoi (myport g) <= port
  /\ port_try e (family_of (h_ipvers v)) port = BindOk
  /\ tcp_out w' = tcp_out w ++ port_reply port ++ [NUL]
  /\ atoi (cstring (port_reply port ++ [NUL])) = port.
Proof.
  intros Hu Hfuel Hrun. unfold announce_port, bind in Hrun.
  rewrite Hu in Hrun. change (chr_eq "u" "u") with true in Hrun.
  cbv iota in Hrun.
  destruct (find_port e (family_of (h_ipvers v)) portfuel (atoi (myport g)))
    as [p |] eqn:Hfind; [| discriminate].
  unfold ret in Hrun.
  apply find_port_bounds in Hfind; [| apply atoi_range | assumption].
  destruct Hfind as [Hrange Hok].
  assert (Hnul : Forall (fun c => Ascii.eqb c NUL = false) (port_reply p)).
  { unfold port_reply. cbn [sprintf]. rewrite app_nil_r.
    apply print_dec_no_nul. }
  destruct (wr e (nwrite w)) eqn:Hw.
  - rewrite write_string_ok in Hrun by assumption.
    destruct (Z.ltb_spec (Z.of_nat (List.length (port_reply p)) + 1) 0);
      [lia |].
    unfold ret in Hrun. injection Hrun as <- <-.
    split; [lia |]. split; [assumption |]. split; [reflexivity |].
    rewrite cstring_app_nul by assumption.
    unfold port_reply. cbn [sprintf]. rewrite app_nil_r.
    apply atoi_print_dec.
    pose proof (atoi_range (myport g)).
    unfold in_sint32, INT_MIN, INT_MAX in *. lia.
  - rewrite write_string_fail in Hrun by assumption.
    discriminate.
Qed.

Lemma udp_port_at_least_base_witness :
  atoi (myport initial_globals) <= 31434
  /\ port_try quiet (family_of (h_ipvers udp_request)) 31434 = BindOk
  /\ tcp_out (did_write (port_reply 31434 ++ [NUL]) (fresh [] []))
     = tcp_out (fresh [] []) ++ port_reply 31434 ++ [NUL]
  /\ atoi (cstring (port_reply 31434 ++ [NUL])) = 31434.
Proof.
  apply (udp_port_at_least_base quiet initial_globals udp_request 10
           (fresh [] [])).
  - reflexivity.
  - vm_compute. discriminate.
  - vm_compute. reflexivity.
Defined.

End Handshake.

(* ================================================================== *)
(** ** The command line *)

Module CommandLine.
Import CInt Libc Attract Scenario CIntFacts LibcFacts.

(** C6 against the code.  The check of the [-c] argument is made on the
    [unsigned int] that the value was stored in, so it rejects the value
    0 only: every other value, negative ones included, is accepted as
    the packet count, reduced modulo 2^32.  With [-c -5] the client goes
    on with a packet count of 4294967291: it sends the control message
    and data packets (here until a write fails). *)
Theorem count_flag_check (optarg : list ascii) (g : globals) (w : world) :
  option_case "c" optarg g w
  = (if atoi optarg =? 0 then Exit 1 w
     else Go (set_mesnum (uint32 (atoi optarg)) g) w)
  /\ option_case "c" (str "-5") initial_globals w
     = Go (set_mesnum 4294967291 initial_globals) w
  /\ option_map tcp_out
       (final_world
          (main third_write_fails 0 0 5
                [("c"%char, str "-5"); ("l"%char, str "2")] 1 w_closed))
     = Some (control_message "6" "t" "u" 2 ++ [NUL] ++ str "XX").
Proof.
  split; [| split; [reflexivity | vm_compute; reflexivity]].
  unfold option_case.
  change (chr_eq "c" "s") with false. change (chr_eq "c" "r") with false.
  change (chr_eq "c" "v") with false. change (chr_eq "c" "p") with false.
  change (chr_eq "c" "d") with false. change (chr_eq "c" "l") with false.
  change (chr_eq "c" "c") with true. cbv iota. cbn [mesnum set_mesnum].
  pose proof (atoi_range optarg) as Hr.
  unfold in_sint32, INT_MIN, INT_MAX in Hr.
  destruct (Z.eqb_spec (atoi optarg) 0) as [-> | Hnz]; [reflexivity |].
  destruct (Z.leb_spec (uint32 (atoi optarg)) 0) as [Hle | Hgt];
    [| reflexivity].
  exfalso. unfold uint32 in Hle.
  destruct (Z.lt_ge_cases (atoi optarg) 0) as [Hneg | Hpos].
  - pose proof (uint32_neg (atoi optarg) ltac:(lia)) as Hu.
    unfold uint32 in Hu. lia.
  - rewrite Z.mod_small in Hle by lia. lia.
Qed.

End CommandLine.

(* ================================================================== *)
(** ** The statistics of the client *)

Module Statistics.
Import CInt Libc Attract Scenario CIntFacts LibcFacts.

(** C3, as stated, fails: one second elapsed on the client while the
    server reports five seconds of timeout gives a negative number of
    real ticks, not a value floored to 1. *)
Lemma realticks_not_floored :
  realticks_of 100 0 5 100 = -400
  /\ ~ (1 <= realticks_of 100 0 5 100)
  /\ realticks_of 100 0 5 100 <> Z.max 1 (100 - 0 - 5 * 100).
Proof.
  assert (realticks_of 100 0 5 100 = -400) as H by reflexivity.
  rewrite H. repeat split; lia.
Qed.


(** C3, amended.  The real ticks used as divisor are the elapsed ticks
    less the timeout seconds of the server times the tick rate, with the
    single value 0 replaced by 1: the divisor is never 0, it is the
    difference floored to 1 whenever that difference is not negative,
    and a negative difference is kept as it is.  (Stated for values
    whose differences and product fit the 64-bit types.) *)
Theorem realticks_zero_guard (now begtime numtout localhz : Z) :
  in_sint64 (now - begtime) ->
  in_sint64 (numtout * localhz) ->
  in_sint64 (now - begtime - numtout * localhz) ->
  let d := now - begtime - numtout * localhz in
  realticks_of now begtime numtout localhz = (if d =? 0 then 1 else d)
  /\ realticks_of now begtime numtout localhz <> 0
  /\ (0 <= d -> realticks_of now begtime numtout localhz = Z.max 1 d).
Proof.
  intros H1 H2 H3 d. unfold realticks_of, sub64, mul64.
  rewrite (sint64_id _ H1), (sint64_id _ H2), (sint64_id _ H3).
  fold d. destruct (Z.eqb_spec d 0); repeat split; lia.
Qed.

Lemma realticks_zero_guard_witness :
  realticks_of 700 200 0 100 = 500
  /\ realticks_of 300 300 0 100 = 1.
Proof.
  split.
  - apply (realticks_zero_guard 700 200 0 100);
      unfold in_sint64, LLONG_MIN, LLONG_MAX; lia.
  - apply (realticks_zero_guard 300 300 0 100);
      unfold in_sint64, LLONG_MIN, LLONG_MAX; lia.
Defined.


(** C7, as stated, fails: the program divides by the real ticks before
    it multiplies by the tick rate, and the truncation in between
    matters: one packet of 1024 bytes in 100 ticks at 100 ticks per
    second is reported as 0 K/s, where the formula of the claim gives 1. *)
Lemma throughput_order_matters :
  throughput 1 1024 1 100 100 = 0
  /\ throughput 1 1024 1 100 100 <> 1 * 1024 * 1 * 100 / 100 / 1024.
Proof. split; [reflexivity | discriminate]. Qed.

(** C7, amended.  For a received count, a packet length from 1 to 65636,
    a direction factor of 1 or 2, a positive tick rate and positive real
    ticks, the reported K/s value is
    ((received * length * factor) / real-ticks) * tick-rate / 1024 with
    every division an integer division, in this order; in particular
    1000 packets of 512 bytes, factor 1, in 500 ticks at 100 ticks per
    second give 100.  (Stated for products that fit the 64-bit type.) *)
Theorem throughput_formula (numrcv meslen factor realticks localhz : Z) :
  0 <= numrcv -> 1 <= meslen <= MAXLEN -> factor = 1 \/ factor = 2 ->
  0 < localhz -> 0 < realticks ->
  numrcv * meslen * factor * localhz <= LLONG_MAX ->
  throughput numrcv meslen factor realticks localhz
  = numrcv * meslen * factor / realticks * localhz / 1024
  /\ throughput 1000 512 1 500 100 = 100.
Proof.
  intros Hn Hl Hf Hz Hr Hmax. split; [| reflexivity].
  unfold MAXLEN, LLONG_MAX in *.
  assert (0 <= numrcv * meslen) as P1 by nia.
  assert (0 <= numrcv * meslen * factor) as P2 by nia.
  assert (numrcv * meslen <= numrcv * meslen * factor) as P3 by nia.
  assert (numrcv * meslen * factor <= numrcv * meslen * factor * localhz)
    as P4 by nia.
  assert (0 <= numrcv * meslen * factor / realticks
          <= numrcv * meslen * factor) as P5.
  { split; [apply Z.div_pos; lia |].
    apply Z.div_le_upper_bound; nia. }
  assert (0 <= numrcv * meslen * factor / realticks * localhz
          <= numrcv * meslen * factor * localhz) as P6 by nia.
  assert (0 <= numrcv * meslen * factor / realticks * localhz / 1024
          <= numrcv * meslen * factor / realticks * localhz) as P7.
  { split; [apply Z.div_pos; lia |].
    apply Z.div_le_upper_bound; lia. }
  unfold throughput, div64, mul64.
  rewrite (sint64_id (numrcv * meslen))
    by (unfold in_sint64, LLONG_MIN, LLONG_MAX; lia).
  rewrite (sint64_id (numrcv * meslen * factor))
    by (unfold in_sint64, LLONG_MIN, LLONG_MAX; lia).
  rewrite (Z.quot_div_nonneg (numrcv * meslen * factor)) by lia.
  rewrite (sint64_id (numrcv * meslen * factor / realticks))
    by (unfold in_sint64, LLONG_MIN, LLONG_MAX; lia).
  rewrite (sint64_id (numrcv * meslen * factor / realticks * localhz))
    by (unfold in_sint64, LLONG_MIN, LLONG_MAX; lia).
  rewrite Z.quot_div_nonneg by lia.
  apply sint64_id. unfold in_sint64, LLONG_MIN, LLONG_MAX; lia.
Qed.

Lemma throughput_formula_witness :
  throughput 1000 512 1 500 100 = 1000 * 512 * 1 / 500 * 100 / 1024
  /\ throughput 1000 512 1 500 100 = 100.
Proof.
  apply throughput_formula; unfold MAXLEN, LLONG_MAX; try lia.
Defined.

Lemma stats_message_no_nul (a b c : Z) :
  Forall (fun c => Ascii.eqb c NUL = false) (stats_message a b c).
Proof.
  unfold stats_message. cbn [sprintf].
  repeat (apply Forall_app; split); try apply print_dec_no_nul;
    repeat constructor.
Qed.

Lemma stats_message_length (a b c : Z) :
  in_sint64 a -> in_sint64 c ->
  (List.length (stats_message a b c) <= 197)%nat.
Proof.
  intros Ha Hc. unfold stats_message. cbn [sprintf].
  rewrite !length_app. simpl List.length.
  pose proof (print_dec_length a Ha).
  pose proof (print_dec_length c Hc).
  pose proof (print_dec_length (mul64 b UDPTOUT) (sint64_range _)). lia.
Qed.

Lemma stats_roundtrip (a b c : Z) :
  in_sint64 a -> in_sint64 c ->
  sscanf (stats_message a b c) stats_fmt
  = [Vint a; Vint (mul64 b UDPTOUT); Vint c].
Proof.
  intros Ha Hc. unfold stats_message, stats_fmt. cbn [sprintf app].
  rewrite sscanf_int_dec by (assumption || reflexivity).
  rewrite sscanf_space, sscanf_space_dec by reflexivity.
  rewrite sscanf_int_dec by (apply sint64_range || reflexivity).
  rewrite sscanf_space, sscanf_space_dec by reflexivity.
  rewrite sscanf_int_dec by (assumption || reflexivity).
  reflexivity.
Qed.


(** C10.  The timeouts that the client itself counted during the
    transfer never reach the statistics: whatever the shared counter
    holds when the loop is left ([own]), reading the final statistics
    message of the server overwrites it with the figure the server sent,
    and the report, its real-ticks adjustment included, is computed from
    that figure alone. *)
Theorem server_figure_overwrites_timeouts
  (e : env) (g : globals) (numrcv0 hogserv0 begtime : Z) (begtms : tms)
  (st : cloop) (w : world) (srv_numrcv srv_numtout srv_cpu : Z)
  (own : Z) :
  in_sint64 srv_numrcv -> in_sint64 srv_cpu ->
  tcp_in w = stats_message srv_numrcv srv_numtout srv_cpu ++ [NUL] ->
  Z.of_nat (List.length (tcp_in w)) <= rd e (nread w) ->
  let figure := mul64 srv_numtout UDPTOUT in
  let now := fst (clk e (ntimes w)) in
  let endtms := snd (clk e (ntimes w)) in
  let r := statistics e g (cnt st) srv_numrcv figure srv_cpu
                      begtime now begtms endtms in
  client_finish e g numrcv0 hogserv0 begtime begtms st (set_numtout own w)
  = Go r (took_times (set_numtout figure (took_read [] (set_timedout 0 w))))
  /\ r_realticks r = realticks_of now begtime figure (localhz e).
Proof.
  intros Ha Hc Hin Hrd figure now endtms r. split; [| reflexivity].
  pose proof (stats_message_length _ srv_numtout _ Ha Hc) as Hlen.
  pose proof (stats_message_no_nul srv_numrcv srv_numtout srv_cpu) as Hnul.
  unfold client_finish, bind, modify, sys_read, get.
  cbn [nread set_timedout set_numtout tcp_in].
  assert (List.length (tcp_in w)
          = S (List.length (stats_message srv_numrcv srv_numtout srv_cpu)))
    as Hl by (rewrite Hin, length_app; simpl; lia).
  destruct (Z.leb_spec (rd e (nread w)) 0) as [Hle | Hgt]; [lia |].
  assert (Z.min (rd e (nread w))
            (Z.min (size_t (MAXLEN + 1)) (Z.of_nat (List.length (tcp_in w))))
          = Z.of_nat (List.length (tcp_in w))) as ->.
  { unfold size_t, MAXLEN. rewrite Z.mod_small by lia. lia. }
  rewrite Nat2Z.id, firstn_all, skipn_all.
  destruct (Z.leb_spec (Z.of_nat (List.length (tcp_in w))) 0); [lia |].
  cbn [numtout took_read]. unfold store. cbn [Z.to_nat firstn app].
  rewrite Hin, <- app_assoc. cbn [app].
  rewrite cstring_app_nul by assumption.
  rewrite stats_roundtrip by assumption.
  cbn [assign3]. unfold sys_times, ret.
  cbn [ntimes took_read set_numtout set_timedout].
  destruct (clk e (ntimes w)) as [t tm] eqn:Hclk.
  subst r now endtms figure. rewrite ?Hclk. cbn [fst snd].
  f_equal. 
Qed.

Lemma server_figure_overwrites_timeouts_witness :
  client_finish quiet g_three 0 0 0 no_tms st_small (set_numtout 7 w_stats)
  = Go (statistics quiet g_three 0 3 0 12 0 0 no_tms no_tms)
       (took_times (set_numtout 0 (took_read [] (set_timedout 0 w_stats)))).
Proof.
  refine (proj1 (server_figure_overwrites_timeouts
                   quiet g_three 0 0 0 no_tms st_small w_stats 3 0 12 7
                   _ _ _ _)).
  - unfold in_sint64, LLONG_MIN, LLONG_MAX. lia.
  - unfold in_sint64, LLONG_MIN, LLONG_MAX. lia.
  - reflexivity.
  - vm_compute. discriminate.
Defined.

End Statistics.

(* ================================================================== *)
(** ** The transfer loops *)

Module Transfer.
Import CInt Libc Attract Scenario CIntFacts LibcFacts.

Ltac break_if H :=
  match type of H with
  | context [if ?b then _ else _] => destruct b eqn:?
  end.

Ltac break_match H :=
  match type of H with
  | context [match ?x with _ => _ end] => destruct x eqn:?
  end.

(** *** Receiving always comes to an end *)

(** The receive loop of the TCP branch always comes to an end within
    the budget that [getmes] gives it. *)
Lemma getmes_tcp_total (e : env) (fuel : nat) :
  forall b p len w,
    (List.length (tcp_in w) < fuel)%nat ->
    getmes_tcp e fuel b p len w <> Fuel.
Proof.
  induction fuel as [| fuel IH]; intros b p len w Hf; [lia |].
  cbn [getmes_tcp]. destruct (len =? 0); [discriminate |].
  unfold bind, sys_read.
  destruct (Z.leb_spec (rd e (nread w)) 0) as [Hle | Hgt].
  - change (-1 <=? 0) with true. discriminate.
  - cbv iota beta.
    match goal with
    | |- context [?n <=? 0] => destruct (Z.leb_spec n 0) as [Hn | Hn]
    end; [discriminate |].
    apply IH. cbn [tcp_in took_read]. rewrite length_skipn. lia.
Qed.

Lemma getmes_total (e : env) (prot : ascii) (b : list ascii) (len : Z)
  (w : world) :
  getmes e prot b len w <> Fuel.
Proof.
  unfold getmes. destruct (chr_eq prot "t").
  - unfold bind at 1. unfold get. unfold bind.
    pose proof (getmes_tcp_total e (S (List.length (tcp_in w))) b 0 len w
                  ltac:(lia)) as H.
    destruct (getmes_tcp e (S (List.length (tcp_in w))) b 0 len w);
      [discriminate | discriminate | congruence].
  - unfold bind, modify, sys_recvfrom, get, ret, exit.
    cbn [udp_in set_timedout].
    destruct (udp_in w) as [| [d | |] rest]; cbv iota beta;
      repeat match goal with
             | |- context [if ?c then _ else _] => destruct c
             end; discriminate.
Qed.

(** *** A counter-based transfer over TCP, one way *)

Lemma firstn_add {A : Type} (a b : nat) (l : list A) :
  firstn (a + b) l = firstn a l ++ firstn b (skipn a l).
Proof.
  revert l. induction a as [| a IH]; intros l; [reflexivity |].
  destruct l as [| x l]; simpl.
  - now rewrite firstn_nil.
  - now rewrite IH.
Qed.

Lemma firstn_repeat_le {A : Type} (x : A) (n m : nat) :
  (n <= m)%nat -> firstn n (repeat x m) = repeat x n.
Proof.
  revert m. induction n as [| n IH]; intros m H; [reflexivity |].
  destruct m as [| m]; [lia |]. simpl. f_equal. apply IH. lia.
Qed.

Lemma store_at_end (acc t data : list ascii) :
  store (acc ++ t) (Z.of_nat (List.length acc)) data
  = (acc ++ data) ++ skipn (List.length data) t.
Proof.
  unfold store. rewrite Nat2Z.id.
  rewrite firstn_app, firstn_all, Nat.sub_diag, firstn_O, app_nil_r.
  rewrite skipn_app.
  replace (List.length acc + List.length data - List.length acc)%nat
    with (List.length data) by lia.
  rewrite skipn_all2 by lia. now rewrite <- app_assoc.
Qed.

Lemma after_reads_0 (w : world) : after_reads 0 (tcp_in w) w = w.
Proof. destruct w; reflexivity. Qed.

Lemma after_reads_took (k : nat) (r1 r2 : list ascii) (w : world) :
  after_reads k r2 (took_read r1 w) = after_reads (S k) r2 w.
Proof. unfold after_reads, took_read; simpl. f_equal. lia. Qed.

(** With no failing read and enough bytes pending, the TCP branch of
    [getmes] takes exactly [len] bytes off the stream, however the
    reads are cut up. *)
Lemma getmes_tcp_full (e : env) (fuel : nat) :
  (forall n, 0 < rd e n) ->
  forall acc t len w,
    0 <= len <= INT_MAX ->
    len <= Z.of_nat (List.length (tcp_in w)) ->
    (Z.to_nat len <= fuel)%nat ->
    exists k,
      getmes_tcp e fuel (acc ++ t) (Z.of_nat (List.length acc)) len w
      = Go (acc ++ firstn (Z.to_nat len) (tcp_in w)
                ++ skipn (Z.to_nat len) t)
           (after_reads k (skipn (Z.to_nat len) (tcp_in w)) w).
Proof.
  intros Hrd. induction fuel as [| fuel IH]; intros acc t len w Hlen Hin Hf;
    cbn [getmes_tcp]; destruct (Z.eqb_spec len 0) as [-> | Hnz].
  1, 3: exists 0%nat; cbn [Z.to_nat firstn skipn app];
        now rewrite after_reads_0.
  - lia.
  - unfold INT_MAX in Hlen. unfold bind, sys_read.
    specialize (Hrd (nread w)) as Hk.
    destruct (Z.leb_spec (rd e (nread w)) 0) as [Hle | _]; [lia |].
    unfold size_t. rewrite (Z.mod_small len) by lia.
    set (n := Z.min (rd e (nread w))
                (Z.min len (Z.of_nat (List.length (tcp_in w))))).
    assert (1 <= n <= len) as Hn by (subst n; lia).
    cbv iota beta.
    destruct (Z.leb_spec n 0) as [Hle | _]; [lia |].
    set (data := firstn (Z.to_nat n) (tcp_in w)).
    assert (List.length data = Z.to_nat n) as Hdl.
    { subst data. apply firstn_length_le. lia. }
    rewrite store_at_end, Hdl.
    replace (Z.of_nat (List.length acc) + n)
      with (Z.of_nat (List.length (acc ++ data)))
      by (rewrite length_app, Hdl; lia).
    rewrite sint32_id by (unfold in_sint32, INT_MIN, INT_MAX; lia).
    destruct (IH (acc ++ data) (skipn (Z.to_nat n) t) (len - n)
                 (took_read (skipn (Z.to_nat n) (tcp_in w)) w))
      as [k Hk']; unfold INT_MAX; cbn [tcp_in took_read];
      try rewrite length_skipn; try lia.
    exists (S k). rewrite Hk'. cbn [tcp_in took_read].
    rewrite after_reads_took, !skipn_skipn.
    replace (Z.to_nat (len - n) + Z.to_nat n)%nat with (Z.to_nat len) by lia.
    f_equal.
    assert (firstn (Z.to_nat len) (tcp_in w)
            = data ++ firstn (Z.to_nat (len - n))
                             (skipn (Z.to_nat n) (tcp_in w))) as ->.
    { replace (Z.to_nat len) with (Z.to_nat n + Z.to_nat (len - n))%nat
        by lia.
      apply firstn_add. }
    now rewrite <- !app_assoc.
Qed.

Lemma getmes_tcp_packet (e : env) (sbuf : list ascii) (len : Z) (w : world) :
  (forall n, 0 < rd e n) ->
  0 <= len <= INT_MAX ->
  len <= Z.of_nat (List.length (tcp_in w)) ->
  exists k,
    getmes e "t" sbuf len w
    = Go (0, firstn (Z.to_nat len) (tcp_in w) ++ skipn (Z.to_nat len) sbuf)
         (after_reads k (skipn (Z.to_nat len) (tcp_in w)) w).
Proof.
  intros Hrd Hlen Hin. unfold getmes. change (chr_eq "t" "t") with true.
  cbv iota. unfold bind at 1. unfold get.
  destruct (getmes_tcp_full e (S (List.length (tcp_in w))) Hrd
                            [] sbuf len w Hlen Hin ltac:(lia)) as [k Hk].
  cbn [app List.length Z.of_nat] in Hk. unfold bind. rewrite Hk.
  exists k. reflexivity.
Qed.

Lemma putmes_tcp_ok (e : env) (b : list ascii) (len : Z) (w : world) :
  wr e (nwrite w) = true -> 0 <= len ->
  putmes e "t" b len w = Go tt (did_write (firstn (Z.to_nat len) b) w).
Proof.
  intros Hw Hlen. unfold putmes. change (chr_eq "t" "t") with true.
  cbv iota. unfold bind, sys_write. rewrite Hw.
  destruct (Z.ltb_spec len 0); [lia | reflexivity].
Qed.

Lemma plain_packet_length (len : Z) :
  List.length (plain_packet len) = Z.to_nat len.
Proof. apply repeat_length. Qed.

Lemma final_packet_length (len : Z) :
  1 <= len -> List.length (final_packet len) = Z.to_nat len.
Proof. intros H. unfold final_packet. simpl. rewrite repeat_length. lia. Qed.

Lemma plain_packet_cons (len : Z) :
  1 <= len ->
  plain_packet len = "X"%char :: repeat "X"%char (Z.to_nat (len - 1)).
Proof.
  intros H. unfold plain_packet.
  replace (Z.to_nat len) with (S (Z.to_nat (len - 1))) by lia. reflexivity.
Qed.

Lemma firstn_final_packet (len : Z) (rest : list ascii) :
  1 <= len ->
  firstn (Z.to_nat len) (final_packet len ++ rest) = final_packet len.
Proof.
  intros H. rewrite firstn_app, final_packet_length, Nat.sub_diag by lia.
  rewrite firstn_O, app_nil_r. apply firstn_all2.
  rewrite final_packet_length; lia.
Qed.

Lemma skipn_final_packet (len : Z) (rest : list ascii) :
  1 <= len -> skipn (Z.to_nat len) (final_packet len ++ rest) = rest.
Proof.
  intros H. rewrite skipn_app, final_packet_length, Nat.sub_diag by lia.
  rewrite skipn_all2 by (rewrite final_packet_length; lia). reflexivity.
Qed.

Lemma firstn_plain_packet (len : Z) (rest : list ascii) :
  firstn (Z.to_nat len) (plain_packet len ++ rest) = plain_packet len.
Proof.
  rewrite firstn_app, plain_packet_length, Nat.sub_diag.
  rewrite firstn_O, app_nil_r. apply firstn_all2.
  rewrite plain_packet_length; lia.
Qed.

Lemma skipn_plain_packet (len : Z) (rest : list ascii) :
  skipn (Z.to_nat len) (plain_packet len ++ rest) = rest.
Proof.
  rewrite skipn_app, plain_packet_length, Nat.sub_diag.
  rewrite skipn_all2 by (rewrite plain_packet_length; lia). reflexivity.
Qed.

Lemma byte0_plain_packet (len : Z) (rest : list ascii) :
  1 <= len -> byte0 (plain_packet len ++ rest) = "X"%char.
Proof. intros H. now rewrite plain_packet_cons. Qed.

Lemma server_loop_stream (e : env) (len : Z) :
  (forall n, 0 < rd e n) ->
  1 <= len <= MAXLEN ->
  forall (k sfuel : nat) (numrcv : Z) (sbuf : list ascii) (ws : world),
    tcp_in ws = List.concat (repeat (plain_packet len) k) ++ final_packet len ->
    (k < sfuel)%nat ->
    0 <= numrcv -> numrcv + Z.of_nat k + 1 <= LLONG_MAX ->
    exists sbuf' ws',
      server_loop e sfuel "t" "u" len numrcv sbuf ws
      = Go (numrcv + Z.of_nat k + 1, sbuf') ws'
      /\ byte0 sbuf' = "E"%char
      /\ tcp_in ws' = []
      /\ tcp_out ws' = tcp_out ws.
Proof.
  intros Hrd Hlen. unfold MAXLEN in Hlen.
  induction k as [| k IH]; intros sfuel numrcv sbuf ws Hin Hf H0 Hmax;
    (destruct sfuel as [| sfuel]; [lia |]);
    cbn [server_loop]; unfold bind at 1;
    rewrite sint32_id by (unfold in_sint32, INT_MIN, INT_MAX; lia);
    unfold LLONG_MAX in Hmax.
  - cbn [repeat List.concat app] in Hin.
    rewrite <- (app_nil_r (final_packet len)) in Hin.
    destruct (getmes_tcp_packet e sbuf len ws Hrd) as [j Hj];
      [unfold INT_MAX; lia
      | rewrite Hin, length_app, final_packet_length; simpl; lia |].
    rewrite Hj. change (negb (0 =? 0)) with false. cbv iota beta.
    change (chr_eq "u" "b") with false. cbv iota. unfold bind, ret.
    rewrite Hin, firstn_final_packet, skipn_final_packet by lia.
    unfold final_packet at 1. cbn [app byte0 hd].
    change (chr_eq "E" "E") with true. cbv iota.
    eexists; eexists. split; [| split; [| split]].
    + f_equal. f_equal. unfold add64. rewrite sint64_id
        by (unfold in_sint64, LLONG_MIN, LLONG_MAX; lia). lia.
    + reflexivity.
    + reflexivity.
    + reflexivity.
  - cbn [repeat List.concat] in Hin. rewrite <- app_assoc in Hin.
    destruct (getmes_tcp_packet e sbuf len ws Hrd) as [j Hj];
      [unfold INT_MAX; lia
      | rewrite Hin, length_app, plain_packet_length; lia |].
    rewrite Hj. change (negb (0 =? 0)) with false. cbv iota beta.
    change (chr_eq "u" "b") with false. cbv iota.
    unfold bind at 1. unfold ret at 1.
    rewrite Hin, firstn_plain_packet, skipn_plain_packet.
    rewrite byte0_plain_packet by lia.
    change (chr_eq "X" "E") with false. cbv iota.
    match goal with
    | |- context [server_loop e sfuel _ _ len ?n ?b ?w] =>
        destruct (IH sfuel n b w) as (sbuf' & ws' & Hrun & Hb & Hi & Ho)
    end.
    + reflexivity.
    + lia.
    + unfold add64. rewrite sint64_id
        by (unfold in_sint64, LLONG_MIN, LLONG_MAX; lia). lia.
    + unfold add64. rewrite sint64_id
        by (unfold in_sint64, LLONG_MIN, LLONG_MAX; lia).
      unfold LLONG_MAX. lia.
    + exists sbuf', ws'. rewrite Hrun. split; [| tauto].
      f_equal. f_equal. unfold add64. rewrite sint64_id
        by (unfold in_sint64, LLONG_MIN, LLONG_MAX; lia). lia.
Qed.

Lemma firstn_marked (m : nat) (len : Z) :
  1 <= len -> (Z.to_nat len <= m)%nat ->
  firstn (Z.to_nat len) (set_byte0 "E" (repeat "X"%char m)) = final_packet len.
Proof.
  intros H Hm. destruct m as [| m]; [lia |].
  replace (Z.to_nat len) with (S (Z.to_nat (len - 1))) by lia.
  cbn [repeat set_byte0 firstn]. unfold final_packet. f_equal.
  apply firstn_repeat_le. lia.
Qed.

Lemma firstn_unmarked (m : nat) (len : Z) :
  (Z.to_nat len <= m)%nat ->
  firstn (Z.to_nat len) (repeat "X"%char m) = plain_packet len.
Proof. intros Hm. now apply firstn_repeat_le. Qed.

(** The counter-based loop of the client in a unidirectional TCP
    transfer, [k + 1] packets before its end. *)
Lemma client_loop_count (e : env) (g : globals) (endtime : Z) (m : nat) :
  (forall n, wr e n = true) ->
  1 <= mesnum g < 2 ^ 32 ->
  1 <= meslen g <= MAXLEN ->
  (Z.to_nat (meslen g) <= m)%nat ->
  prot g = "t"%char -> direct g = "u"%char ->
  forall (k fuel : nat) (st : cloop) (w : world),
    cnt st = mesnum g - 1 - Z.of_nat k -> 0 <= cnt st ->
    proceed st <> 0 -> buf st = repeat "X"%char m ->
    (k < fuel)%nat ->
    exists st' w',
      client_loop e g endtime fuel st w = Go st' w'
      /\ cnt st' = mesnum g /\ proceed st' = 0
      /\ byte0 (buf st') = "E"%char
      /\ nwrite w' = (nwrite w + S k)%nat
      /\ tcp_out w'
         = tcp_out w ++ List.concat (repeat (plain_packet (meslen g)) k)
                     ++ final_packet (meslen g).
Proof.
  intros Hwr HN Hlen Hm Hp Hd. unfold MAXLEN in Hlen.
  assert (Hs32 : sint32 (meslen g) = meslen g)
    by (apply sint32_id; unfold in_sint32, INT_MIN, INT_MAX; lia).
  assert (Hnz : negb (mesnum g =? 0) = true)
    by (destruct (Z.eqb_spec (mesnum g) 0); [lia | reflexivity]).
  induction k as [| k IH]; intros fuel st w Hc H0 Hpr Hb Hf;
    (destruct fuel as [| fuel]; [lia |]);
    cbn [client_loop];
    (destruct (Z.eqb_spec (proceed st) 0) as [| _]; [contradiction |]);
    unfold bind at 1; unfold client_iter, check_finished;
    rewrite Hnz; cbv iota;
    (assert (add64 (cnt st) 1 = cnt st + 1) as ->
       by (apply sint64_id; unfold in_sint64, LLONG_MIN, LLONG_MAX; lia)).
  - destruct (Z.eqb_spec (cnt st + 1) (mesnum g)) as [Heq | Hne]; [| lia].
    unfold bind at 1. unfold ret at 1. cbn [buf proceed cnt].
    unfold bind at 1. rewrite Hp, Hs32, putmes_tcp_ok by (apply Hwr || lia).
    rewrite Hd. change (chr_eq "u" "u") with true. cbv iota.
    unfold ret at 1. cbn [client_loop proceed].
    destruct fuel; cbn [client_loop proceed]; change (0 =? 0) with true;
      cbv iota; unfold ret;
      (eexists; eexists; split; [reflexivity |]);
      cbn [cnt proceed buf nwrite tcp_out did_write];
      rewrite Hb, firstn_marked by lia;
      (repeat split;
       [ lia
       | destruct m; [lia | reflexivity]
       | lia ]).
  - destruct (Z.eqb_spec (cnt st + 1) (mesnum g)) as [Heq | Hne]; [lia |].
    unfold bind at 1. unfold ret at 1. cbn [buf proceed cnt].
    unfold bind at 1. rewrite Hp, Hs32, putmes_tcp_ok by (apply Hwr || lia).
    rewrite Hd. change (chr_eq "u" "u") with true. cbv iota.
    unfold ret at 1.
    match goal with
    | |- context [client_loop e g endtime fuel ?s ?w1] =>
        destruct (IH fuel s w1) as (st' & w' & Hrun & Hcnt & Hpr' & Hb0 & Hnw & Hout)
    end; cbn [cnt proceed buf]; try assumption; try lia.
    exists st', w'. rewrite Hrun. split; [reflexivity |].
    split; [assumption |]. split; [assumption |]. split; [assumption |].
    cbn [nwrite tcp_out did_write] in Hnw, Hout.
    split; [lia |].
    rewrite Hout, Hb, firstn_unmarked by lia.
    cbn [repeat List.concat]. now rewrite <- !app_assoc.
Qed.

(** C1.  For a packet count N >= 1 given with [-c], over TCP and in
    one direction, the transfer loop of the client makes exactly N turns
    and sends one packet in each; the first N - 1 packets start with
    'X' and only the N-th starts with the end-of-transfer marker 'E';
    and the handler of the server, fed with these N packets in order
    (however its reads are cut up), counts exactly N of them and leaves
    its loop on the marker. *)
Theorem counted_transfer (e es : env) (g : globals) (endtime : Z)
  (begtms : tms) (fuel sfuel : nat) (w ws : world) (sbuf : list ascii) :
  1 <= mesnum g < 2 ^ 32 ->
  1 <= meslen g <= MAXLEN ->
  prot g = "t"%char -> direct g = "u"%char ->
  (forall n, wr e n = true) ->
  (forall n, 0 < rd es n) ->
  mesnum g <= Z.of_nat fuel -> mesnum g <= Z.of_nat sfuel ->
  tcp_in ws = sent_stream (mesnum g) (meslen g) ->
  exists st' w' sbuf' ws',
    client_loop e g endtime fuel
      {| cnt := 0; proceed := 1;
         buf := repeat "X"%char (Z.to_nat (MAXLEN + 1));
         endtms := begtms |} w
    = Go st' w'
    /\ cnt st' = mesnum g
    /\ Z.of_nat (nwrite w') = Z.of_nat (nwrite w) + mesnum g
    /\ tcp_out w' = tcp_out w ++ sent_stream (mesnum g) (meslen g)
    /\ server_loop es sfuel "t" "u" (meslen g) 0 sbuf ws
       = Go (mesnum g, sbuf') ws'
    /\ byte0 sbuf' = "E"%char.
Proof.
  intros HN Hlen Hp Hd Hwr Hrd Hf Hsf Hin.
  destruct (client_loop_count e g endtime (Z.to_nat (MAXLEN + 1))
              Hwr HN Hlen ltac:(unfold MAXLEN in *; lia) Hp Hd
              (Z.to_nat (mesnum g - 1)) fuel
              {| cnt := 0; proceed := 1;
                 buf := repeat "X"%char (Z.to_nat (MAXLEN + 1));
                 endtms := begtms |} w)
    as (st' & w' & Hrun & Hcnt & _ & _ & Hnw & Hout);
    cbn [cnt proceed buf]; try lia; try reflexivity.
  destruct (server_loop_stream es (meslen g) Hrd Hlen
              (Z.to_nat (mesnum g - 1)) sfuel 0 sbuf ws Hin)
    as (sbuf' & ws' & Hsrv & Hb0 & _ & _); try lia.
  { unfold LLONG_MAX. lia. }
  exists st', w', sbuf', ws'.
  split; [exact Hrun |]. split; [exact Hcnt |]. split; [lia |].
  split; [exact Hout |]. split; [| exact Hb0].
  rewrite Hsrv. f_equal. f_equal. lia.
Qed.

Lemma counted_transfer_witness :
  exists st' w' sbuf' ws',
    client_loop quiet g_three 0 3
      {| cnt := 0; proceed := 1;
         buf := repeat "X"%char (Z.to_nat (MAXLEN + 1));
         endtms := no_tms |} (fresh [] [])
    = Go st' w'
    /\ cnt st' = mesnum g_three
    /\ Z.of_nat (nwrite w') = Z.of_nat (nwrite (fresh [] [])) + mesnum g_three
    /\ tcp_out w'
       = tcp_out (fresh [] [])
           ++ sent_stream (mesnum g_three) (meslen g_three)
    /\ server_loop bytewise 3 "t" "u" (meslen g_three) 0 (str "....")
         (fresh (str "XXXXEX") [])
       = Go (mesnum g_three, sbuf') ws'
    /\ byte0 sbuf' = "E"%char.
Proof.
  apply (counted_transfer quiet bytewise g_three 0 no_tms 3 3
           (fresh [] []) (fresh (str "XXXXEX") []) (str "....")).
  - vm_compute. split; [discriminate | reflexivity].
  - vm_compute. split; discriminate.
  - reflexivity.
  - reflexivity.
  - intros n. reflexivity.
  - intros n. reflexivity.
  - vm_compute. discriminate.
  - vm_compute. discriminate.
  - reflexivity.
Defined.

(** *** A time-based transfer *)

Lemma getmes_tcp_ntimes (e : env) (fuel : nat) :
  forall b p len w b' w',
    getmes_tcp e fuel b p len w = Go b' w' -> ntimes w' = ntimes w.
Proof.
  induction fuel as [| fuel IH]; intros b p len w b' w' H;
    cbn [getmes_tcp] in H; destruct (len =? 0);
    try (unfold ret in H; congruence); try discriminate.
  unfold bind, sys_read in H.
  destruct (rd e (nread w) <=? 0).
  - change (-1 <=? 0) with true in H. discriminate.
  - cbv iota beta in H. break_if H; [discriminate |].
    apply IH in H. exact H.
Qed.

Lemma getmes_ntimes (e : env) (prot : ascii) (b : list ascii) (len : Z)
  (w w' : world) (r : Z * list ascii) :
  getmes e prot b len w = Go r w' -> ntimes w' = ntimes w.
Proof.
  unfold getmes. intros H. destruct (chr_eq prot "t").
  - unfold bind, get, ret in H. break_match H; try discriminate.
    injection H as _ <-. eapply getmes_tcp_ntimes; eassumption.
  - unfold bind, modify, sys_recvfrom, get, ret, exit in H.
    cbn [udp_in set_timedout] in H.
    destruct (udp_in w) as [| [d | |] rest]; cbv iota beta in H;
      repeat (break_if H; try discriminate);
      injection H as _ <-; reflexivity.
Qed.

Lemma putmes_ntimes (e : env) (prot : ascii) (b : list ascii) (len : Z)
  (w w' : world) (u : unit) :
  putmes e prot b len w = Go u w' -> ntimes w' = ntimes w.
Proof.
  unfold putmes, bind, sys_write, sys_sendto, exit, ret. intros H.
  repeat (break_if H; try discriminate); injection H as _ <-; reflexivity.
Qed.

(** What the check does in a time-based transfer. *)
Lemma check_finished_timed (e : env) (g : globals) (endtime : Z)
  (st st1 : cloop) (w w1 : world) :
  mesnum g = 0 ->
  check_finished e g endtime st w = Go st1 w1 ->
  cnt st1 = add64 (cnt st) 1
  /\ (Z.land (cnt st1) 31 <> 0 ->
      w1 = w /\ proceed st1 = proceed st /\ buf st1 = buf st)
  /\ (Z.land (cnt st1) 31 = 0 -> w1 = took_times w)
  /\ (proceed st1 <> proceed st ->
      Z.land (cnt st1) 31 = 0 /\ proceed st1 = 0
      /\ buf st1 = set_byte0 "E" (buf st)).
Proof.
  intros Hm H. unfold check_finished in H. rewrite Hm in H.
  change (negb (0 =? 0)) with false in H. cbv iota in H.
  destruct (Z.eqb_spec (Z.land (add64 (cnt st) 1) 31) 0) as [Hz | Hnz].
  - unfold bind, sys_times, ret in H.
    destruct (clk e (ntimes w)) as [now t].
    destruct (now >=? endtime); injection H as <- <-; cbn [cnt proceed buf];
      repeat split; try congruence; try tauto.
  - unfold ret in H. injection H as <- <-. cbn [cnt proceed buf].
    repeat split; congruence.
Qed.

Lemma client_iter_timed (e : env) (g : globals) (endtime : Z)
  (st st2 : cloop) (w w2 : world) :
  mesnum g = 0 ->
  client_iter e g endtime st w = Go st2 w2 ->
  cnt st2 = add64 (cnt st) 1
  /\ (proceed st2 = proceed st
      \/ (proceed st2 = 0 /\ Z.land (cnt st2) 31 = 0))
  /\ ntimes w2
     = (if Z.land (cnt st2) 31 =? 0 then S (ntimes w) else ntimes w).
Proof.
  intros Hm H. unfold client_iter in H. unfold bind at 1 in H.
  destruct (check_finished e g endtime st w) as [st1 w1 | |] eqn:Hc;
    try discriminate.
  destruct (check_finished_timed _ _ _ _ _ _ _ Hm Hc)
    as (Hcnt & Hodd & Heven & Hstop).
  assert (ntimes w1
          = if Z.land (cnt st1) 31 =? 0 then S (ntimes w) else ntimes w)
    as Hn.
  { destruct (Z.eqb_spec (Z.land (cnt st1) 31) 0) as [Hz | Hnz].
    - now rewrite (Heven Hz).
    - now destruct (Hodd Hnz) as (-> & _). }
  assert (proceed st1 = proceed st
          \/ (proceed st1 = 0 /\ Z.land (cnt st1) 31 = 0)) as Hp.
  { destruct (Z.eq_dec (proceed st1) (proceed st)); [tauto |].
    right. destruct (Hstop n); tauto. }
  unfold bind at 1 in H.
  destruct (putmes e (prot g) (buf st1) (sint32 (meslen g)) w1)
    as [u w1' | |] eqn:Hput; try discriminate.
  apply putmes_ntimes in Hput.
  destruct (chr_eq (direct g) "u").
  - unfold ret in H. injection H as <- <-. rewrite Hput. tauto.
  - unfold bind in H.
    destruct (getmes e (prot g) (buf st1) (sint32 (meslen g)) w1')
      as [[rv b'] w1'' | |] eqn:Hget; try discriminate.
    apply getmes_ntimes in Hget.
    unfold ret in H. injection H as <- <-. cbn [cnt proceed].
    rewrite Hget, Hput. tauto.
Qed.

Lemma client_loop_timed (e : env) (g : globals) (endtime : Z) (fuel : nat) :
  mesnum g = 0 ->
  forall st w st' w',
    0 <= cnt st -> cnt st + Z.of_nat fuel <= LLONG_MAX ->
    (proceed st = 0 -> 0 < cnt st /\ Z.land (cnt st) 31 = 0) ->
    client_loop e g endtime fuel st w = Go st' w' ->
    0 < cnt st' /\ cnt st <= cnt st'
    /\ Z.land (cnt st') 31 = 0
    /\ Z.of_nat (ntimes w') - Z.of_nat (ntimes w)
       = cnt st' / 32 - cnt st / 32.
Proof.
  intros Hm. induction fuel as [| fuel IH]; intros st w st' w' H0 Hmax Hp H;
    cbn [client_loop] in H;
    destruct (Z.eqb_spec (proceed st) 0) as [Hz | Hnz];
    try (unfold ret in H; injection H as <- <-; specialize (Hp Hz); lia);
    try discriminate.
  unfold bind in H.
  destruct (client_iter e g endtime st w) as [st1 w1 | |] eqn:Hi;
    try discriminate.
  destruct (client_iter_timed _ _ _ _ _ _ _ Hm Hi) as (Hcnt & Hpr & Hn).
  unfold LLONG_MAX in Hmax.
  assert (cnt st1 = cnt st + 1) as Hc1.
  { rewrite Hcnt. unfold add64. apply sint64_id.
    unfold in_sint64, LLONG_MIN, LLONG_MAX. lia. }
  apply IH in H.
  - destruct H as (Hpos & Hle & Hland & Hticks).
    split; [assumption |]. split; [lia |]. split; [assumption |].
    change 31 with (Z.ones 5) in Hn. rewrite Z.land_ones in Hn by lia.
    change (2 ^ 5) with 32 in Hn.
    rewrite Hc1 in *.
    destruct (Z.eqb_spec ((cnt st + 1) mod 32) 0) as [Hmod | Hmod];
      cbv iota in Hn; rewrite Hn in Hticks.
    + assert ((cnt st + 1) / 32 = cnt st / 32 + 1) as Hq
        by (clear - Hmod H0; Z.div_mod_to_equations; lia).
      lia.
    + assert ((cnt st + 1) / 32 = cnt st / 32) as Hq
        by (clear - Hmod H0; Z.div_mod_to_equations; lia).
      lia.
  - lia.
  - unfold LLONG_MAX. lia.
  - intros Hz1. split; [lia |]. destruct Hpr as [Hsame | [_ Hl]]; [| exact Hl].
    congruence.
Qed.

(** C9.  In a time-based transfer (no packet count), the transfer loop
    looks at the clock only in the turns whose packet counter is a
    multiple of 32.  In every other turn the check takes no clock
    sample and leaves [proceed] and the buffer as they are, so the loop
    cannot end there; the turn that clears [proceed] has a counter that
    is a multiple of 32 and sets the marker.  Over a whole run that
    starts at counter 0 the loop is left at a multiple of 32, with one
    clock sample taken per 32 packets. *)
Theorem clock_checked_every_32nd (e : env) (g : globals) (endtime : Z) :
  mesnum g = 0 ->
  (forall st w st1 w1,
      check_finished e g endtime st w = Go st1 w1 ->
      cnt st1 = add64 (cnt st) 1
      /\ (Z.land (cnt st1) 31 <> 0 ->
          w1 = w /\ proceed st1 = proceed st /\ buf st1 = buf st)
      /\ (Z.land (cnt st1) 31 = 0 -> w1 = took_times w)
      /\ (proceed st1 <> proceed st ->
          Z.land (cnt st1) 31 = 0 /\ proceed st1 = 0
          /\ buf st1 = set_byte0 "E" (buf st)))
  /\ (forall fuel st w st' w',
        cnt st = 0 -> proceed st <> 0 -> Z.of_nat fuel <= LLONG_MAX ->
        client_loop e g endtime fuel st w = Go st' w' ->
        0 < cnt st' /\ Z.land (cnt st') 31 = 0
        /\ Z.of_nat (ntimes w') = Z.of_nat (ntimes w) + cnt st' / 32).
Proof.
  intros Hm. split.
  - intros st w st1 w1 H. eapply check_finished_timed; eassumption.
  - intros fuel st w st' w' Hc Hp Hf H.
    apply (client_loop_timed e g endtime fuel Hm) in H;
      try (rewrite Hc; lia); try tauto.
    rewrite Hc in H. change (0 / 32) with 0 in H. intuition lia.
Qed.

Lemma clock_checked_every_32nd_witness :
  0 < cnt (fst timed_end) /\ Z.land (cnt (fst timed_end)) 31 = 0
  /\ Z.of_nat (ntimes (snd timed_end))
     = Z.of_nat (ntimes (fresh [] [])) + cnt (fst timed_end) / 32.
Proof.
  apply (proj2 (clock_checked_every_32nd quiet g_timed 100 eq_refl)
           100%nat st_small (fresh [] [])).
  - reflexivity.
  - discriminate.
  - vm_compute. discriminate.
  - vm_compute. reflexivity.
Defined.

(** *** How the client ends *)

Lemma getmes_tcp_exit (e : env) (fuel : nat) :
  forall buf p len w c w',
    getmes_tcp e fuel buf p len w = Exit c w' -> c = 0.
Proof.
  induction fuel as [| fuel IH]; intros b p len w c w' H;
    cbn [getmes_tcp] in H; destruct (len =? 0); try discriminate.
  unfold bind, sys_read in H.
  destruct (rd e (nread w) <=? 0).
  - change (-1 <=? 0) with true in H. cbv iota beta in H.
    unfold exit in H. congruence.
  - cbv iota beta in H. break_if H.
    + unfold exit in H. congruence.
    + now apply IH in H.
Qed.

Lemma getmes_exit (e : env) (prot : ascii) (b : list ascii) (len : Z)
  (w w' : world) (c : Z) :
  getmes e prot b len w = Exit c w' ->
  (c = 0 /\ chr_eq prot "t" = true) \/ (c = 1 /\ chr_eq prot "t" = false).
Proof.
  unfold getmes. intros H. destruct (chr_eq prot "t").
  - left. split; [| reflexivity]. unfold bind, get in H.
    break_match H; try discriminate.
    injection H as -> ->. eapply getmes_tcp_exit; eassumption.
  - right. split; [| reflexivity].
    unfold bind, modify, sys_recvfrom, get, ret, exit in H.
    cbn [udp_in set_timedout] in H.
    destruct (udp_in w) as [| [d | |] rest]; cbv iota beta in H;
      repeat (break_if H; try discriminate); congruence.
Qed.

Lemma putmes_exit (e : env) (prot : ascii) (b : list ascii) (len : Z)
  (w w' : world) (c : Z) :
  putmes e prot b len w = Exit c w' -> c = 1.
Proof.
  unfold putmes, bind, sys_write, sys_sendto, exit, ret. intros H.
  repeat (break_if H; try discriminate); congruence.
Qed.

Lemma check_finished_go (e : env) (g : globals) (endtime : Z) (st : cloop)
  (w : world) :
  exists st1 w1, check_finished e g endtime st w = Go st1 w1.
Proof.
  unfold check_finished, bind, sys_times, ret.
  destruct (negb (mesnum g =? 0)).
  - destruct (_ =? mesnum g); eauto.
  - destruct (Z.land _ 31 =? 0); [| eauto].
    destruct (clk e (ntimes w)) as [now t].
    destruct (now >=? endtime); eauto.
Qed.

Lemma client_iter_exit (e : env) (g : globals) (endtime : Z) (st : cloop)
  (w w' : world) (c : Z) :
  client_iter e g endtime st w = Exit c w' ->
  c = 1 \/ (c = 0 /\ chr_eq (prot g) "t" = true
            /\ chr_eq (direct g) "u" = false).
Proof.
  unfold client_iter. intros H. unfold bind at 1 in H.
  destruct (check_finished_go e g endtime st w) as (st1 & w1 & Hc).
  rewrite Hc in H. unfold bind at 1 in H.
  destruct (putmes e (prot g) (buf st1) (sint32 (meslen g)) w1)
    as [[] w2 | c2 w2 |] eqn:Hp; try discriminate.
  - destruct (chr_eq (direct g) "u") eqn:Hd; [discriminate |].
    unfold bind in H.
    destruct (getmes e (prot g) (buf st1) (sint32 (meslen g)) w2)
      as [[rv b'] w3 | c3 w3 |] eqn:Hg; try discriminate.
    injection H as -> ->. apply getmes_exit in Hg. tauto.
  - injection H as -> ->. left. eapply putmes_exit; eassumption.
Qed.

Lemma client_loop_exit (e : env) (g : globals) (endtime : Z) (fuel : nat) :
  forall st w w' c,
    client_loop e g endtime fuel st w = Exit c w' ->
    c = 1 \/ (c = 0 /\ chr_eq (prot g) "t" = true
              /\ chr_eq (direct g) "u" = false).
Proof.
  induction fuel as [| fuel IH]; intros st w w' c H;
    cbn [client_loop] in H; destruct (proceed st =? 0); try discriminate.
  unfold bind in H.
  destruct (client_iter e g endtime st w) as [st1 w1 | c1 w1 |] eqn:Hi;
    try discriminate.
  - eapply IH; eassumption.
  - injection H as -> ->. eapply client_iter_exit; eassumption.
Qed.

Lemma client_finish_exit (e : env) (g : globals) (n0 h0 bt : Z) (btms : tms)
  (st : cloop) (w w' : world) (c : Z) :
  client_finish e g n0 h0 bt btms st w = Exit c w' -> c = 1.
Proof.
  unfold client_finish, bind, modify, sys_read, get, sys_times, ret, exit.
  intros H. cbn [nread set_timedout tcp_in] in H.
  repeat (break_if H; try discriminate); try congruence.
  all: repeat (break_match H; try discriminate); congruence.
Qed.

Lemma connect_control_cases (e : env) (g : globals) (w : world) :
  connect_control e g w = Exit 1 w
  \/ exists g', connect_control e g w = Go g' w
                /\ prot g' = prot g /\ direct g' = direct g.
Proof.
  unfold connect_control, ret, exit.
  repeat match goal with
         | |- context [if ?b then _ else _] => destruct b
         end; eauto.
Qed.

Lemma transfer_exit (e : env) (g : globals) (n0 h0 bt endtime : Z)
  (btms : tms) (fuel : nat) (st : cloop) (w w' : world) (c : Z) :
  (st' <- client_loop e g endtime fuel st ;;
   client_finish e g n0 h0 bt btms st') w = Exit c w' ->
  c = 1 \/ (c = 0 /\ chr_eq (prot g) "t" = true
            /\ chr_eq (direct g) "u" = false).
Proof.
  unfold bind. intros H.
  destruct (client_loop e g endtime fuel st w) as [st1 w1 | c1 w1 |] eqn:Hl;
    try discriminate.
  - left. eapply client_finish_exit; eassumption.
  - injection H as -> ->. eapply client_loop_exit; eassumption.
Qed.

Lemma client_exits (e : env) (g : globals) (numrcv0 hogserv0 : Z)
  (fuel : nat) (w w' : world) (c : Z) :
  client e numrcv0 hogserv0 fuel g w = Exit c w' ->
  c = 1
  \/ (c = 3 /\ chr_eq (prot g) "u" = true /\ udp_open e = false)
  \/ (c = 0 /\ chr_eq (prot g) "t" = true /\ chr_eq (direct g) "u" = false).
Proof.
  unfold client. intros H. unfold bind at 1 in H.
  destruct (connect_control_cases e g w) as [Hc | (g' & Hc & Hp & Hd)];
    rewrite Hc in H; [left; congruence |].
  unfold bind at 1 in H.
  destruct (write_string e _ w) as [rv w1 | c1 w1 |] eqn:Hw.
  2, 3: unfold write_string, sys_write in Hw; break_if Hw; discriminate.
  destruct (rv <? 0); [unfold exit in H; left; congruence |].
  unfold bind at 1 in H.
  destruct (sys_read e 64 w1) as [[rv2 d2] w2 | c2 w2 |] eqn:Hr.
  2, 3: unfold sys_read in Hr; break_if Hr; discriminate.
  destruct (rv2 <? 0); [unfold exit in H; left; congruence |].
  unfold bind at 1 in H. rewrite Hp in H.
  assert (forall w3,
    (wakeupcall;;;
     ' (begtime, begtms) <- sys_times e;;
     (st <- client_loop e g'
              (add64 begtime (mul64 (mestime g') (localhz e))) fuel
              {| cnt := 0; proceed := 1;
                 buf := repeat "X"%char (Z.to_nat (MAXLEN + 1));
                 endtms := begtms |};;
      client_finish e g' numrcv0 hogserv0 begtime begtms st)) w3
    = Exit c w' ->
    c = 1 \/ (c = 0 /\ chr_eq (prot g) "t" = true
              /\ chr_eq (direct g) "u" = false)) as Htail.
  { intros w3 Ht. unfold bind at 1 2 in Ht.
    unfold wakeupcall, modify, sys_times in Ht.
    destruct (clk e _) as [bt btms].
    apply transfer_exit in Ht. now rewrite Hp, Hd in Ht. }
  destruct (chr_eq (prot g) "u") eqn:Hu.
  - destruct (udp_open e) eqn:Ho.
    + unfold ret at 1 in H. apply Htail in H. tauto.
    + unfold exit in H. injection H as <- _. right; left. tauto.
  - unfold ret at 1 in H. apply Htail in H. tauto.
Qed.

Lemma getmes_tcp_failed_read (e : env) (b : list ascii) (len : Z)
  (w : world) :
  len <> 0 ->
  rd e (nread w) <= 0 \/ tcp_in w = [] ->
  getmes e "t" b len w = Exit 0 (took_read (tcp_in w) w).
Proof.
  intros Hlen Hfail. unfold getmes. change (chr_eq "t" "t") with true.
  cbv iota. unfold bind at 1. unfold get. unfold bind.
  cbn [getmes_tcp]. destruct (Z.eqb_spec len 0); [contradiction |].
  unfold bind, sys_read.
  destruct (Z.leb_spec (rd e (nread w)) 0) as [Hle | Hgt]; [reflexivity |].
  destruct Hfail as [Hfail | Hfail]; [lia |]. rewrite Hfail.
  cbn [List.length Z.of_nat].
  assert (0 <= size_t len) by (apply Z.mod_pos_bound; lia).
  replace (Z.min (rd e (nread w)) (Z.min (size_t len) 0)) with 0 by lia.
  reflexivity.
Qed.

(** C5 against the code.  The client of a bidirectional TCP transfer
    ([-d b -c 1 -l 2]) whose server goes away after the handshake: the
    read of the echoed packet on the data channel returns 0 and the
    client ends with exit status 0, not 1.  Every zero-byte or failed
    read in the TCP branch of [getmes] ends the process that way,
    whereas a receive that fails in the UDP branch of the same function
    ends it with status 1. *)
Theorem tcp_read_failure_exits_zero :
  tcp_in closed_end = []
  /\ client quiet 0 0 5 g_bidi w_closed = Exit 0 closed_end
  /\ exit_code (client quiet 0 0 5 g_bidi w_closed) <> Some 1
  /\ (forall e b len w,
        len <> 0 -> rd e (nread w) <= 0 \/ tcp_in w = [] ->
        getmes e "t" b len w = Exit 0 (took_read (tcp_in w) w))
  /\ (forall e b len w rest,
        udp_in w = RecvError :: rest ->
        getmes e "u" b len w = Exit 1 (took_recv rest (set_timedout 0 w))).
Proof.
  split; [| split; [| split; [| split]]].
  - vm_compute. reflexivity.
  - vm_compute. reflexivity.
  - vm_compute. discriminate.
  - intros e b len w. apply getmes_tcp_failed_read.
  - intros e b len w rest Hin. unfold getmes.
    change (chr_eq "u" "t") with false. cbv iota.
    unfold bind, modify, sys_recvfrom. cbn [udp_in set_timedout].
    rewrite Hin. reflexivity.
Qed.

End Transfer.

(* ================================================================== *)
(** ** More on the command line *)

Module CommandLineMore.
Import CInt Libc Attract Scenario Sockets Notions CIntFacts LibcFacts.

Lemma uint32_of_atoi (s : list ascii) :
  uint32 (atoi s) = if atoi s <? 0 then 2 ^ 32 + atoi s else atoi s.
Proof.
  pose proof (atoi_range s) as Hr. unfold in_sint32, INT_MIN, INT_MAX in Hr.
  destruct (Z.ltb_spec (atoi s) 0).
  - apply uint32_neg. lia.
  - unfold uint32. apply Z.mod_small. lia.
Qed.

Ltac flag_is c :=
  unfold option_case;
  repeat match goal with
         | |- context [chr_eq c ?d] =>
             let b := eval vm_compute in (chr_eq c d) in
             change (chr_eq c d) with b
         end;
  cbv iota.

(** X1.  The packet length given with [-l] is accepted exactly when its
    value is between 1 and 65636, and is then stored unchanged: a
    negative value, turned into a large [unsigned int], fails the test
    against [MAXLEN]. *)
Theorem length_flag_check (optarg : list ascii) (g : globals) (w : world) :
  option_case "l" optarg g w
  = if (1 <=? atoi optarg) && (atoi optarg <=? MAXLEN)
    then Go (set_meslen (atoi optarg) g) w
    else Exit 1 w.
Proof.
  flag_is "l"%char. cbn [meslen set_meslen]. rewrite uint32_of_atoi.
  pose proof (atoi_range optarg) as Hr. unfold in_sint32, INT_MIN, INT_MAX in Hr.
  change (uint32 MAXLEN) with 65636. unfold MAXLEN.
  destruct (Z.ltb_spec (atoi optarg) 0);
    destruct (Z.leb_spec 1 (atoi optarg));
    destruct (Z.leb_spec (atoi optarg) 65636); cbn [andb]; try lia;
    repeat match goal with
           | |- context [?a <=? ?b] => destruct (Z.leb_spec a b); try lia
           | |- context [?a >? ?b] => destruct (Z.gtb_spec a b); try lia
           end; reflexivity.
Qed.

(** X2.  The transfer time given with [-t] is refused only when its
    value is 0: the test [<= 0] is made on the [unsigned int], so a
    negative number of seconds is accepted as 2^32 minus its size. *)
Theorem time_flag_check (optarg : list ascii) (g : globals) (w : world) :
  option_case "t" optarg g w
  = if atoi optarg =? 0 then Exit 1 w
    else Go (set_mestime (if atoi optarg <? 0 then 2 ^ 32 + atoi optarg
                          else atoi optarg) g) w.
Proof.
  flag_is "t"%char. cbn [mestime set_mestime]. rewrite uint32_of_atoi.
  pose proof (atoi_range optarg) as Hr. unfold in_sint32, INT_MIN, INT_MAX in Hr.
  destruct (Z.eqb_spec (atoi optarg) 0) as [-> | Hnz]; [reflexivity |].
  destruct (Z.ltb_spec (atoi optarg) 0);
    match goal with
    | |- context [?a <=? 0] => destruct (Z.leb_spec a 0); [lia | reflexivity]
    end.
Qed.

Ltac proj_globals :=
  cbn [ipvers prot direct rawout myport mesnum meslen mestime serverflag
       set_ipvers set_prot set_direct set_rawout set_myport set_mesnum
       set_meslen set_mestime set_serverflag].

Ltac keeps_valid :=
  right; eexists; (split; [reflexivity |]);
  unfold valid_config, MAXLEN; proj_globals; intuition (try lia).

Lemma selector_cases (x a b : ascii) :
  (negb (chr_eq x a) && negb (chr_eq x b) = true)
  \/ (negb (chr_eq x a) && negb (chr_eq x b) = false /\ (x = a \/ x = b)).
Proof.
  unfold chr_eq.
  destruct (Ascii.eqb_spec x a); destruct (Ascii.eqb_spec x b);
    cbn [negb andb]; tauto.
Qed.

Lemma option_case_cases (c : ascii) (optarg : list ascii) (g : globals)
  (w : world) :
  option_case c optarg g w = Exit 1 w
  \/ exists g', option_case c optarg g w = Go g' w
                /\ (valid_config g -> valid_config g').
Proof.
  unfold option_case, ret, exit.
  pose proof (atoi_range optarg) as Hr.
  unfold in_sint32, INT_MIN, INT_MAX in Hr.
  destruct (chr_eq c "s"); cbv iota; [keeps_valid |].
  destruct (chr_eq c "r"); cbv iota; [keeps_valid |].
  destruct (chr_eq c "v"); cbv iota.
  { proj_globals.
    destruct (selector_cases (deref optarg) "4" "6") as [-> | [-> Hc]];
      [left; reflexivity | keeps_valid]. }
  destruct (chr_eq c "p"); cbv iota.
  { proj_globals.
    destruct (selector_cases (deref optarg) "t" "u") as [-> | [-> Hc]];
      [left; reflexivity | keeps_valid]. }
  destruct (chr_eq c "d"); cbv iota.
  { proj_globals.
    destruct (selector_cases (deref optarg) "u" "b") as [-> | [-> Hc]];
      [left; reflexivity | keeps_valid]. }
  destruct (chr_eq c "l"); cbv iota.
  { proj_globals. rewrite uint32_of_atoi. change (uint32 MAXLEN) with 65636.
    destruct (Z.ltb_spec (atoi optarg) 0);
      match goal with
      | |- context [?a <=? 0] => destruct (Z.leb_spec a 0)
      end; try (left; reflexivity);
      match goal with
      | |- context [?a >? ?b] => destruct (Z.gtb_spec a b)
      end; try (left; reflexivity); keeps_valid. }
  destruct (chr_eq c "c"); cbv iota.
  { proj_globals. rewrite uint32_of_atoi.
    destruct (Z.ltb_spec (atoi optarg) 0);
      match goal with
      | |- context [?a <=? 0] => destruct (Z.leb_spec a 0)
      end; try (left; reflexivity); keeps_valid. }
  destruct (chr_eq c "t"); cbv iota.
  { proj_globals. rewrite uint32_of_atoi.
    destruct (Z.ltb_spec (atoi optarg) 0);
      match goal with
      | |- context [?a <=? 0] => destruct (Z.leb_spec a 0)
      end; try (left; reflexivity); keeps_valid. }
  destruct (chr_eq c "P"); cbv iota; [keeps_valid | left; reflexivity].
Qed.

Lemma initial_globals_valid : valid_config initial_globals.
Proof.
  unfold valid_config, initial_globals, MAXLEN. proj_globals.
  intuition lia.
Qed.

Lemma parse_options_cases (opts : list (ascii * list ascii)) :
  forall g w,
    parse_options opts g w = Exit 1 w
    \/ exists g', parse_options opts g w = Go g' w
                  /\ (valid_config g -> valid_config g').
Proof.
  induction opts as [| [c optarg] opts IH]; intros g w; cbn [parse_options].
  - right. exists g. split; [reflexivity | tauto].
  - unfold bind.
    destruct (option_case_cases c optarg g w) as [-> | (g1 & -> & Hv)];
      [left; reflexivity |].
    destruct (IH g1 w) as [-> | (g2 & -> & Hv2)];
      [left; reflexivity |].
    right. exists g2. split; [reflexivity | tauto].
Qed.

(** X3.  Whatever flags are given, the option loop of [main] ends in one
    of two ways without a single system call on the network: it leaves
    with exit status 1, or it goes on with a configuration in which the
    IP version is 4, 6 or still open, the protocol is t or u, the
    direction is u or b, the packet length is between 1 and 65636 and
    the transfer time is at least 1. *)
Theorem options_end_valid_or_exit (opts : list (ascii * list ascii))
  (w : world) :
  parse_options opts initial_globals w = Exit 1 w
  \/ exists g, parse_options opts initial_globals w = Go g w
               /\ valid_config g.
Proof.
  destruct (parse_options_cases opts initial_globals w)
    as [H | (g & H & Hv)]; [left; exact H |].
  right. exists g. split; [exact H | apply Hv, initial_globals_valid].
Qed.

End CommandLineMore.

(* ================================================================== *)
(** ** Numerical host names *)

Module HostNames.
Import CInt Libc Attract Scenario Sockets Notions CIntFacts LibcFacts.

Lemma numhost_from_plain (hp : list ascii) :
  forall nalpha,
    0 <= nalpha -> nalpha + Z.of_nat (List.length hp) <= INT_MAX ->
    ~ In ":"%char hp ->
    (numhost_from hp nalpha = 1 <-> nalpha = 0 /\ Forall digit_or_dot hp)
    /\ (numhost_from hp nalpha = 0 \/ numhost_from hp nalpha = 1).
Proof.
  induction hp as [| c rest IH]; intros nalpha H0 Hlen Hcolon;
    cbn [numhost_from].
  - destruct (Z.eqb_spec nalpha 0); cbn [negb]; split; try tauto.
    + split; [intros _; split; [assumption | constructor] | reflexivity].
    + split; [discriminate | tauto].
  - cbn [List.length] in Hlen. rewrite Nat2Z.inj_succ in Hlen.
    unfold INT_MAX in *.
    assert (Hc : c <> ":"%char) by (intros ->; apply Hcolon; now left).
    assert (Hrest : ~ In ":"%char rest)
      by (intros Hin; apply Hcolon; now right).
    unfold chr_eq. rewrite (proj2 (Ascii.eqb_neq _ _) Hc).
    destruct (Ascii.eqb_spec c ".") as [-> | Hdot].
    + destruct (Z.eqb_spec nalpha 0) as [Hz | Hnz]; cbn [negb].
      * destruct (IH nalpha H0 ltac:(lia) Hrest) as [Hiff Hor].
        split; [| exact Hor]. rewrite Hiff. split.
        -- intros [_ Hf]. split; [assumption |].
           constructor; [right; reflexivity | assumption].
        -- intros [_ Hf]. split; [assumption |]. now inversion Hf.
      * split; [| tauto]. split; [discriminate | tauto].
    + destruct (isdigit c) eqn:Hd; cbn [negb].
      * destruct (IH nalpha H0 ltac:(lia) Hrest) as [Hiff Hor].
        split; [| exact Hor]. rewrite Hiff. split.
        -- intros [Hn Hf]. split; [assumption |].
           constructor; [left; assumption | assumption].
        -- intros [Hn Hf]. split; [assumption |]. now inversion Hf.
      * rewrite sint32_id by (unfold in_sint32, INT_MIN, INT_MAX; lia).
        destruct (IH (nalpha + 1) ltac:(lia) ltac:(lia) Hrest)
          as [Hiff Hor].
        split; [| exact Hor]. rewrite Hiff. split; [lia |].
        intros [_ Hf]. inversion Hf as [| ? ? Hcd _]; subst.
        destruct Hcd as [Hcd | Hcd]; congruence.
Qed.

(** X5.  A host name without a colon counts as numerical exactly when
    it is made of digits and dots only. *)
Theorem numhost_without_colon (hp : list ascii) :
  Z.of_nat (List.length hp) <= INT_MAX ->
  ~ In ":"%char hp ->
  (numhost hp = 1 <-> Forall digit_or_dot hp)
  /\ (numhost hp = 0 \/ numhost hp = 1).
Proof.
  intros Hlen Hcolon. unfold numhost.
  destruct (numhost_from_plain hp 0 ltac:(lia) ltac:(lia) Hcolon)
    as [Hiff Hor].
  split; [| exact Hor]. rewrite Hiff. tauto.
Qed.

Lemma numhost_without_colon_witness :
  (numhost (str "10.0.0.1") = 1 <-> Forall digit_or_dot (str "10.0.0.1"))
  /\ (numhost (str "10.0.0.1") = 0 \/ numhost (str "10.0.0.1") = 1).
Proof.
  apply numhost_without_colon.
  - vm_compute. discriminate.
  - vm_compute. intuition discriminate.
Defined.

Lemma numhost_from_colon (p : list ascii) :
  forall nalpha rest,
    ~ In "."%char p -> numhost_from (p ++ ":"%char :: rest) nalpha = 1.
Proof.
  induction p as [| c p IH]; intros nalpha rest Hdot;
    cbn [app numhost_from].
  - reflexivity.
  - assert (Hc : c <> "."%char) by (intros ->; apply Hdot; now left).
    assert (Hp : ~ In "."%char p) by (intros Hin; apply Hdot; now right).
    unfold chr_eq at 2. rewrite (proj2 (Ascii.eqb_neq _ _) Hc).
    destruct (chr_eq c ":"); [reflexivity |].
    destruct (negb (isdigit c)); now apply IH.
Qed.

(** X6.  A host name with a colon and no dot before it counts as
    numerical whatever its other characters are (an IPv6 literal with
    its hexadecimal letters, but also a name followed by a colon):
    nothing after the first colon is looked at. *)
Theorem numhost_with_colon (p rest : list ascii) :
  ~ In "."%char p -> numhost (p ++ ":"%char :: rest) = 1.
Proof. intros H. unfold numhost. now apply numhost_from_colon. Qed.

Lemma numhost_with_colon_witness :
  numhost (str "fe80" ++ ":"%char :: str ":1") = 1.
Proof.
  apply numhost_with_colon. vm_compute. intuition discriminate.
Defined.

End HostNames.

(* ================================================================== *)
(** ** Sockets *)

Module SocketFacts.
Import CInt Libc Attract Scenario Sockets Notions Scenario2 CIntFacts LibcFacts.

Lemma tcp_attempts_inv (n : netenv) (si : addrinfo) (r : list addrinfo) :
  forall w fd w',
    tcp_attempts n si r w = (fd, w') ->
    exists (k : nat) (os : list Z),
      tried w' = tried w ++ repeat (a_addr si) k
      /\ (k <= List.length r)%nat
      /\ (nsocket w' <= nsocket w + List.length r)%nat
      /\ closed w' = closed w ++ os
      /\ ((fd = -1 /\ opened w' = opened w ++ os)
          \/ (0 <= fd /\ opened w' = opened w ++ os ++ [fd]
              /\ (0 < k)%nat
              /\ connect_at n (List.length (tried w') - 1) (a_addr si)
                 = true)).
Proof.
  induction r as [| a next IH]; intros w fd w' H; cbn [tcp_attempts] in H.
  - injection H as <- <-. exists 0%nat, []. cbn [repeat List.length].
    rewrite !app_nil_r. repeat split; try lia. left. tauto.
  - destruct (Z.ltb_spec (socket_at n (nsocket w) (a_family si) SOCK_STREAM) 0)
      as [Hneg | Hpos].
    + apply IH in H. destruct H as (k & os & Ht & Hk & Hn & Hc & Hfd).
      unfold did_socket in *. cbn [tried nsocket closed opened] in *.
      destruct (Z.ltb_spec (socket_at n (nsocket w) (a_family si) SOCK_STREAM) 0);
        [| lia].
      exists k, os. cbn [List.length]. repeat split; try assumption; lia.
    + set (fd0 := socket_at n (nsocket w) (a_family si) SOCK_STREAM) in *.
      cbn [tried did_socket did_connect] in H.
      destruct (connect_at n (List.length (tried w)) (a_addr si)) eqn:Hcon.
      * injection H as <- <-. exists 1%nat, [].
        unfold did_connect, did_socket. cbn [tried nsocket closed opened].
        destruct (Z.ltb_spec fd0 0); [lia |].
        cbn [repeat List.length app]. rewrite app_nil_r.
        split; [reflexivity |]. split; [lia |]. split; [lia |].
        split; [reflexivity |]. right.
        split; [assumption |]. split; [reflexivity |]. split; [lia |].
        rewrite length_app. cbn [List.length].
        replace (List.length (tried w) + 1 - 1)%nat
          with (List.length (tried w)) by lia.
        exact Hcon.
      * apply IH in H. destruct H as (k & os & Ht & Hk & Hn & Hc & Hfd).
        unfold did_close, did_connect, did_socket in *.
        cbn [tried nsocket closed opened] in *.
        destruct (Z.ltb_spec fd0 0); [lia |].
        exists (S k), (fd0 :: os). cbn [repeat List.length].
        split; [rewrite Ht, <- app_assoc; reflexivity |].
        split; [lia |]. split; [lia |].
        split; [rewrite Hc, <- app_assoc; reflexivity |].
        destruct Hfd as [[Hm Ho] | (Hm & Ho & Hk0 & Hcn)].
        -- left. split; [assumption |]. rewrite Ho, <- app_assoc.
           reflexivity.
        -- right. split; [assumption |].
           split; [rewrite Ho, <- !app_assoc; reflexivity |].
           split; [lia | assumption].
Qed.

(** X7.  [gettcpsock] tries one [connect] per resolved address at most,
    but each of them goes to the first address of the list: no other
    resolved address is ever tried.  When it fails it returns -1 with
    every descriptor it opened closed again; when it succeeds it returns
    the one descriptor left open, whose [connect] succeeded. *)
Theorem gettcpsock_first_address_only (n : netenv) (myport : list ascii)
  (fam : family) (hostname : list ascii) (fd : Z)
  (si : option (list addrinfo)) (w' : net) :
  gettcpsock n myport fam hostname no_net = (fd, si, w') ->
  (tried w' = [] \/
   exists head rest,
     getaddrinfo n (Some hostname) myport
       {| ai_numerichost := negb (numhost hostname =? 0);
          ai_passive := false; ai_family := fam;
          ai_socktype := SOCK_STREAM |} = Some (head :: rest)
     /\ Forall (fun a => a = a_addr head) (tried w')
     /\ (List.length (tried w') <= S (List.length rest))%nat)
  /\ ((fd = -1 /\ si = None /\ opened w' = closed w')
      \/ (0 <= fd /\ si <> None /\ opened w' = closed w' ++ [fd]
          /\ exists a, last (tried w') a = a
                       /\ connect_at n (List.length (tried w') - 1) a = true
                       /\ tried w' <> [])).
Proof.
  unfold gettcpsock. intros H.
  destruct (getaddrinfo n (Some hostname) myport _) as [[| head rest] |]
    eqn:Hgai.
  - injection H as <- <- <-. split; [left; reflexivity |]. left. tauto.
  - destruct (tcp_attempts n head (head :: rest) no_net) as [fd0 w0] eqn:Hrun.
    injection H as <- <- <-.
    apply tcp_attempts_inv in Hrun.
    destruct Hrun as (k & os & Ht & Hk & _ & Hc & Hfd).
    cbn [tried closed opened no_net app List.length] in *.
    split.
    + right. exists head, rest. split; [reflexivity |].
      rewrite Ht. split.
      * apply Forall_forall. intros a Ha. now apply repeat_spec in Ha.
      * rewrite repeat_length. lia.
    + destruct Hfd as [[Hm Ho] | (Hm & Ho & Hk0 & Hcn)].
      * left. subst fd0. cbn. split; [reflexivity |].
        split; [reflexivity | congruence].
      * right. destruct (Z.ltb_spec fd0 0); [lia |].
        split; [assumption |]. split; [discriminate |].
        split; [congruence |].
        exists (a_addr head). split; [| split; [assumption |]].
        -- rewrite Ht. destruct k as [| k]; [lia |].
           clear. induction k as [| k IH]; [reflexivity |].
           cbn [repeat last] in *. destruct (repeat (a_addr head) k);
             assumption.
        -- rewrite Ht. destruct k; [lia | discriminate].
  - injection H as <- <- <-. split; [left; reflexivity |]. left. tauto.
Qed.

Lemma udp_attempts_inv (n : netenv) (si : addrinfo) (r : list addrinfo) :
  forall w fd w',
    udp_attempts n si r w = (fd, w') ->
    tried w' = tried w /\ closed w' = closed w
    /\ (nsocket w' <= nsocket w + List.length r)%nat
    /\ ((fd = -1 /\ opened w' = opened w)
        \/ (0 <= fd /\ opened w' = opened w ++ [fd]
            /\ fd = socket_at n (nsocket w' - 1) (a_family si) SOCK_DGRAM)).
Proof.
  induction r as [| a next IH]; intros w fd w' H; cbn [udp_attempts] in H.
  - injection H as <- <-. repeat split; try lia. left. tauto.
  - destruct (Z.geb_spec (socket_at n (nsocket w) (a_family si) SOCK_DGRAM) 0)
      as [Hpos | Hneg].
    + injection H as <- <-. unfold did_socket.
      cbn [tried closed nsocket opened List.length].
      destruct (Z.ltb_spec (socket_at n (nsocket w) (a_family si) SOCK_DGRAM) 0);
        [lia |].
      repeat split; try lia. right.
      replace (S (nsocket w) - 1)%nat with (nsocket w) by lia.
      repeat split; lia.
    + apply IH in H. destruct H as (Ht & Hc & Hn & Hfd).
      unfold did_socket in *. cbn [tried closed nsocket opened] in *.
      destruct (Z.ltb_spec (socket_at n (nsocket w) (a_family si) SOCK_DGRAM) 0);
        [| lia].
      cbn [List.length]. repeat split; try assumption; try lia.
Qed.

Lemma listen_on_cases (n : netenv) (myport : list ascii) (fam : family)
  (w : net) :
  (exists w1, listen_on n myport fam w = (None, -1, None, w1))
  \/ (exists si passock w1,
        listen_on n myport fam w = (Some si, passock, Some 1, w1)
        /\ 0 <= passock
        /\ bind_ok n passock && listen_ok n passock = false)
  \/ (exists si passock w1,
        listen_on n myport fam w = (Some si, passock, None, w1)
        /\ 0 <= passock
        /\ bind_ok n passock = true /\ listen_ok n passock = true)
  \/ (exists si passock w1,
        listen_on n myport fam w = (Some si, passock, None, w1)
        /\ passock < 0).
Proof.
  unfold listen_on.
  destruct (getaddrinfo n None myport _) as [[| si rest] |];
    [left; eauto | | left; eauto].
  destruct (Z.geb_spec (socket_at n (nsocket w) (a_family si) SOCK_STREAM) 0)
    as [Hpos | Hneg].
  - destruct (bind_ok n _) eqn:Hb; [destruct (listen_ok n _) eqn:Hl |].
    + right; right; left. do 3 eexists. split; [reflexivity |].
      repeat split; try assumption; lia.
    + right; left. do 3 eexists. split; [reflexivity |].
      split; [lia |]. now rewrite Hb, Hl.
    + right; left. do 3 eexists. split; [reflexivity |].
      split; [lia |]. now rewrite Hb.
  - right; right; right. do 3 eexists. split; [reflexivity | lia].
Qed.

(** X8.  The set-up of the listening socket in [genserver] leaves only
    with exit status 1, and when it reaches the [accept] loop with a
    valid descriptor, that descriptor has been bound and put to listen.
    A failing [bind] or [listen] on the IPv6 socket ends the server at
    once: IPv4 is tried only when no IPv6 socket could be had. *)
Theorem genserver_listens_or_leaves (n : netenv) (myport : list ascii)
  (w w' : net) (l : listener) :
  genserver_setup n myport w = (l, w') ->
  match l with
  | Quit code => code = 1
  | Accepting passock _ =>
      0 <= passock -> bind_ok n passock = true /\ listen_ok n passock = true
  end
  /\ (forall si passock w1,
        listen_on n myport AF_INET6 w = (Some si, passock, Some 1, w1) ->
        l = Quit 1 /\ w' = w1).
Proof.
  unfold genserver_setup. intros H.
  destruct (listen_on_cases n myport AF_INET6 w)
    as [(w1 & E) | [(si & p & w1 & E & Hp & Hb)
       | [(si & p & w1 & E & Hp & Hb & Hl) | (si & p & w1 & E & Hp)]]];
    rewrite E in *; cbv beta iota in H.
  - (* no IPv6 address *)
    destruct (listen_on_cases n myport AF_INET w1)
      as [(w2 & E4) | [(si4 & p4 & w2 & E4 & Hp4 & Hb4)
         | [(si4 & p4 & w2 & E4 & Hp4 & Hb4 & Hl4)
           | (si4 & p4 & w2 & E4 & Hp4)]]];
      rewrite E4 in H; cbv beta iota in H; injection H as <- <-;
      (split; [| intros ? ? ? Hx; discriminate]);
      try reflexivity; intros; try tauto; lia.
  - assert ((Quit 1, w1) = (l, w')) as Hx.
    { rewrite <- H. destruct p as [| q | q]; try reflexivity.
      destruct q; reflexivity. }
    injection Hx as <- <-. split; [reflexivity |].
    intros ? ? ? Hx. injection Hx as <- <- <-. tauto.
  - assert (genserver_setup_v6 :
      (l, w') = (Accepting p (option_map a_family (hd_error si)), w1)).
    { rewrite <- H. destruct p; try reflexivity.
      destruct p; try reflexivity; lia. }
    injection genserver_setup_v6 as -> ->.
    split; [tauto | intros ? ? ? Hx; discriminate].
  - destruct (Z.eq_dec p (-1)) as [-> | Hne].
    + destruct (listen_on_cases n myport AF_INET w1)
        as [(w2 & E4) | [(si4 & p4 & w2 & E4 & Hp4 & Hb4)
           | [(si4 & p4 & w2 & E4 & Hp4 & Hb4 & Hl4)
             | (si4 & p4 & w2 & E4 & Hp4)]]];
        rewrite E4 in H; cbv beta iota in H; injection H as <- <-;
        (split; [| intros ? ? ? Hx; discriminate]);
        try reflexivity; intros; try tauto; lia.
    + assert ((l, w')
              = (Accepting p (option_map a_family (hd_error si)), w1)) as Hx.
      { rewrite <- H. destruct p as [| q | q]; try reflexivity.
        destruct q; try reflexivity. congruence. }
      injection Hx as -> ->.
      split; [intros; lia | intros ? ? ? Hy; discriminate].
Qed.


Lemma gettcpsock_first_address_only_witness :
  (tried after_two_tries = [] \/
   exists head rest,
     getaddrinfo two_addresses (Some (str "host")) MYPORT
       {| ai_numerichost := negb (numhost (str "host") =? 0);
          ai_passive := false; ai_family := AF_INET6;
          ai_socktype := SOCK_STREAM |} = Some (head :: rest)
     /\ Forall (fun a => a = a_addr head) (tried after_two_tries)
     /\ (List.length (tried after_two_tries) <= S (List.length rest))%nat)
  /\ ((-1 = -1 /\ @None (list addrinfo) = None
       /\ opened after_two_tries = closed after_two_tries)
      \/ (0 <= -1 /\ @None (list addrinfo) <> None
          /\ opened after_two_tries = closed after_two_tries ++ [-1]
          /\ exists a, last (tried after_two_tries) a = a
                       /\ connect_at two_addresses
                            (List.length (tried after_two_tries) - 1) a
                          = true
                       /\ tried after_two_tries <> [])).
Proof.
  apply (gettcpsock_first_address_only two_addresses MYPORT AF_INET6
           (str "host")).
  vm_compute. reflexivity.
Defined.

(** X9.  [getudpsock] never connects or closes anything: it returns
    the first descriptor that [socket] gives it, the only one then left
    open, or -1 with nothing left open when resolution or every
    [socket] call fails. *)
Theorem getudpsock_opens_one_socket (n : netenv)
  (hostname host port : list ascii) (fam : family) (fd : Z)
  (si : option (list addrinfo)) (w' : net) :
  getudpsock n hostname fam host port no_net = (fd, si, w') ->
  tried w' = [] /\ closed w' = []
  /\ ((fd = -1 /\ si = None /\ opened w' = [])
      \/ (0 <= fd /\ si <> None /\ opened w' = [fd])).
Proof.
  unfold getudpsock. intros H.
  destruct (getaddrinfo n (Some hostname) port _) as [[| head rest] |].
  - injection H as <- <- <-. repeat split. left. tauto.
  - destruct (udp_attempts n head (head :: rest) no_net) as [fd0 w0] eqn:Hrun.
    injection H as <- <- <-.
    apply udp_attempts_inv in Hrun.
    destruct Hrun as (Ht & Hc & _ & Hfd).
    cbn [tried closed opened no_net app] in *.
    split; [assumption |]. split; [assumption |].
    destruct Hfd as [[-> Ho] | (Hp & Ho & _)].
    + left. cbn. tauto.
    + right. destruct (Z.ltb_spec fd0 0); [lia |].
      split; [assumption |]. split; [discriminate | assumption].
  - injection H as <- <- <-. repeat split. left. tauto.
Qed.

Lemma getudpsock_opens_one_socket_witness :
  tried one_socket = [] /\ closed one_socket = []
  /\ ((3 = -1 /\ Some both_addresses = None /\ opened one_socket = [])
      \/ (0 <= 3 /\ Some both_addresses <> None
          /\ opened one_socket = [3])).
Proof.
  apply (getudpsock_opens_one_socket two_addresses (str "host") (str "host")
           (str "31434") AF_INET6).
  vm_compute. reflexivity.
Defined.

Lemma genserver_listens_or_leaves_witness :
  1 = 1
  /\ (forall si passock w1,
        listen_on two_addresses MYPORT AF_INET6 no_net
        = (Some si, passock, Some 1, w1) ->
        Quit 1 = Quit 1 /\ one_socket = w1).
Proof.
  apply (genserver_listens_or_leaves two_addresses MYPORT no_net one_socket
           (Quit 1)).
  vm_compute. reflexivity.
Defined.

End SocketFacts.

(* ================================================================== *)
(** ** More on the handshake *)

Module HandshakeMore.
Import CInt Libc Attract Scenario Sockets Notions Scenario2 CIntFacts LibcFacts Handshake.

Lemma print_unsigned_short (n : Z) :
  0 <= n < 2 ^ 17 -> (List.length (print_unsigned n) <= 17)%nat.
Proof.
  intros Hn. unfold print_unsigned.
  pose proof (dec_digits_length (S (Z.to_nat (Z.log2 n))) n []) as Hl.
  cbn [List.length] in Hl.
  assert (Z.log2 n < 17).
  { destruct (Z.eq_dec n 0) as [-> | Hnz]; [reflexivity |].
    apply Z.log2_lt_pow2; lia. }
  pose proof (Z.log2_nonneg n). lia.
Qed.

Lemma control_message_shape (a b c : ascii) (len : Z) :
  1 <= len <= MAXLEN ->
  control_message a b c len
  = a :: SP :: b :: SP :: c :: SP :: print_dec len ++ [NL].
Proof.
  intros Hlen. unfold MAXLEN in Hlen. unfold control_message.
  rewrite sint32_id by (unfold in_sint32, INT_MIN, INT_MAX; lia).
  reflexivity.
Qed.

Lemma control_message_length (a b c : ascii) (len : Z) :
  1 <= len <= MAXLEN ->
  (List.length (control_message a b c len ++ [NUL]) <= 25)%nat.
Proof.
  intros Hlen. rewrite control_message_shape by assumption.
  unfold MAXLEN in Hlen. cbn [app List.length]. rewrite !length_app.
  cbn [List.length]. unfold print_dec.
  destruct (Z.ltb_spec len 0); [lia |].
  pose proof (print_unsigned_short len ltac:(lia)). lia.
Qed.

(** What the server's [sscanf] makes of a control message whose three
    characters are neither white space nor NUL. *)
Lemma parse_control_message (a b c : ascii) (len : Z) (junk : ctlvars) :
  isspace a = false -> isspace b = false -> isspace c = false ->
  Ascii.eqb a NUL = false -> Ascii.eqb b NUL = false ->
  Ascii.eqb c NUL = false ->
  1 <= len <= MAXLEN ->
  parse_control (control_message a b c len ++ [NUL]) junk
  = {| h_ipvers := a; h_prot := b; h_direct := c; h_targetlen := len |}.
Proof.
  intros Sa Sb Sc Na Nb Nc Hlen.
  rewrite control_message_shape by assumption. unfold MAXLEN in Hlen.
  unfold parse_control, ctl_fmt. cbn [app]. rewrite <- app_assoc.
  cbn [app].
  assert (Hin : in_sint64 len)
    by (unfold in_sint64, LLONG_MIN, LLONG_MAX; lia).
  rewrite (cstring_cons a), (cstring_cons SP), (cstring_cons b),
    (cstring_cons SP), (cstring_cons c), (cstring_cons SP)
    by (assumption || reflexivity).
  rewrite (cstring_app _ _ (print_dec_no_nul len)).
  change (cstring [NL; NUL]) with [NL].
  rewrite sscanf_char, sscanf_space, sscanf_nospace
    by (assumption || reflexivity).
  rewrite sscanf_char, sscanf_space, sscanf_nospace
    by (assumption || reflexivity).
  rewrite sscanf_char, sscanf_space, sscanf_space_dec by reflexivity.
  rewrite sscanf_int_dec by (assumption || reflexivity).
  reflexivity.
Qed.

Lemma control_message_no_nul (a b c : ascii) (len : Z) :
  Ascii.eqb a NUL = false -> Ascii.eqb b NUL = false ->
  Ascii.eqb c NUL = false -> 1 <= len <= MAXLEN ->
  Forall (fun x => Ascii.eqb x NUL = false) (control_message a b c len).
Proof.
  intros Na Nb Nc Hlen. rewrite control_message_shape by assumption.
  repeat (constructor; [assumption || reflexivity |]).
  apply Forall_app. split; [apply print_dec_no_nul |].
  repeat constructor.
Qed.

Lemma config_chars (g : globals) :
  valid_config g -> ipvers g <> "?"%char ->
  isspace (ipvers g) = false /\ isspace (prot g) = false
  /\ isspace (direct g) = false /\ Ascii.eqb (ipvers g) NUL = false
  /\ Ascii.eqb (prot g) NUL = false /\ Ascii.eqb (direct g) NUL = false.
Proof.
  intros (Hi & Hp & Hd & _) Hq.
  destruct Hi as [Hi | [Hi | Hi]]; [contradiction | |];
    destruct Hp as [Hp | Hp]; destruct Hd as [Hd | Hd];
    rewrite Hi, Hp, Hd; repeat split; reflexivity.
Qed.

(** A handler whose first read returns the control message of a client
    goes on with the settings of that client. *)
Lemma handlecon_reads_control (es : env) (g gs : globals) (junk : ctlvars)
  (portfuel fuel : nat) (ws : world) (later : list ascii) :
  valid_config g -> ipvers g <> "?"%char ->
  let msg := control_message (ipvers g) (prot g) (direct g) (meslen g)
             ++ [NUL] in
  tcp_in ws = msg ++ later ->
  rd es (nread ws) = Z.of_nat (List.length msg) ->
  handlecon es gs junk portfuel fuel ws
  = serve es gs
      {| h_ipvers := ipvers g; h_prot := prot g; h_direct := direct g;
         h_targetlen := meslen g |}
      portfuel fuel (took_read later ws).
Proof.
  intros Hv Hq msg Hin Hrd.
  destruct (config_chars g Hv Hq) as (Sa & Sb & Sc & Na & Nb & Nc).
  destruct Hv as (_ & _ & _ & Hlen & _).
  assert (Hl : (List.length msg <= 25)%nat)
    by (apply control_message_length; assumption).
  unfold handlecon, bind, sys_read. rewrite Hrd, Hin.
  destruct (Z.leb_spec (Z.of_nat (List.length msg)) 0) as [H0 | _].
  { subst msg. rewrite length_app in H0. cbn [List.length] in H0. lia. }
  change (size_t 32) with 32.
  replace (Z.min (Z.of_nat (List.length msg))
             (Z.min 32 (Z.of_nat (List.length (msg ++ later)))))
    with (Z.of_nat (List.length msg)) by (rewrite length_app; lia).
  rewrite Nat2Z.id.
  rewrite firstn_app, Nat.sub_diag, firstn_O, app_nil_r, firstn_all.
  rewrite skipn_app, Nat.sub_diag, skipn_all. cbn [app skipn].
  destruct (Z.leb_spec (Z.of_nat (List.length msg)) 0) as [H0 | _].
  { subst msg. rewrite length_app in H0. cbn [List.length] in H0. lia. }
  subst msg. rewrite parse_control_message by assumption.
  reflexivity.
Qed.

(** X10.  The handshake end to end.  For a valid client configuration
    whose IP version is settled, the control message that the client
    writes, terminating NUL included, takes at most 25 bytes, so it fits
    the 32-byte buffer of the server; and a handler whose first read
    returns that message goes on to serve the connection with exactly
    the IP version, protocol, direction and packet length of the
    client. *)
Theorem handshake_delivers_config (ec es : env) (g gs : globals)
  (junk : ctlvars) (portfuel fuel : nat) (wc ws : world)
  (later : list ascii) :
  valid_config g -> ipvers g <> "?"%char ->
  wr ec (nwrite wc) = true ->
  let msg := control_message (ipvers g) (prot g) (direct g) (meslen g)
             ++ [NUL] in
  tcp_in ws = msg ++ later ->
  rd es (nread ws) = Z.of_nat (List.length msg) ->
  (List.length msg <= 25)%nat
  /\ write_string ec
       (control_message (ipvers g) (prot g) (direct g) (meslen g)) wc
     = Go (Z.of_nat (List.length msg)) (did_write msg wc)
  /\ handlecon es gs junk portfuel fuel ws
     = serve es gs
         {| h_ipvers := ipvers g; h_prot := prot g; h_direct := direct g;
            h_targetlen := meslen g |}
         portfuel fuel (took_read later ws).
Proof.
  intros Hv Hq Hw msg Hin Hrd.
  destruct (config_chars g Hv Hq) as (Sa & Sb & Sc & Na & Nb & Nc).
  pose proof Hv as (_ & _ & _ & Hlen & _).
  split; [apply control_message_length; assumption |]. split.
  - rewrite write_string_ok
      by (assumption || (apply control_message_no_nul; assumption)).
    subst msg. rewrite length_app. cbn [List.length].
    f_equal. lia.
  - now apply handlecon_reads_control.
Qed.

(** X11.  Opening the control channel never leaves the IP version
    open: when it succeeds, the version is 4 or 6 and is the family that
    was connected, IPv6 being preferred when none was asked for and the
    other settings are untouched; when it fails the client leaves with
    status 1. *)
Theorem control_channel_settles_version (e : env) (g : globals) (w : world) :
  (exists g',
      connect_control e g w = Go g' w
      /\ (ipvers g' = "4" \/ ipvers g' = "6")%char
      /\ tcp_connect e (family_of (ipvers g')) = true
      /\ (ipvers g <> "4"%char -> ipvers g <> "6"%char ->
          tcp_connect e AF_INET6 = true -> ipvers g' = "6"%char)
      /\ (ipvers g = "4"%char \/ ipvers g = "6"%char -> g' = g)
      /\ prot g' = prot g /\ direct g' = direct g
      /\ meslen g' = meslen g /\ mesnum g' = mesnum g
      /\ mestime g' = mestime g)
  \/ connect_control e g w = Exit 1 w.
Proof.
  unfold connect_control, ret, exit, chr_eq.
  destruct (Ascii.eqb_spec (ipvers g) "4") as [E4 | N4].
  - destruct (tcp_connect e AF_INET) eqn:Hc; [| right; reflexivity].
    left. exists g. rewrite E4. repeat split; try tauto; try congruence.
  - destruct (Ascii.eqb_spec (ipvers g) "6") as [E6 | N6].
    + destruct (tcp_connect e AF_INET6) eqn:Hc; [| right; reflexivity].
      left. exists g. rewrite E6. repeat split; try tauto; try congruence.
    + destruct (tcp_connect e AF_INET6) eqn:Hc6.
      * left. eexists. split; [reflexivity |].
        cbn. repeat split; tauto.
      * destruct (tcp_connect e AF_INET) eqn:Hc4; [| right; reflexivity].
        left. eexists. split; [reflexivity |].
        cbn. repeat split; try tauto; try congruence.
Qed.

Lemma find_port_lowest_aux (e : env) (fam : family) (fuel : nat) :
  forall base,
    in_sint32 base -> base + Z.of_nat fuel <= INT_MAX ->
    (forall p, find_port e fam fuel base = Some p ->
               forall q, base <= q < p -> port_try e fam q <> BindOk)
    /\ (forall q, base <= q <= base + Z.of_nat fuel ->
                  port_try e fam q = BindOk ->
                  exists p, find_port e fam fuel base = Some p /\ p <= q).
Proof.
  induction fuel as [| fuel IH]; intros base Hb Hf; cbn [find_port].
  - split.
    + intros p Hp q Hq.
      destruct (port_try e fam base); try discriminate.
      injection Hp as <-. lia.
    + intros q Hq Hok. replace q with base in * by lia. rewrite Hok.
      exists base. split; [reflexivity | lia].
  - unfold in_sint32, INT_MIN, INT_MAX in *.
    rewrite Nat2Z.inj_succ in Hf.
    rewrite sint32_id by (unfold in_sint32, INT_MIN, INT_MAX; lia).
    destruct (IH (base + 1) ltac:(lia) ltac:(lia)) as [IH1 IH2].
    split.
    + intros p Hp q Hq.
      destruct (port_try e fam base) eqn:Htry;
        try (destruct (Z.eq_dec q base) as [-> | Hne];
             [congruence | apply (IH1 p Hp); lia]).
      injection Hp as <-. lia.
    + intros q Hq Hok.
      destruct (port_try e fam base) eqn:Htry;
        try (destruct (Z.eq_dec q base) as [-> | Hne]; [congruence |];
             destruct (IH2 q ltac:(lia) Hok) as (p & Hp & Hle);
             exists p; split; [exact Hp | lia]).
      exists base. split; [reflexivity | lia].
Qed.

(** X12.  The port search of the server returns the lowest free port at
    or above its base port: every candidate below the port it returns
    failed, and it does return a port whenever one of the candidates it
    is allowed to try is free.  (Stated for searches that stay below
    [INT_MAX].) *)
Theorem find_port_lowest_free (e : env) (fam : family) (fuel : nat)
  (g : globals) :
  atoi (myport g) + Z.of_nat fuel <= INT_MAX ->
  (forall p, find_port e fam fuel (atoi (myport g)) = Some p ->
             forall q, atoi (myport g) <= q < p ->
                       port_try e fam q <> BindOk)
  /\ (forall q, atoi (myport g) <= q <= atoi (myport g) + Z.of_nat fuel ->
                port_try e fam q = BindOk ->
                exists p, find_port e fam fuel (atoi (myport g)) = Some p
                          /\ p <= q).
Proof.
  intros Hf. apply find_port_lowest_aux; [apply atoi_range | assumption].
Qed.


Lemma handshake_delivers_config_witness :
  (List.length session_msg <= 25)%nat
  /\ write_string quiet (control_message "6" "t" "u" 2) (fresh [] [])
     = Go (Z.of_nat (List.length session_msg))
          (did_write session_msg (fresh [] []))
  /\ handlecon server_side initial_globals junk0 5 5 ws_session
     = serve server_side initial_globals
         {| h_ipvers := "6"; h_prot := "t"; h_direct := "u";
            h_targetlen := 2 |}
         5 5 (took_read (sent_stream 3 2) ws_session).
Proof.
  apply (handshake_delivers_config quiet server_side g_session
           initial_globals junk0 5 5 (fresh [] []) ws_session
           (sent_stream 3 2)).
  - unfold valid_config, MAXLEN. cbn. intuition lia.
  - discriminate.
  - reflexivity.
  - reflexivity.
  - reflexivity.
Defined.

Lemma find_port_lowest_free_witness :
  (forall p, find_port quiet AF_INET6 10 (atoi (myport initial_globals))
             = Some p ->
             forall q, atoi (myport initial_globals) <= q < p ->
                       port_try quiet AF_INET6 q <> BindOk)
  /\ (forall q, atoi (myport initial_globals) <= q
                  <= atoi (myport initial_globals) + Z.of_nat 10 ->
                port_try quiet AF_INET6 q = BindOk ->
                exists p, find_port quiet AF_INET6 10
                            (atoi (myport initial_globals)) = Some p
                          /\ p <= q).
Proof.
  apply (find_port_lowest_free quiet AF_INET6 10 initial_globals).
  vm_compute. discriminate.
Defined.

End HandshakeMore.

(* ================================================================== *)
(** ** More on the transfer loops *)

Module TransferMore.
Import CInt Libc Attract Scenario Sockets Notions Scenario2 CIntFacts LibcFacts Transfer.

(** *** Receiving over TCP *)

Lemma getmes_tcp_short (e : env) (fuel : nat) :
  (forall n, 0 < rd e n) ->
  forall b p len w,
    0 < len <= INT_MAX ->
    Z.of_nat (List.length (tcp_in w)) < len ->
    (List.length (tcp_in w) < fuel)%nat ->
    exists w', getmes_tcp e fuel b p len w = Exit 0 w'
               /\ tcp_in w' = [] /\ tcp_out w' = tcp_out w.
Proof.
  intros Hrd. induction fuel as [| fuel IH]; intros b p len w Hlen Hin Hf;
    [lia |].
  cbn [getmes_tcp]. destruct (Z.eqb_spec len 0) as [| _]; [lia |].
  unfold bind, sys_read. unfold INT_MAX in Hlen.
  specialize (Hrd (nread w)) as Hk.
  destruct (Z.leb_spec (rd e (nread w)) 0) as [Hle | _]; [lia |].
  unfold size_t. rewrite (Z.mod_small len) by lia.
  set (n := Z.min (rd e (nread w))
              (Z.min len (Z.of_nat (List.length (tcp_in w))))).
  cbv iota beta.
  destruct (Z.leb_spec n 0) as [Hn | Hn].
  - assert (tcp_in w = []) as Hnil
      by (destruct (tcp_in w); [reflexivity | cbn in *; lia]).
    eexists. split; [reflexivity |]. cbn [tcp_in tcp_out took_read].
    rewrite Hnil. split; [now rewrite skipn_nil | reflexivity].
  - rewrite sint32_id by (unfold in_sint32, INT_MIN, INT_MAX; lia).
    destruct (IH (store b p (firstn (Z.to_nat n) (tcp_in w))) (p + n)
                 (len - n) (took_read (skipn (Z.to_nat n) (tcp_in w)) w))
      as (w' & Hrun & Hnil & Hout);
      unfold INT_MAX; cbn [tcp_in took_read];
      try rewrite length_skipn; try lia.
    exists w'. now rewrite Hrun.
Qed.

(** X13.  Receiving one packet over TCP does not depend on how the
    stream is cut into reads.  When no read fails and at least [len]
    bytes arrive, [getmes] returns 0 with exactly the next [len] bytes at
    the start of the buffer and leaves the rest of the stream pending;
    when the stream ends before [len] bytes have come, the process takes
    what there is and leaves with exit status 0. *)
Theorem tcp_receive_exact_or_leave (e : env) (sbuf : list ascii) (len : Z)
  (w : world) :
  (forall n, 0 < rd e n) ->
  0 < len <= INT_MAX ->
  (len <= Z.of_nat (List.length (tcp_in w)) ->
   exists w',
     getmes e "t" sbuf len w
     = Go (0, firstn (Z.to_nat len) (tcp_in w) ++ skipn (Z.to_nat len) sbuf)
          w'
     /\ tcp_in w' = skipn (Z.to_nat len) (tcp_in w)
     /\ tcp_out w' = tcp_out w /\ numtout w' = numtout w)
  /\ (Z.of_nat (List.length (tcp_in w)) < len ->
      exists w', getmes e "t" sbuf len w = Exit 0 w' /\ tcp_in w' = []
                 /\ tcp_out w' = tcp_out w).
Proof.
  intros Hrd Hlen. split; intros Hin.
  - destruct (getmes_tcp_packet e sbuf len w Hrd ltac:(lia) Hin) as [k Hk].
    eexists. split; [exact Hk |]. repeat split.
  - unfold getmes. change (chr_eq "t" "t") with true. cbv iota.
    unfold bind at 1. unfold get. unfold bind.
    destruct (getmes_tcp_short e (S (List.length (tcp_in w))) Hrd
                sbuf 0 len w Hlen Hin ltac:(lia)) as (w' & -> & Hnil & Ho).
    exists w'. tauto.
Qed.

(** *** The counter-based loop in any mode *)

Lemma getmes_tcp_nwrite (e : env) (fuel : nat) :
  forall b p len w b' w',
    getmes_tcp e fuel b p len w = Go b' w' ->
    nwrite w' = nwrite w /\ udp_out w' = udp_out w
    /\ numtout w' = numtout w /\ udp_in w' = udp_in w.
Proof.
  induction fuel as [| fuel IH]; intros b p len w b' w' H;
    cbn [getmes_tcp] in H; destruct (len =? 0);
    try (unfold ret in H; injection H as _ <-; tauto); try discriminate.
  unfold bind, sys_read in H.
  destruct (rd e (nread w) <=? 0).
  - change (-1 <=? 0) with true in H. discriminate.
  - cbv iota beta in H. break_if H; [discriminate |].
    apply IH in H. exact H.
Qed.

Lemma putmes_go (e : env) (prot : ascii) (b : list ascii) (len : Z)
  (w w' : world) (u : unit) :
  putmes e prot b len w = Go u w' ->
  nwrite w' = S (nwrite w) /\ numtout w' = numtout w
  /\ udp_in w' = udp_in w /\ tcp_in w' = tcp_in w
  /\ (chr_eq prot "t" = false ->
      udp_out w' = udp_out w ++ [firstn (Z.to_nat len) b]).
Proof.
  unfold putmes, bind, sys_write, sys_sendto, exit, ret. intros H.
  destruct (chr_eq prot "t"); destruct (wr e (nwrite w));
    cbv iota beta in H; repeat (break_if H; try discriminate);
    injection H as _ <-; repeat split; try reflexivity; discriminate.
Qed.

Lemma putmes_total (e : env) (prot : ascii) (b : list ascii) (len : Z)
  (w : world) : putmes e prot b len w <> Fuel.
Proof.
  unfold putmes, bind, sys_write, sys_sendto, exit, ret.
  repeat match goal with
         | |- context [if ?c then _ else _] => destruct c
         end; discriminate.
Qed.

Lemma client_iter_total (e : env) (g : globals) (endtime : Z) (st : cloop)
  (w : world) : client_iter e g endtime st w <> Fuel.
Proof.
  unfold client_iter. unfold bind at 1.
  destruct (check_finished_go e g endtime st w) as (st1 & w1 & ->).
  unfold bind at 1.
  pose proof (putmes_total e (prot g) (buf st1) (sint32 (meslen g)) w1) as Hp.
  destruct (putmes e (prot g) (buf st1) (sint32 (meslen g)) w1)
    as [[] w2 | |]; [| discriminate | congruence].
  destruct (chr_eq (direct g) "u"); [discriminate |].
  unfold bind.
  pose proof (getmes_total e (prot g) (buf st1) (sint32 (meslen g)) w2) as Hg.
  destruct (getmes e (prot g) (buf st1) (sint32 (meslen g)) w2)
    as [[rv b'] w3 | |]; [discriminate | discriminate | congruence].
Qed.

Lemma getmes_nwrite (e : env) (prot : ascii) (b : list ascii) (len : Z)
  (w w' : world) (r : Z * list ascii) :
  getmes e prot b len w = Go r w' ->
  nwrite w' = nwrite w /\ udp_out w' = udp_out w.
Proof.
  unfold getmes. intros H. destruct (chr_eq prot "t").
  - unfold bind, get, ret in H. break_match H; try discriminate.
    injection H as _ <-.
    match goal with
    | Hg : getmes_tcp _ _ _ _ _ _ = Go _ _ |- _ =>
        apply getmes_tcp_nwrite in Hg; tauto
    end.
  - unfold bind, modify, sys_recvfrom, get, ret, exit in H.
    cbn [udp_in set_timedout] in H.
    destruct (udp_in w) as [| [d | |] rest]; cbv iota beta in H;
      repeat (break_if H; try discriminate);
      injection H as _ <-; split; reflexivity.
Qed.

Lemma client_iter_counted (e : env) (g : globals) (endtime : Z)
  (st st2 : cloop) (w w2 : world) :
  mesnum g <> 0 ->
  client_iter e g endtime st w = Go st2 w2 ->
  cnt st2 = add64 (cnt st) 1
  /\ proceed st2 = (if cnt st2 =? mesnum g then 0 else proceed st)
  /\ nwrite w2 = S (nwrite w).
Proof.
  intros Hm H. unfold client_iter in H. unfold bind at 1 in H.
  unfold check_finished in H.
  destruct (Z.eqb_spec (mesnum g) 0) as [| _]; [contradiction |].
  cbn [negb] in H.
  set (st1 := if add64 (cnt st) 1 =? mesnum g
              then {| cnt := add64 (cnt st) 1; proceed := 0;
                      buf := set_byte0 "E" (buf st); endtms := endtms st |}
              else {| cnt := add64 (cnt st) 1; proceed := proceed st;
                      buf := buf st; endtms := endtms st |}).
  assert (Hst1 : cnt st1 = add64 (cnt st) 1
                 /\ proceed st1
                    = (if cnt st1 =? mesnum g then 0 else proceed st)).
  { subst st1. destruct (add64 (cnt st) 1 =? mesnum g) eqn:E;
      cbn [cnt proceed]; rewrite E; tauto. }
  replace (if add64 (cnt st) 1 =? mesnum g
           then ret {| cnt := add64 (cnt st) 1; proceed := 0;
                       buf := set_byte0 "E" (buf st);
                       endtms := endtms st |}
           else ret {| cnt := add64 (cnt st) 1; proceed := proceed st;
                       buf := buf st; endtms := endtms st |})
    with (@ret cloop st1) in H
    by (subst st1; destruct (add64 (cnt st) 1 =? mesnum g); reflexivity).
  unfold ret at 1 in H. unfold bind at 1 in H.
  destruct (putmes e (prot g) (buf st1) (sint32 (meslen g)) w)
    as [u w1 | |] eqn:Hput; try discriminate.
  apply putmes_go in Hput. destruct Hput as (Hnw & _).
  destruct (chr_eq (direct g) "u").
  - unfold ret in H. injection H as <- <-. tauto.
  - unfold bind in H.
    destruct (getmes e (prot g) (buf st1) (sint32 (meslen g)) w1)
      as [[rv b'] w1' | |] eqn:Hget; try discriminate.
    apply getmes_nwrite in Hget.
    unfold ret in H. injection H as <- <-. cbn [cnt proceed].
    destruct Hget as [-> _]. tauto.
Qed.

Lemma client_loop_counted (e : env) (g : globals) (endtime : Z) (fuel : nat) :
  1 <= mesnum g < 2 ^ 32 ->
  forall st w,
    0 <= cnt st < mesnum g -> proceed st <> 0 ->
    mesnum g - cnt st <= Z.of_nat fuel ->
    client_loop e g endtime fuel st w <> Fuel
    /\ (forall st' w',
          client_loop e g endtime fuel st w = Go st' w' ->
          cnt st' = mesnum g /\ proceed st' = 0
          /\ Z.of_nat (nwrite w')
             = Z.of_nat (nwrite w) + (mesnum g - cnt st)).
Proof.
  intros HN. induction fuel as [| fuel IH]; intros st w Hc Hp Hf; [lia |].
  cbn [client_loop].
  destruct (Z.eqb_spec (proceed st) 0) as [| _]; [contradiction |].
  unfold bind.
  pose proof (client_iter_total e g endtime st w) as Htot.
  destruct (client_iter e g endtime st w) as [st1 w1 | c1 w1 |] eqn:Hi;
    [| split; [discriminate | intros ? ? Hx; discriminate] | congruence].
  apply client_iter_counted in Hi; [| lia].
  destruct Hi as (Hcnt & Hpr & Hnw).
  assert (cnt st1 = cnt st + 1) as Hc1.
  { rewrite Hcnt. unfold add64. apply sint64_id.
    unfold in_sint64, LLONG_MIN, LLONG_MAX. lia. }
  rewrite Hc1 in Hpr.
  destruct (Z.eqb_spec (cnt st + 1) (mesnum g)) as [Heq | Hne].
  - destruct fuel; cbn [client_loop]; rewrite Hpr; change (0 =? 0) with true;
      cbv iota; unfold ret;
      (split; [discriminate |]); intros st' w' Hx;
      injection Hx as <- <-; repeat split; try assumption; lia.
  - destruct (IH st1 w1 ltac:(lia) ltac:(congruence) ltac:(lia))
      as [Hnf Hgo].
    split; [assumption |]. intros st' w' Hx.
    destruct (Hgo st' w' Hx) as (H1 & H2 & H3).
    repeat split; try assumption. lia.
Qed.

(** X14.  Whatever the protocol and the direction, a counter-based
    transfer of N packets comes to an end within N turns of the loop:
    unless the process leaves on an error, the loop is left after
    exactly N turns, N sends included. *)
Theorem counted_loop_turns (e : env) (g : globals) (endtime : Z)
  (fuel : nat) (st : cloop) (w : world) :
  1 <= mesnum g < 2 ^ 32 ->
  cnt st = 0 -> proceed st <> 0 ->
  mesnum g <= Z.of_nat fuel ->
  client_loop e g endtime fuel st w <> Fuel
  /\ (forall st' w',
        client_loop e g endtime fuel st w = Go st' w' ->
        cnt st' = mesnum g /\ proceed st' = 0
        /\ Z.of_nat (nwrite w') = Z.of_nat (nwrite w) + mesnum g).
Proof.
  intros HN Hc Hp Hf.
  destruct (client_loop_counted e g endtime fuel HN st w
              ltac:(lia) Hp ltac:(lia)) as [H1 H2].
  split; [assumption |]. intros st' w' Hx.
  destruct (H2 st' w' Hx) as (A & B & C). repeat split; try assumption.
  lia.
Qed.

(** *** UDP: timeouts on the server and on the client *)

Lemma getmes_udp_datagram (e : env) (prot : ascii) (b d : list ascii)
  (rest : list udp_event) (len : Z) (w : world) :
  chr_eq prot "t" = false ->
  1 <= len <= INT_MAX -> d <> [] ->
  udp_in w = Datagram d :: rest ->
  getmes e prot b len w
  = Go (0, store b 0 (firstn (Z.to_nat len) d))
       (took_recv rest (set_timedout 0 w))
  /\ byte0 (store b 0 (firstn (Z.to_nat len) d)) = byte0 d.
Proof.
  intros Hp Hlen Hd Hin. unfold INT_MAX in Hlen. unfold getmes.
  rewrite Hp. unfold bind, modify, sys_recvfrom.
  cbn [udp_in set_timedout]. rewrite Hin.
  unfold size_t. rewrite Z.mod_small by lia.
  destruct (Z.ltb_spec (Z.of_nat (List.length (firstn (Z.to_nat len) d))) 0);
    [lia |].
  split; [reflexivity |].
  destruct d as [| c d]; [contradiction |].
  replace (Z.to_nat len) with (S (Z.to_nat (len - 1))) by lia.
  reflexivity.
Qed.

Lemma getmes_udp_timeout (e : env) (prot : ascii) (b : list ascii) (len : Z)
  (w : world) :
  chr_eq prot "t" = false ->
  udp_in w = [] \/ (exists rest, udp_in w = Timeout :: rest) ->
  getmes e prot b len w
  = Go (1, b)
       (set_numtout (add64 (numtout w) 1)
          (set_timedout 1 (took_recv (tl (udp_in w)) w))).
Proof.
  intros Hp Hin. unfold getmes. rewrite Hp.
  unfold bind, modify, sys_recvfrom, get.
  destruct w as [to nt ti ui tco uo nr nw ntm].
  cbn [udp_in set_timedout numtout] in *.
  destruct Hin as [Hin | [rest Hin]]; subst ui; reflexivity.
Qed.

Lemma server_loop_udp (e : env) (prot : ascii) (len : Z) :
  chr_eq prot "t" = false ->
  1 <= len <= INT_MAX ->
  forall (ds : list (list ascii)) (tail : list udp_event) (sfuel : nat)
         (numrcv : Z) (sbuf : list ascii) (ws : world),
    Forall plain_datagram ds ->
    tail = [] \/ (exists rest, tail = Timeout :: rest) ->
    udp_in ws = map Datagram ds ++ tail ->
    (List.length ds < sfuel)%nat ->
    0 <= numrcv -> numrcv + Z.of_nat (List.length ds) <= LLONG_MAX ->
    exists sbuf' ws',
      server_loop e sfuel prot "u" len numrcv sbuf ws
      = Go (numrcv + Z.of_nat (List.length ds), sbuf') ws'
      /\ numtout ws' = add64 (numtout ws) 1
      /\ udp_in ws' = tl tail
      /\ tcp_out ws' = tcp_out ws /\ udp_out ws' = udp_out ws.
Proof.
  intros Hp Hlen.
  assert (Hs32 : sint32 len = len)
    by (apply sint32_id; unfold in_sint32, INT_MIN, INT_MAX in *; lia).
  induction ds as [| d ds IH];
    intros tail sfuel numrcv sbuf ws Hds Htail Hin Hf H0 Hmax;
    (destruct sfuel as [| sfuel]; [cbn [List.length] in Hf; lia |]);
    cbn [server_loop]; unfold bind at 1; rewrite Hs32.
  - cbn [map app] in Hin.
    rewrite getmes_udp_timeout by (rewrite ?Hin; tauto).
    change (negb (1 =? 0)) with true. cbv iota beta. unfold ret.
    eexists; eexists. split; [f_equal; f_equal; cbn [List.length]; lia |].
    cbn [numtout udp_in tcp_out udp_out set_numtout set_timedout took_recv].
    rewrite Hin. tauto.
  - cbn [map app] in Hin. inversion Hds as [| ? ? [Hne HnE] Hds']; subst.
    destruct (getmes_udp_datagram e prot sbuf d (map Datagram ds ++ tail)
                len ws Hp Hlen Hne Hin) as [-> Hb0].
    change (negb (0 =? 0)) with false. cbv iota beta.
    change (chr_eq "u" "b") with false. cbv iota.
    unfold bind at 1. unfold ret at 1. rewrite Hb0.
    unfold chr_eq at 1. rewrite (proj2 (Ascii.eqb_neq _ _) HnE).
    cbn [List.length] in *. rewrite Nat2Z.inj_succ in Hmax.
    unfold LLONG_MAX in Hmax.
    assert (add64 numrcv 1 = numrcv + 1) as ->
      by (apply sint64_id; unfold in_sint64, LLONG_MIN, LLONG_MAX; lia).
    destruct (IH tail sfuel (numrcv + 1)
                (store sbuf 0 (firstn (Z.to_nat len) d))
                (took_recv (map Datagram ds ++ tail) (set_timedout 0 ws))
                Hds' Htail eq_refl ltac:(lia) ltac:(lia)
                ltac:(unfold LLONG_MAX; lia))
      as (sbuf' & ws' & Hrun & Hnt & Hui & Hto & Huo).
    exists sbuf', ws'. rewrite Hrun.
    split; [f_equal; f_equal; lia |]. tauto.
Qed.

(** X15.  Over UDP the receive loop of the server ends at its first
    timeout.  After any number of datagrams that are not final, a
    receive that times out makes the handler leave its loop with the
    count of the datagrams received so far and one timeout on its
    counter, reported as 5 seconds; whatever was to arrive afterwards is
    never received. *)
Theorem server_stops_at_first_timeout (e : env) (len : Z)
  (ds : list (list ascii)) (later : list udp_event) (sfuel : nat)
  (sbuf : list ascii) (ws : world) :
  1 <= len <= INT_MAX ->
  Forall plain_datagram ds ->
  udp_in ws = map Datagram ds ++ Timeout :: later ->
  numtout ws = 0 ->
  (List.length ds < sfuel)%nat ->
  Z.of_nat (List.length ds) <= LLONG_MAX ->
  exists sbuf' ws',
    server_loop e sfuel "u" "u" len 0 sbuf ws
    = Go (Z.of_nat (List.length ds), sbuf') ws'
    /\ udp_in ws' = later
    /\ mul64 (numtout ws') UDPTOUT = 5
    /\ tcp_out ws' = tcp_out ws /\ udp_out ws' = udp_out ws.
Proof.
  intros Hlen Hds Hin Hnt Hf Hmax.
  destruct (server_loop_udp e "u" len eq_refl Hlen ds (Timeout :: later)
              sfuel 0 sbuf ws Hds ltac:(right; eauto) Hin Hf ltac:(lia)
              ltac:(lia))
    as (sbuf' & ws' & Hrun & Hn & Hui & Hto & Huo).
  exists sbuf', ws'. rewrite Hrun. cbn [Z.add].
  split; [reflexivity |]. split; [exact Hui |].
  split; [rewrite Hn, Hnt; reflexivity | tauto].
Qed.

Lemma lost_among_bounds (n : nat) :
  forall evs, 0 <= lost_among n evs <= Z.of_nat n.
Proof.
  induction n as [| n IH]; intros evs; cbn [lost_among]; [lia |].
  rewrite Nat2Z.inj_succ.
  destruct evs as [| [d | |] rest];
    match goal with
    | |- context [lost_among n ?l] => specialize (IH l)
    end; lia.
Qed.

Lemma client_iter_udp_bidi (e : env) (g : globals) (endtime : Z)
  (st : cloop) (w : world) :
  mesnum g <> 0 -> 1 <= meslen g <= MAXLEN ->
  chr_eq (prot g) "t" = false -> chr_eq (direct g) "u" = false ->
  (forall n, wr e n = true) ->
  Forall no_recv_error (udp_in w) ->
  LLONG_MIN <= numtout w < LLONG_MAX ->
  exists st2 w2,
    client_iter e g endtime st w = Go st2 w2
    /\ numtout w2 = numtout w + lost_among 1 (udp_in w)
    /\ udp_in w2 = tl (udp_in w).
Proof.
  intros Hm Hlen Hp Hd Hwr Hev Hnt. unfold MAXLEN in Hlen.
  unfold client_iter. unfold bind at 1.
  unfold check_finished.
  destruct (Z.eqb_spec (mesnum g) 0) as [| _]; [contradiction |].
  cbn [negb].
  set (st1 := if add64 (cnt st) 1 =? mesnum g
              then {| cnt := add64 (cnt st) 1; proceed := 0;
                      buf := set_byte0 "E" (buf st); endtms := endtms st |}
              else {| cnt := add64 (cnt st) 1; proceed := proceed st;
                      buf := buf st; endtms := endtms st |}).
  replace (if add64 (cnt st) 1 =? mesnum g
           then ret {| cnt := add64 (cnt st) 1; proceed := 0;
                       buf := set_byte0 "E" (buf st);
                       endtms := endtms st |}
           else ret {| cnt := add64 (cnt st) 1; proceed := proceed st;
                       buf := buf st; endtms := endtms st |})
    with (@ret cloop st1)
    by (subst st1; destruct (add64 (cnt st) 1 =? mesnum g); reflexivity).
  unfold ret at 1. unfold bind at 1.
  unfold putmes. rewrite Hp. unfold bind at 1. unfold sys_sendto.
  rewrite Hwr.
  destruct (Z.ltb_spec (sint32 (meslen g)) 0) as [Hneg | Hpos].
  - rewrite sint32_id in Hneg
      by (unfold in_sint32, INT_MIN, INT_MAX; lia). lia.
  - unfold ret at 1. rewrite Hd. unfold bind.
    set (w1 := did_sendto _ w).
    assert (udp_in w1 = udp_in w /\ numtout w1 = numtout w) as [Hu Hn]
      by (subst w1; split; reflexivity).
    destruct (udp_in w) as [| ev rest] eqn:Hin.
    + rewrite getmes_udp_timeout by (rewrite ?Hu; tauto).
      unfold ret. eexists; eexists. split; [reflexivity |].
      cbn [numtout udp_in set_numtout set_timedout took_recv].
      rewrite Hu, Hn. cbn [tl lost_among]. split; [| reflexivity].
      unfold add64. rewrite sint64_id
        by (unfold in_sint64; lia). lia.
    + inversion Hev as [| ? ? Hne Hrest]; subst.
      destruct ev as [d | |]; [| | exfalso; now apply Hne].
      * unfold getmes. rewrite Hp. unfold bind, modify, sys_recvfrom.
        cbn [udp_in set_timedout]. rewrite Hu.
        match goal with
        | |- context [Z.of_nat ?n <? 0] =>
            destruct (Z.ltb_spec (Z.of_nat n) 0); [lia |]
        end.
        unfold ret. eexists; eexists. split; [reflexivity |].
        cbn [numtout udp_in took_recv set_timedout tl lost_among].
        rewrite Hn. split; [lia | reflexivity].
      * rewrite getmes_udp_timeout by (rewrite ?Hu; eauto).
        unfold ret. eexists; eexists. split; [reflexivity |].
        cbn [numtout udp_in set_numtout set_timedout took_recv].
        rewrite Hu, Hn. cbn [tl lost_among]. split; [| reflexivity].
        unfold add64. rewrite sint64_id
          by (unfold in_sint64; lia). lia.
Qed.

Lemma client_loop_udp_bidi (e : env) (g : globals) (endtime : Z)
  (fuel : nat) :
  1 <= mesnum g < 2 ^ 32 -> 1 <= meslen g <= MAXLEN ->
  chr_eq (prot g) "t" = false -> chr_eq (direct g) "u" = false ->
  (forall n, wr e n = true) ->
  forall st w,
    0 <= cnt st < mesnum g -> proceed st <> 0 ->
    mesnum g - cnt st <= Z.of_nat fuel ->
    Forall no_recv_error (udp_in w) ->
    0 <= numtout w -> numtout w + (mesnum g - cnt st) <= LLONG_MAX ->
    exists st' w',
      client_loop e g endtime fuel st w = Go st' w'
      /\ cnt st' = mesnum g
      /\ numtout w'
         = numtout w + lost_among (Z.to_nat (mesnum g - cnt st)) (udp_in w)
      /\ udp_in w' = skipn (Z.to_nat (mesnum g - cnt st)) (udp_in w).
Proof.
  intros HN Hlen Hp Hd Hwr.
  induction fuel as [| fuel IH]; intros st w Hc Hpr Hf Hev H0 Hmax; [lia |].
  cbn [client_loop].
  destruct (Z.eqb_spec (proceed st) 0) as [| _]; [contradiction |].
  unfold bind. unfold LLONG_MAX in Hmax.
  destruct (client_iter_udp_bidi e g endtime st w ltac:(lia) Hlen Hp Hd Hwr
              Hev ltac:(unfold LLONG_MIN, LLONG_MAX; lia))
    as (st1 & w1 & Hi & Hnt & Hui).
  rewrite Hi. apply client_iter_counted in Hi; [| lia].
  destruct Hi as (Hcnt & Hpr1 & _).
  assert (cnt st1 = cnt st + 1) as Hc1.
  { rewrite Hcnt. unfold add64. apply sint64_id.
    unfold in_sint64, LLONG_MIN, LLONG_MAX. lia. }
  rewrite Hc1 in Hpr1.
  replace (Z.to_nat (mesnum g - cnt st))
    with (S (Z.to_nat (mesnum g - cnt st1))) by lia.
  assert (Hstep : forall evs n,
            lost_among (S n) evs = lost_among 1 evs + lost_among n (tl evs)).
  { intros evs n. cbn [lost_among]. destruct evs as [| [d | |] rest];
      cbn [tl]; lia. }
  assert (Hskip : forall (evs : list udp_event) n,
            skipn (S n) evs = skipn n (tl evs)).
  { intros evs n. destruct evs; [now rewrite !skipn_nil | reflexivity]. }
  rewrite Hstep, Hskip, <- Hui.
  pose proof (lost_among_bounds 1 (udp_in w)) as Hb1.
  destruct (Z.eqb_spec (cnt st + 1) (mesnum g)) as [Heq | Hne].
  - replace (Z.to_nat (mesnum g - cnt st1)) with 0%nat by lia.
    change (lost_among 0 (udp_in w1)) with 0.
    change (skipn 0 (udp_in w1)) with (udp_in w1).
    destruct fuel; cbn [client_loop]; rewrite Hpr1; change (0 =? 0) with true;
      cbv iota; unfold ret; exists st1, w1;
      (split; [reflexivity |]); (split; [lia |]);
      (split; [lia | reflexivity]).
  - assert (Forall no_recv_error (udp_in w1)) as Hev1.
    { rewrite Hui. destruct (udp_in w) as [| ev rest]; [constructor |].
      now inversion Hev. }
    destruct (IH st1 w1 ltac:(lia) ltac:(congruence) ltac:(lia) Hev1
                ltac:(lia) ltac:(unfold LLONG_MAX; lia))
      as (st' & w' & Hrun & A & B & C).
    exists st', w'. rewrite Hrun. repeat split; try assumption. lia.
Qed.

(** X16.  In a bidirectional UDP transfer the client rides out lost
    packets: as long as its sends succeed and no receive fails for
    another reason than a timeout, a counter-based transfer of N packets
    is completed in N turns however many of the echoes are lost, and the
    timeout counter goes up by exactly the number of receives that
    timed out. *)
Theorem client_rides_out_timeouts (e : env) (g : globals) (endtime : Z)
  (fuel : nat) (st : cloop) (w : world) :
  1 <= mesnum g < 2 ^ 32 -> 1 <= meslen g <= MAXLEN ->
  prot g = "u"%char -> direct g = "b"%char ->
  (forall n, wr e n = true) ->
  Forall no_recv_error (udp_in w) ->
  cnt st = 0 -> proceed st <> 0 ->
  mesnum g <= Z.of_nat fuel ->
  numtout w = 0 ->
  exists st' w',
    client_loop e g endtime fuel st w = Go st' w'
    /\ cnt st' = mesnum g
    /\ numtout w' = lost_among (Z.to_nat (mesnum g)) (udp_in w)
    /\ udp_in w' = skipn (Z.to_nat (mesnum g)) (udp_in w).
Proof.
  intros HN Hlen Hp Hd Hwr Hev Hc Hpr Hf Hnt.
  destruct (client_loop_udp_bidi e g endtime fuel HN Hlen
              ltac:(now rewrite Hp) ltac:(now rewrite Hd) Hwr st w
              ltac:(lia) Hpr ltac:(lia) Hev ltac:(lia)
              ltac:(unfold LLONG_MAX; lia))
    as (st' & w' & Hrun & A & B & C).
  exists st', w'. rewrite Hc, Z.sub_0_r, Hnt in *.
  repeat split; assumption.
Qed.

(** *** The echo of the server *)

Lemma server_loop_echo (e : env) (len : Z) :
  (forall n, 0 < rd e n) -> (forall n, wr e n = true) ->
  1 <= len <= MAXLEN ->
  forall (k sfuel : nat) (numrcv : Z) (sbuf : list ascii) (ws : world),
    tcp_in ws = List.concat (repeat (plain_packet len) k) ++ final_packet len ->
    (k < sfuel)%nat ->
    0 <= numrcv -> numrcv + Z.of_nat k + 1 <= LLONG_MAX ->
    exists sbuf' ws',
      server_loop e sfuel "t" "b" len numrcv sbuf ws
      = Go (numrcv + Z.of_nat k + 1, sbuf') ws'
      /\ tcp_in ws' = []
      /\ tcp_out ws'
         = tcp_out ws ++ List.concat (repeat (plain_packet len) k)
                     ++ final_packet len
      /\ nwrite ws' = (nwrite ws + S k)%nat
      /\ numtout ws' = numtout ws.
Proof.
  intros Hrd Hwr Hlen. unfold MAXLEN in Hlen.
  induction k as [| k IH]; intros sfuel numrcv sbuf ws Hin Hf H0 Hmax;
    (destruct sfuel as [| sfuel]; [lia |]);
    cbn [server_loop]; unfold bind at 1;
    rewrite sint32_id by (unfold in_sint32, INT_MIN, INT_MAX; lia);
    unfold LLONG_MAX in Hmax.
  - cbn [repeat List.concat app] in Hin.
    rewrite <- (app_nil_r (final_packet len)) in Hin.
    destruct (getmes_tcp_packet e sbuf len ws Hrd) as [j Hj];
      [unfold INT_MAX; lia
      | rewrite Hin, length_app, final_packet_length; simpl; lia |].
    rewrite Hj. change (negb (0 =? 0)) with false. cbv iota beta.
    change (chr_eq "b" "b") with true. cbv iota. unfold bind at 1.
    rewrite putmes_tcp_ok by (apply Hwr || lia).
    rewrite Hin, firstn_final_packet, skipn_final_packet by lia.
    rewrite firstn_final_packet by lia.
    unfold final_packet at 1. cbn [app byte0 hd].
    change (chr_eq "E" "E") with true. cbv iota. unfold ret.
    eexists; eexists. split; [| split; [| split; [| split]]].
    + f_equal. f_equal. unfold add64. rewrite sint64_id
        by (unfold in_sint64, LLONG_MIN, LLONG_MAX; lia). lia.
    + reflexivity.
    + cbn [tcp_out did_write after_reads repeat List.concat app].
      reflexivity.
    + cbn [nwrite did_write after_reads]. lia.
    + reflexivity.
  - cbn [repeat List.concat] in Hin. rewrite <- app_assoc in Hin.
    destruct (getmes_tcp_packet e sbuf len ws Hrd) as [j Hj];
      [unfold INT_MAX; lia
      | rewrite Hin, length_app, plain_packet_length; lia |].
    rewrite Hj. change (negb (0 =? 0)) with false. cbv iota beta.
    change (chr_eq "b" "b") with true. cbv iota. unfold bind at 1.
    rewrite putmes_tcp_ok by (apply Hwr || lia).
    rewrite Hin, firstn_plain_packet, skipn_plain_packet.
    rewrite firstn_plain_packet.
    rewrite byte0_plain_packet by lia.
    change (chr_eq "X" "E") with false. cbv iota.
    match goal with
    | |- context [server_loop e sfuel _ _ len ?n ?b ?w] =>
        destruct (IH sfuel n b w)
          as (sbuf' & ws' & Hrun & Hi & Ho & Hn & Ht)
    end.
    + reflexivity.
    + lia.
    + unfold add64. rewrite sint64_id
        by (unfold in_sint64, LLONG_MIN, LLONG_MAX; lia). lia.
    + unfold add64. rewrite sint64_id
        by (unfold in_sint64, LLONG_MIN, LLONG_MAX; lia).
      unfold LLONG_MAX. lia.
    + exists sbuf', ws'. rewrite Hrun.
      cbn [tcp_out nwrite numtout did_write after_reads] in Ho, Hn, Ht.
      split; [| split; [assumption | split; [| split]]].
      * f_equal. f_equal. unfold add64. rewrite sint64_id
          by (unfold in_sint64, LLONG_MIN, LLONG_MAX; lia). lia.
      * rewrite Ho. cbn [repeat List.concat]. now rewrite <- !app_assoc.
      * lia.
      * assumption.
Qed.

(** X17.  In a bidirectional TCP transfer the server sends back every
    packet it receives, unchanged and in order: fed with the N packets
    of a counter-based transfer, it writes exactly these N packets back,
    in N writes, counts N and leaves its loop on the marker. *)
Theorem server_echoes_stream (e : env) (n len : Z) (sfuel : nat)
  (sbuf : list ascii) (ws : world) :
  (forall k, 0 < rd e k) -> (forall k, wr e k = true) ->
  1 <= n < 2 ^ 32 -> 1 <= len <= MAXLEN ->
  tcp_in ws = sent_stream n len ->
  n <= Z.of_nat sfuel ->
  exists sbuf' ws',
    server_loop e sfuel "t" "b" len 0 sbuf ws = Go (n, sbuf') ws'
    /\ tcp_in ws' = []
    /\ tcp_out ws' = tcp_out ws ++ sent_stream n len
    /\ Z.of_nat (nwrite ws') = Z.of_nat (nwrite ws) + n.
Proof.
  intros Hrd Hwr Hn Hlen Hin Hf.
  destruct (server_loop_echo e len Hrd Hwr Hlen (Z.to_nat (n - 1)) sfuel
              0 sbuf ws Hin ltac:(lia) ltac:(lia)
              ltac:(unfold LLONG_MAX; lia))
    as (sbuf' & ws' & Hrun & Hi & Ho & Hw & _).
  exists sbuf', ws'. rewrite Hrun.
  split; [f_equal; f_equal; lia |]. split; [assumption |].
  split; [exact Ho | lia].
Qed.


Lemma tcp_receive_exact_or_leave_witness :
  (2 <= Z.of_nat (List.length (tcp_in three_bytes)) ->
   exists w',
     getmes bytewise "t" (str "....") 2 three_bytes
     = Go (0, firstn (Z.to_nat 2) (tcp_in three_bytes)
              ++ skipn (Z.to_nat 2) (str "....")) w'
     /\ tcp_in w' = skipn (Z.to_nat 2) (tcp_in three_bytes)
     /\ tcp_out w' = tcp_out three_bytes
     /\ numtout w' = numtout three_bytes)
  /\ (Z.of_nat (List.length (tcp_in three_bytes)) < 2 ->
      exists w', getmes bytewise "t" (str "....") 2 three_bytes = Exit 0 w'
                 /\ tcp_in w' = [] /\ tcp_out w' = tcp_out three_bytes).
Proof.
  apply (tcp_receive_exact_or_leave bytewise (str "....") 2 three_bytes).
  - intros n. reflexivity.
  - vm_compute. split; [reflexivity | discriminate].
Defined.

Lemma counted_loop_turns_witness :
  client_loop quiet g_udp_bidi 0 5 st_small echoes_lost <> Fuel
  /\ (forall st' w',
        client_loop quiet g_udp_bidi 0 5 st_small echoes_lost = Go st' w' ->
        cnt st' = mesnum g_udp_bidi /\ proceed st' = 0
        /\ Z.of_nat (nwrite w')
           = Z.of_nat (nwrite echoes_lost) + mesnum g_udp_bidi).
Proof.
  apply (counted_loop_turns quiet g_udp_bidi 0 5 st_small echoes_lost).
  - vm_compute. split; [discriminate | reflexivity].
  - reflexivity.
  - discriminate.
  - vm_compute. discriminate.
Defined.

Lemma server_stops_at_first_timeout_witness :
  exists sbuf' ws',
    server_loop quiet 5 "u" "u" 2 0 (str "....") two_then_timeout
    = Go (Z.of_nat (List.length [str "XX"; str "XX"]), sbuf') ws'
    /\ udp_in ws' = [Datagram (str "EX")]
    /\ mul64 (numtout ws') UDPTOUT = 5
    /\ tcp_out ws' = tcp_out two_then_timeout
    /\ udp_out ws' = udp_out two_then_timeout.
Proof.
  apply (server_stops_at_first_timeout quiet 2 [str "XX"; str "XX"]
           [Datagram (str "EX")] 5 (str "....") two_then_timeout).
  - vm_compute. split; discriminate.
  - repeat constructor; discriminate.
  - reflexivity.
  - reflexivity.
  - cbn. lia.
  - vm_compute. discriminate.
Defined.

Lemma client_rides_out_timeouts_witness :
  exists st' w',
    client_loop quiet g_udp_bidi 0 5 st_small echoes_lost = Go st' w'
    /\ cnt st' = mesnum g_udp_bidi
    /\ numtout w'
       = lost_among (Z.to_nat (mesnum g_udp_bidi)) (udp_in echoes_lost)
    /\ udp_in w'
       = skipn (Z.to_nat (mesnum g_udp_bidi)) (udp_in echoes_lost).
Proof.
  apply (client_rides_out_timeouts quiet g_udp_bidi 0 5 st_small echoes_lost).
  - vm_compute. split; [discriminate | reflexivity].
  - vm_compute. split; discriminate.
  - reflexivity.
  - reflexivity.
  - intros n. reflexivity.
  - repeat constructor; discriminate.
  - reflexivity.
  - discriminate.
  - vm_compute. discriminate.
  - reflexivity.
Defined.

Lemma server_echoes_stream_witness :
  exists sbuf' ws',
    server_loop bytewise 3 "t" "b" 2 0 (str "....")
      (fresh (sent_stream 3 2) [])
    = Go (3, sbuf') ws'
    /\ tcp_in ws' = []
    /\ tcp_out ws' = tcp_out (fresh (sent_stream 3 2) []) ++ sent_stream 3 2
    /\ Z.of_nat (nwrite ws')
       = Z.of_nat (nwrite (fresh (sent_stream 3 2) [])) + 3.
Proof.
  apply (server_echoes_stream bytewise 3 2 3 (str "....")
           (fresh (sent_stream 3 2) [])).
  - intros k. reflexivity.
  - intros k. reflexivity.
  - lia.
  - unfold MAXLEN. lia.
  - reflexivity.
  - vm_compute. discriminate.
Defined.

End TransferMore.

(* ================================================================== *)
(** ** More on the statistics *)

Module StatisticsMore.
Import CInt Libc Attract Scenario Sockets Notions Scenario2 CIntFacts LibcFacts Statistics.

Ltac in64 := unfold in_sint64, LLONG_MIN, LLONG_MAX; lia.

(** X18.  The loss figures of the report.  For a sent count of at least
    1 and a received count between 0 and the sent count, the number of
    lost packets is their difference and the loss percentage is that
    difference times 100 divided by the sent count, rounded down: it
    lies between 0 and 100, is 0 when everything was received and 100
    when nothing was. *)
Theorem loss_percentage (e : env) (g : globals)
  (sent numrcv numtout hogserv begtime now : Z) (begtms endtms : tms) :
  1 <= sent -> 0 <= numrcv <= sent -> sent * 100 <= LLONG_MAX ->
  let r := statistics e g sent numrcv numtout hogserv begtime now
                      begtms endtms in
  r_lost r = sent - numrcv
  /\ r_lostpct r = (sent - numrcv) * 100 / sent
  /\ 0 <= r_lostpct r <= 100
  /\ (numrcv = sent -> r_lostpct r = 0)
  /\ (numrcv = 0 -> r_lostpct r = 100).
Proof.
  intros Hs Hr Hmax r. unfold LLONG_MAX in Hmax. subst r.
  unfold statistics. cbn [r_lost r_lostpct].
  unfold sub64, mul64, div64.
  rewrite (sint64_id (sent - numrcv)) by in64.
  rewrite (sint64_id ((sent - numrcv) * 100)) by in64.
  rewrite Z.quot_div_nonneg by lia.
  assert (0 <= (sent - numrcv) * 100 / sent <= 100) as Hb.
  { split; [apply Z.div_pos; lia |].
    apply Z.div_le_upper_bound; nia. }
  rewrite sint64_id by in64.
  split; [reflexivity |]. split; [reflexivity |]. split; [exact Hb |].
  split; intros ->.
  - rewrite Z.sub_diag. reflexivity.
  - rewrite Z.sub_0_r, Z.mul_comm. apply Z.div_mul. lia.
Qed.

Lemma loss_percentage_witness :
  let r := statistics quiet g_three 100 90 0 0 0 500 no_tms no_tms in
  r_lost r = 100 - 90
  /\ r_lostpct r = (100 - 90) * 100 / 100
  /\ 0 <= r_lostpct r <= 100
  /\ (90 = 100 -> r_lostpct r = 0)
  /\ (90 = 0 -> r_lostpct r = 100).
Proof.
  apply (loss_percentage quiet g_three 100 90 0 0 0 500 no_tms no_tms);
    unfold LLONG_MAX; lia.
Defined.

(** X19.  The elapsed time of the report.  When the real ticks are not
    negative and the tick rate is positive, the report splits them into
    whole seconds and hundredths: the seconds are the real ticks divided
    by the tick rate, rounded down, and the hundredths, computed from
    the remaining ticks, lie between 0 and 99. *)
Theorem elapsed_seconds_and_hundredths (e : env) (g : globals)
  (sent numrcv numtout hogserv begtime now : Z) (begtms endtms : tms) :
  0 < localhz e -> localhz e * 100 <= LLONG_MAX ->
  let r := statistics e g sent numrcv numtout hogserv begtime now
                      begtms endtms in
  0 <= r_realticks r ->
  r_seconds r * localhz e <= r_realticks r < (r_seconds r + 1) * localhz e
  /\ r_centis r
     = (r_realticks r - r_seconds r * localhz e) * 100 / localhz e
  /\ 0 <= r_centis r <= 99.
Proof.
  intros Hz Hmax r. subst r. unfold statistics.
  cbn [r_realticks r_seconds r_centis].
  set (R := realticks_of now begtime numtout (localhz e)).
  set (hz := localhz e) in *. intros HR. unfold LLONG_MAX in Hmax.
  assert (in_sint64 R) as HinR.
  { subst R. unfold realticks_of.
    destruct (_ =? 0); [in64 | apply sint64_range]. }
  unfold in_sint64, LLONG_MIN, LLONG_MAX in HinR.
  unfold div64, mul64, rem64.
  rewrite (Z.quot_div_nonneg R hz) by lia.
  rewrite (Z.rem_mod_nonneg R hz) by lia.
  pose proof (Z.mod_pos_bound R hz Hz) as Hm.
  pose proof (Z.div_mod R hz ltac:(lia)) as Hdm.
  assert (0 <= R / hz <= R) as Hq.
  { split; [apply Z.div_pos; lia |]. apply Z.div_le_upper_bound; nia. }
  rewrite (sint64_id (R / hz)) by in64.
  rewrite (sint64_id (R mod hz)) by in64.
  rewrite (sint64_id (R mod hz * 100)) by in64.
  rewrite Z.quot_div_nonneg by lia.
  assert (0 <= R mod hz * 100 / hz <= 99) as Hc.
  { split; [apply Z.div_pos; lia |].
    assert (R mod hz * 100 / hz < 100); [| lia].
    apply Z.div_lt_upper_bound; nia. }
  rewrite sint64_id by in64.
  split; [nia |]. split; [| exact Hc].
  f_equal. f_equal. nia.
Qed.

Lemma elapsed_seconds_and_hundredths_witness :
  let r := statistics quiet g_three 3 3 0 0 0 250 no_tms no_tms in
  r_seconds r * localhz quiet <= r_realticks r
    < (r_seconds r + 1) * localhz quiet
  /\ r_centis r
     = (r_realticks r - r_seconds r * localhz quiet) * 100 / localhz quiet
  /\ 0 <= r_centis r <= 99.
Proof.
  apply (elapsed_seconds_and_hundredths quiet g_three 3 3 0 0 0 250
           no_tms no_tms).
  - reflexivity.
  - vm_compute. discriminate.
  - vm_compute. discriminate.
Defined.




(** X21.  A statistics message that is cut short leaves the variables of
    the missing fields as they were.  When the server's answer holds the
    received count only, the client reports with its own timeout count
    (the one it gathered during the transfer) in the real ticks, and
    with whatever the uninitialised [hogserv] held. *)
Theorem short_statistics_keep_own_timeouts
  (e : env) (g : globals) (numrcv0 hogserv0 begtime : Z) (begtms : tms)
  (st : cloop) (w : world) (srv_numrcv own : Z) :
  in_sint64 srv_numrcv ->
  tcp_in w = print_dec srv_numrcv ++ [NUL] ->
  Z.of_nat (List.length (tcp_in w)) <= rd e (nread w) ->
  let now := fst (clk e (ntimes w)) in
  let endtms := snd (clk e (ntimes w)) in
  client_finish e g numrcv0 hogserv0 begtime begtms st (set_numtout own w)
  = Go (statistics e g (cnt st) srv_numrcv own hogserv0
                   begtime now begtms endtms)
       (took_times (set_numtout own (took_read [] (set_timedout 0 w)))).
Proof.
  intros Ha Hin Hrd now endtms.
  pose proof (print_dec_length _ Ha) as Hlen.
  pose proof (print_dec_no_nul srv_numrcv) as Hnul.
  unfold client_finish, bind, modify, sys_read, get.
  cbn [nread set_timedout set_numtout tcp_in].
  assert (List.length (tcp_in w) = S (List.length (print_dec srv_numrcv)))
    as Hl by (rewrite Hin, length_app; simpl; lia).
  destruct (Z.leb_spec (rd e (nread w)) 0) as [Hle | Hgt]; [lia |].
  assert (Z.min (rd e (nread w))
            (Z.min (size_t (MAXLEN + 1)) (Z.of_nat (List.length (tcp_in w))))
          = Z.of_nat (List.length (tcp_in w))) as ->.
  { unfold size_t, MAXLEN. rewrite Z.mod_small by lia. lia. }
  rewrite Nat2Z.id, firstn_all, skipn_all.
  destruct (Z.leb_spec (Z.of_nat (List.length (tcp_in w))) 0); [lia |].
  cbn [numtout took_read]. unfold store. cbn [Z.to_nat firstn app].
  rewrite Hin, <- app_assoc. cbn [app].
  rewrite cstring_app_nul by assumption.
  unfold stats_fmt.
  rewrite <- (app_nil_r (print_dec srv_numrcv)).
  rewrite sscanf_int_dec by (assumption || reflexivity).
  change (sscanf [] [Sws; Sint; Sws; Sint]) with (@nil sval).
  cbn [assign3]. unfold sys_times, ret.
  cbn [ntimes took_read set_numtout set_timedout].
  destruct (clk e (ntimes w)) as [t tm] eqn:Hclk.
  subst now endtms. rewrite ?Hclk. cbn [fst snd].
  reflexivity.
Qed.


Lemma short_statistics_keep_own_timeouts_witness :
  client_finish quiet g_three 0 77 0 no_tms st_small
    (set_numtout 7 w_short_stats)
  = Go (statistics quiet g_three (cnt st_small) 3 7 77 0
          (fst (clk quiet (ntimes w_short_stats))) no_tms
          (snd (clk quiet (ntimes w_short_stats))))
       (took_times
          (set_numtout 7 (took_read [] (set_timedout 0 w_short_stats)))).
Proof.
  apply (short_statistics_keep_own_timeouts quiet g_three 0 77 0 no_tms
           st_small w_short_stats 3 7).
  - unfold in_sint64, LLONG_MIN, LLONG_MAX. lia.
  - reflexivity.
  - vm_compute. discriminate.
Defined.

End StatisticsMore.

(* ================================================================== *)
(** ** A whole session *)

Module Session.
Import CInt Libc Attract Scenario Sockets Notions Scenario2 CIntFacts LibcFacts
  Handshake Statistics Transfer HandshakeMore TransferMore.

Lemma server_loop_tcp_numtout (e : env) (fuel : nat) (direct : ascii)
  (len : Z) :
  forall numrcv sbuf w r w',
    server_loop e fuel "t" direct len numrcv sbuf w = Go r w' ->
    numtout w' = numtout w.
Proof.
  induction fuel as [| fuel IH]; intros numrcv sbuf w r w' H;
    cbn [server_loop] in H; [discriminate |].
  unfold bind at 1 in H.
  destruct (getmes e "t" sbuf (sint32 len) w) as [[rv b] w1 | |] eqn:Hg;
    try discriminate.
  assert (numtout w1 = numtout w) as Hn1.
  { unfold getmes in Hg. change (chr_eq "t" "t") with true in Hg.
    cbv iota in Hg. unfold bind, get, ret in Hg.
    break_match Hg; try discriminate. injection Hg as _ _ <-.
    match goal with
    | Hx : getmes_tcp _ _ _ _ _ _ = Go _ _ |- _ =>
        apply getmes_tcp_nwrite in Hx; tauto
    end. }
  destruct (negb (rv =? 0)).
  - unfold ret in H. injection H as _ <-. exact Hn1.
  - unfold bind at 1 in H.
    destruct ((if chr_eq direct "b" then putmes e "t" b (sint32 len)
               else ret tt) w1) as [u w2 | |] eqn:Hp; try discriminate.
    assert (numtout w2 = numtout w1) as Hn2.
    { destruct (chr_eq direct "b").
      - apply putmes_go in Hp. tauto.
      - unfold ret in Hp. now injection Hp as _ <-. }
    destruct (chr_eq (byte0 b) "E").
    + unfold ret in H. injection H as _ <-. congruence.
    + apply IH in H. congruence.
Qed.

Lemma port_reply_zero : port_reply 0 = str "0".
Proof. reflexivity. Qed.

(** The handler once a TCP, one-way request has been read: it answers
    "0", counts the packets of the stream and reports them. *)
Lemma serve_tcp_stream (e : env) (g : globals) (v : ctlvars)
  (portfuel fuel : nat) (n : Z) (w : world) :
  (forall k, 0 < rd e k) -> (forall k, wr e k = true) ->
  h_prot v = "t"%char -> h_direct v = "u"%char ->
  1 <= h_targetlen v <= MAXLEN -> 1 <= n < 2 ^ 32 ->
  tcp_in w = sent_stream n (h_targetlen v) ->
  n <= Z.of_nat fuel ->
  exists cpu w',
    serve e g v portfuel fuel w = Exit 0 w'
    /\ in_sint64 cpu
    /\ tcp_out w'
       = tcp_out w ++ (str "0" ++ [NUL])
           ++ stats_message n (numtout w) cpu ++ [NUL].
Proof.
  intros Hrd Hwr Hp Hd Hlen Hn Hin Hf.
  unfold serve. unfold bind at 1. unfold announce_port. rewrite Hp.
  change (chr_eq "t" "u") with false. cbv iota.
  unfold bind at 1. unfold ret at 1. unfold bind at 1.
  rewrite port_reply_zero.
  rewrite write_string_ok by first [apply Hwr | repeat constructor].
  change (Z.of_nat (List.length (str "0")) + 1 <? 0) with false.
  cbv iota. unfold ret at 1. unfold receive_and_report. rewrite Hp.
  unfold bind at 1. unfold sys_times at 1.
  destruct (clk e (ntimes (did_write (str "0" ++ [NUL]) w)))
    as [t0 begtms] eqn:Hclk0.
  unfold bind at 1.
  set (w1 := took_times (did_write (str "0" ++ [NUL]) w)).
  set (sbuf := store _ 0 _).
  rewrite Hd.
  destruct (server_loop_stream e (h_targetlen v) Hrd Hlen
              (Z.to_nat (n - 1)) fuel 0 sbuf w1)
    as (sbuf' & w2 & Hrun & Hb0 & Hi & Ho);
    [exact Hin | lia | lia | unfold LLONG_MAX; lia |].
  rewrite Hrun.
  pose proof (server_loop_tcp_numtout e fuel "u" (h_targetlen v)
                0 sbuf w1 _ w2 Hrun) as Hnt.
  unfold bind at 1. unfold sys_times at 1.
  destruct (clk e (ntimes w2)) as [t1 endtms] eqn:Hclk1.
  unfold bind at 1. unfold get. unfold bind at 1.
  cbn [numtout took_times].
  rewrite write_string_ok
    by first [apply Hwr | apply stats_message_no_nul].
  match goal with
  | |- context [?x <? 0] =>
      destruct (Z.ltb_spec x 0) as [Hneg | _]; [lia |]
  end.
  unfold exit. eexists; eexists. split; [reflexivity |].
  split; [apply sint64_range |].
  cbn [tcp_out did_write took_times]. rewrite Ho. subst w1.
  cbn [tcp_out did_write took_times numtout] in *. rewrite Hnt.
  rewrite <- !app_assoc. do 3 f_equal.
  replace (0 + Z.of_nat (Z.to_nat (n - 1)) + 1) with n by lia.
  reflexivity.
Qed.

Lemma putmes_keeps (e : env) (prot : ascii) (b : list ascii) (len : Z)
  (w w' : world) (u : unit) :
  putmes e prot b len w = Go u w' ->
  tcp_in w' = tcp_in w /\ nread w' = nread w /\ ntimes w' = ntimes w
  /\ numtout w' = numtout w.
Proof.
  unfold putmes, bind, sys_write, sys_sendto, exit, ret. intros H.
  repeat (break_if H; try discriminate);
    injection H as _ <-; repeat split; reflexivity.
Qed.

Lemma client_loop_uni_keeps (e : env) (g : globals) (endtime : Z)
  (fuel : nat) :
  mesnum g <> 0 -> chr_eq (direct g) "u" = true ->
  forall st w st' w',
    client_loop e g endtime fuel st w = Go st' w' ->
    tcp_in w' = tcp_in w /\ nread w' = nread w /\ ntimes w' = ntimes w
    /\ numtout w' = numtout w.
Proof.
  intros Hm Hd. induction fuel as [| fuel IH]; intros st w st' w' H;
    cbn [client_loop] in H; destruct (proceed st =? 0);
    try (unfold ret in H; injection H as _ <-; tauto); try discriminate.
  unfold bind in H.
  destruct (client_iter e g endtime st w) as [st1 w1 | |] eqn:Hi;
    try discriminate.
  apply IH in H. destruct H as (A & B & C & D).
  rewrite A, B, C, D. clear - Hm Hd Hi.
  unfold client_iter in Hi. unfold bind at 1 in Hi.
  unfold check_finished in Hi.
  destruct (Z.eqb_spec (mesnum g) 0) as [| _]; [contradiction |].
  cbn [negb] in Hi.
  destruct (add64 (cnt st) 1 =? mesnum g); unfold ret at 1 in Hi;
    unfold bind at 1 in Hi;
    match type of Hi with
    | context [putmes e ?p ?b ?l w] =>
        destruct (putmes e p b l w) as [u w0 | |] eqn:Hp;
        try discriminate
    end;
    rewrite Hd in Hi; unfold ret in Hi; injection Hi as _ <-;
    apply putmes_keeps in Hp; exact Hp.
Qed.

Lemma connect_control_settled (e : env) (g : globals) (w : world) :
  (ipvers g = "4" \/ ipvers g = "6")%char ->
  tcp_connect e (family_of (ipvers g)) = true ->
  connect_control e g w = Go g w.
Proof.
  intros [Hi | Hi] Hc; rewrite Hi in Hc; unfold connect_control;
    rewrite Hi; cbn in Hc |- *; now rewrite Hc.
Qed.

(** The end of the client when the full statistics message of the
    server is there to be read. *)
Lemma client_finish_reads_stats (e : env) (g : globals)
  (numrcv0 hogserv0 begtime : Z) (begtms : tms) (st : cloop) (w : world)
  (a b c : Z) :
  in_sint64 a -> in_sint64 c ->
  tcp_in w = stats_message a b c ++ [NUL] ->
  Z.of_nat (List.length (tcp_in w)) <= rd e (nread w) ->
  exists now endtms w',
    client_finish e g numrcv0 hogserv0 begtime begtms st w
    = Go (statistics e g (cnt st) a (mul64 b UDPTOUT) c
                     begtime now begtms endtms) w'
    /\ tcp_out w' = tcp_out w.
Proof.
  intros Ha Hc Hin Hrd.
  pose proof (stats_message_length _ b _ Ha Hc) as Hlen.
  pose proof (stats_message_no_nul a b c) as Hnul.
  unfold client_finish, bind, modify, sys_read, get.
  cbn [nread set_timedout set_numtout tcp_in].
  assert (List.length (tcp_in w) = S (List.length (stats_message a b c)))
    as Hl by (rewrite Hin, length_app; simpl; lia).
  destruct (Z.leb_spec (rd e (nread w)) 0) as [Hle | Hgt]; [lia |].
  assert (Z.min (rd e (nread w))
            (Z.min (size_t (MAXLEN + 1)) (Z.of_nat (List.length (tcp_in w))))
          = Z.of_nat (List.length (tcp_in w))) as ->.
  { unfold size_t, MAXLEN. rewrite Z.mod_small by lia. lia. }
  rewrite Nat2Z.id, firstn_all, skipn_all.
  destruct (Z.leb_spec (Z.of_nat (List.length (tcp_in w))) 0); [lia |].
  cbn [numtout took_read]. unfold store. cbn [Z.to_nat firstn app].
  rewrite Hin, <- app_assoc. cbn [app].
  rewrite cstring_app_nul by assumption.
  rewrite stats_roundtrip by assumption.
  cbn [assign3]. unfold sys_times, ret.
  cbn [ntimes took_read set_numtout set_timedout].
  destruct (clk e (ntimes w)) as [t tm].
  do 3 eexists. split; reflexivity.
Qed.

Lemma statistics_all_received (e : env) (g : globals)
  (n numtout hogserv begtime now : Z) (begtms endtms : tms) :
  1 <= n < 2 ^ 32 ->
  let r := statistics e g n n numtout hogserv begtime now begtms endtms in
  r_cnt r = n /\ r_lost r = 0 /\ r_lostpct r = 0.
Proof.
  intros Hn r. subst r. unfold statistics. cbn [r_cnt r_lost r_lostpct].
  unfold sub64. rewrite Z.sub_diag. change (sint64 0) with 0.
  unfold mul64. change (sint64 (0 * 100)) with 0.
  unfold div64. rewrite Z.quot_0_l by lia. repeat split.
Qed.

(** The client in a counter-based one-way TCP transfer, when the
    server answers the handshake with "0" and ends with its statistics
    message. *)
Lemma client_tcp_session (e : env) (g : globals) (numrcv0 hogserv0 : Z)
  (fuel : nat) (w : world) (cpu : Z) :
  valid_config g ->
  (ipvers g = "4" \/ ipvers g = "6")%char ->
  tcp_connect e (family_of (ipvers g)) = true ->
  prot g = "t"%char -> direct g = "u"%char -> 1 <= mesnum g ->
  (forall k, wr e k = true) ->
  in_sint64 cpu ->
  tcp_in w = (str "0" ++ [NUL]) ++ stats_message (mesnum g) 0 cpu ++ [NUL] ->
  rd e (nread w) = 2 ->
  Z.of_nat (List.length (stats_message (mesnum g) 0 cpu ++ [NUL]))
    <= rd e (S (nread w)) ->
  mesnum g <= Z.of_nat fuel ->
  exists r w',
    client e numrcv0 hogserv0 fuel g w = Go r w'
    /\ tcp_out w'
       = tcp_out w
           ++ (control_message (ipvers g) (prot g) (direct g) (meslen g)
                 ++ [NUL])
           ++ sent_stream (mesnum g) (meslen g)
    /\ r_cnt r = mesnum g /\ r_lost r = 0 /\ r_lostpct r = 0.
Proof.
  intros Hv Hi Hc Hp Hd HN Hwr Hcpu Hin Hrd0 Hrd1 Hf.
  destruct Hv as (_ & _ & _ & Hlen & Hnum & _).
  unfold client. unfold bind at 1.
  rewrite connect_control_settled by assumption.
  unfold bind at 1.
  assert (Hnn : Forall (fun x => Ascii.eqb x NUL = false)
                  (control_message (ipvers g) (prot g) (direct g) (meslen g))).
  { apply control_message_no_nul; try assumption;
      rewrite ?Hp, ?Hd; try reflexivity;
      destruct Hi as [E | E]; rewrite E; reflexivity. }
  rewrite write_string_ok by first [apply Hwr | exact Hnn].
  match goal with
  | |- context [?x <? 0] =>
      destruct (Z.ltb_spec x 0) as [Hneg | _]; [lia |]
  end.
  set (msg := control_message (ipvers g) (prot g) (direct g) (meslen g)
              ++ [NUL]).
  unfold bind at 1. unfold sys_read at 1.
  cbn [nread tcp_in did_write]. rewrite Hrd0. change (2 <=? 0) with false.
  cbv iota. change (size_t 64) with 64.
  assert (Z.min 2 (Z.min 64 (Z.of_nat (List.length (tcp_in w)))) = 2) as ->.
  { rewrite Hin, length_app. cbn [List.length str list_ascii_of_string app].
    lia. }
  change (2 <? 0) with false. cbv iota.
  rewrite Hin. cbn [Z.to_nat Pos.to_nat Pos.iter_op Nat.add].
  change (skipn 2 ((str "0" ++ [NUL])
                   ++ stats_message (mesnum g) 0 cpu ++ [NUL]))
    with (stats_message (mesnum g) 0 cpu ++ [NUL]).
  unfold bind at 1. rewrite Hp. change (chr_eq "t" "u") with false.
  cbv iota. unfold ret at 1.
  unfold bind at 1. unfold wakeupcall, modify.
  unfold bind at 1. unfold sys_times at 1.
  match goal with
  | |- context [clk e ?n] => destruct (clk e n) as [begtime begtms]
  end.
  unfold bind at 1.
  match goal with
  | |- context [client_loop e g ?et fuel ?st0 ?w0] =>
      set (endtime := et); set (w1 := w0);
      destruct (client_loop_count e g endtime (Z.to_nat (MAXLEN + 1))
                  Hwr ltac:(lia) Hlen
                  ltac:(unfold MAXLEN in *; lia)
                  ltac:(assumption) ltac:(assumption)
                  (Z.to_nat (mesnum g - 1)) fuel st0 w1)
        as (st' & w' & Hrun & Hcnt & _ & _ & _ & Hout);
      cbn [cnt proceed buf]; try lia; try reflexivity
  end.
  rewrite Hrun.
  destruct (client_loop_uni_keeps e g endtime fuel ltac:(lia)
              ltac:(now rewrite Hd) _ _ _ _ Hrun) as (Ki & Kr & _ & _).
  subst w1. cbn [tcp_in nread took_times set_timedout took_read did_write]
    in Ki, Kr.
  destruct (client_finish_reads_stats e g numrcv0 hogserv0 begtime begtms
              st' w' (mesnum g) 0 cpu)
    as (now & endtms & w'' & Hfin & Hout');
    [unfold in_sint64, LLONG_MIN, LLONG_MAX; lia | assumption
    | exact Ki | rewrite Ki, Kr; exact Hrd1 |].
  rewrite Hfin. eexists; eexists. split; [reflexivity |].
  split.
  - rewrite Hout', Hout.
    cbn [tcp_out took_times set_timedout took_read did_write].
    unfold sent_stream. now rewrite <- !app_assoc.
  - rewrite Hcnt. apply statistics_all_received. lia.
Qed.

(** X22.  A whole counter-based, one-way TCP session.  The handler, fed
    with what the client writes (the control message, then the N
    packets), leaves with status 0 after writing the port reply "0" and
    a statistics message that reports N packets and no timeout; and the
    client, fed with what the handler wrote, completes, has written
    exactly what the handler read, and reports N packets sent, none
    lost, a loss of 0 percent. *)
Theorem tcp_session_without_loss (ec es : env) (g gs : globals)
  (junk : ctlvars) (numrcv0 hogserv0 : Z) (portfuel fuel sfuel : nat)
  (ws : world) :
  valid_config g ->
  (ipvers g = "4" \/ ipvers g = "6")%char ->
  tcp_connect ec (family_of (ipvers g)) = true ->
  prot g = "t"%char -> direct g = "u"%char -> 1 <= mesnum g ->
  (forall k, wr ec k = true) -> (forall k, wr es k = true) ->
  (forall k, 0 < rd es k) ->
  mesnum g <= Z.of_nat fuel -> mesnum g <= Z.of_nat sfuel ->
  let msg := control_message (ipvers g) (prot g) (direct g) (meslen g)
             ++ [NUL] in
  tcp_in ws = msg ++ sent_stream (mesnum g) (meslen g) ->
  tcp_out ws = [] -> numtout ws = 0 ->
  rd es (nread ws) = Z.of_nat (List.length msg) ->
  exists cpu ws',
    handlecon es gs junk portfuel sfuel ws = Exit 0 ws'
    /\ tcp_out ws'
       = (str "0" ++ [NUL]) ++ stats_message (mesnum g) 0 cpu ++ [NUL]
    /\ forall wc,
         tcp_in wc = tcp_out ws' -> tcp_out wc = [] ->
         rd ec (nread wc) = 2 ->
         Z.of_nat (List.length (tcp_in wc)) <= rd ec (S (nread wc)) ->
         exists r wc',
           client ec numrcv0 hogserv0 fuel g wc = Go r wc'
           /\ tcp_out wc' = tcp_in ws
           /\ r_cnt r = mesnum g /\ r_lost r = 0 /\ r_lostpct r = 0.
Proof.
  intros Hv Hi Hc Hp Hd HN Hwc Hws Hrs Hf Hsf msg Hin Hout Hnt Hrd.
  assert (Hq : ipvers g <> "?"%char)
    by (destruct Hi as [-> | ->]; discriminate).
  pose proof Hv as (_ & _ & _ & Hlen & Hnum & _).
  rewrite (handlecon_reads_control es g gs junk portfuel sfuel ws
             (sent_stream (mesnum g) (meslen g)) Hv Hq Hin Hrd).
  destruct (serve_tcp_stream es gs
              {| h_ipvers := ipvers g; h_prot := prot g;
                 h_direct := direct g; h_targetlen := meslen g |}
              portfuel sfuel (mesnum g)
              (took_read (sent_stream (mesnum g) (meslen g)) ws)
              Hrs Hws Hp Hd Hlen ltac:(lia) eq_refl Hsf)
    as (cpu & ws' & Hrun & Hcpu & Ho).
  cbn [tcp_out numtout took_read] in Ho. rewrite Hout, Hnt in Ho.
  cbn [app] in Ho.
  exists cpu, ws'. split; [exact Hrun |]. split; [exact Ho |].
  intros wc Hwin Hwout Hr0 Hr1.
  rewrite Ho in Hwin.
  destruct (client_tcp_session ec g numrcv0 hogserv0 fuel wc cpu
              Hv Hi Hc Hp Hd HN Hwc Hcpu Hwin Hr0)
    as (r & wc' & Hcl & Hco & Hr); [| exact Hf |].
  - rewrite Hwin in Hr1. rewrite length_app in Hr1.
    cbn [List.length str list_ascii_of_string app] in Hr1. lia.
  - exists r, wc'. split; [exact Hcl |]. split; [| exact Hr].
    rewrite Hco, Hwout, Hin. reflexivity.
Qed.


Lemma tcp_session_without_loss_witness :
  exists cpu ws',
    handlecon server_side initial_globals junk0 5 3 ws_session = Exit 0 ws'
    /\ tcp_out ws'
       = (str "0" ++ [NUL]) ++ stats_message (mesnum g_session) 0 cpu ++ [NUL]
    /\ forall wc,
         tcp_in wc = tcp_out ws' -> tcp_out wc = [] ->
         rd client_side (nread wc) = 2 ->
         Z.of_nat (List.length (tcp_in wc)) <= rd client_side (S (nread wc)) ->
         exists r wc',
           client client_side 0 0 3 g_session wc = Go r wc'
           /\ tcp_out wc' = tcp_in ws_session
           /\ r_cnt r = mesnum g_session /\ r_lost r = 0
           /\ r_lostpct r = 0.
Proof.
  apply (tcp_session_without_loss client_side server_side g_session
           initial_globals junk0 0 0 5 3 3 ws_session).
  - unfold valid_config, MAXLEN. cbn. intuition lia.
  - right. reflexivity.
  - reflexivity.
  - reflexivity.
  - reflexivity.
  - vm_compute. discriminate.
  - intros k. reflexivity.
  - intros k. reflexivity.
  - intros k. destruct k; reflexivity.
  - vm_compute. discriminate.
  - vm_compute. discriminate.
  - reflexivity.
  - reflexivity.
  - reflexivity.
  - reflexivity.
Defined.

End Session.

(* ================================================================== *)
(** ** The time-based loop and a silent server *)

Module TimedAndEdge.
Import CInt Libc Attract Scenario Sockets Notions Scenario2 CIntFacts LibcFacts
  Handshake Statistics Transfer HandshakeMore TransferMore Session.

Lemma client_iter_timed_exact (e : env) (g : globals) (endtime : Z)
  (st st2 : cloop) (w w2 : world) :
  mesnum g = 0 ->
  client_iter e g endtime st w = Go st2 w2 ->
  cnt st2 = add64 (cnt st) 1
  /\ (Z.land (cnt st2) 31 <> 0 ->
      proceed st2 = proceed st /\ ntimes w2 = ntimes w)
  /\ (Z.land (cnt st2) 31 = 0 ->
      ntimes w2 = S (ntimes w)
      /\ proceed st2
         = if fst (clk e (ntimes w)) >=? endtime then 0 else proceed st).
Proof.
  intros Hm H. unfold client_iter in H. unfold bind at 1 in H.
  destruct (check_finished e g endtime st w) as [st1 w1 | |] eqn:Hc;
    try discriminate.
  assert (cnt st1 = add64 (cnt st) 1
          /\ (Z.land (cnt st1) 31 <> 0 ->
              proceed st1 = proceed st /\ ntimes w1 = ntimes w)
          /\ (Z.land (cnt st1) 31 = 0 ->
              ntimes w1 = S (ntimes w)
              /\ proceed st1
                 = if fst (clk e (ntimes w)) >=? endtime
                   then 0 else proceed st)) as Hchk.
  { unfold check_finished in Hc. rewrite Hm in Hc.
    change (negb (0 =? 0)) with false in Hc. cbv iota in Hc.
    destruct (Z.eqb_spec (Z.land (add64 (cnt st) 1) 31) 0) as [Hz | Hnz].
    - unfold bind, sys_times, ret in Hc.
      destruct (clk e (ntimes w)) as [now t]. cbn [fst].
      destruct (now >=? endtime); injection Hc as <- <-;
        cbn [cnt proceed ntimes took_times]; repeat split; tauto.
    - unfold ret in Hc. injection Hc as <- <-. cbn [cnt proceed].
      repeat split; tauto. }
  unfold bind at 1 in H.
  destruct (putmes e (prot g) (buf st1) (sint32 (meslen g)) w1)
    as [u w1' | |] eqn:Hput; try discriminate.
  apply putmes_ntimes in Hput.
  destruct (chr_eq (direct g) "u").
  - unfold ret in H. injection H as <- <-. rewrite Hput. exact Hchk.
  - unfold bind in H.
    destruct (getmes e (prot g) (buf st1) (sint32 (meslen g)) w1')
      as [[rv b'] w1'' | |] eqn:Hget; try discriminate.
    apply getmes_ntimes in Hget.
    unfold ret in H. injection H as <- <-. cbn [cnt proceed].
    rewrite Hget, Hput. exact Hchk.
Qed.

Lemma client_loop_timed_stop (e : env) (g : globals) (endtime : Z)
  (n0 j : nat) (fuel : nat) :
  mesnum g = 0 ->
  (forall i, (i < j)%nat -> fst (clk e (n0 + i)) < endtime) ->
  endtime <= fst (clk e (n0 + j)) ->
  32 * (Z.of_nat j + 1) <= LLONG_MAX ->
  forall st w,
    0 <= cnt st < 32 * (Z.of_nat j + 1) -> proceed st <> 0 ->
    Z.of_nat (ntimes w) = Z.of_nat n0 + cnt st / 32 ->
    32 * (Z.of_nat j + 1) - cnt st <= Z.of_nat fuel ->
    client_loop e g endtime fuel st w <> Fuel
    /\ (forall st' w',
          client_loop e g endtime fuel st w = Go st' w' ->
          cnt st' = 32 * (Z.of_nat j + 1)
          /\ ntimes w' = (n0 + j + 1)%nat).
Proof.
  intros Hm Hearly Hlate Hmax. unfold LLONG_MAX in Hmax.
  induction fuel as [| fuel IH]; intros st w Hc Hp Hn Hf; [lia |].
  cbn [client_loop].
  destruct (Z.eqb_spec (proceed st) 0) as [| _]; [contradiction |].
  unfold bind.
  pose proof (client_iter_total e g endtime st w) as Htot.
  destruct (client_iter e g endtime st w) as [st1 w1 | c1 w1 |] eqn:Hi;
    [| split; [discriminate | intros ? ? Hx; discriminate] | congruence].
  apply client_iter_timed_exact in Hi; [| assumption].
  destruct Hi as (Hcnt & Hodd & Heven).
  assert (cnt st1 = cnt st + 1) as Hc1.
  { rewrite Hcnt. unfold add64. apply sint64_id.
    unfold in_sint64, LLONG_MIN, LLONG_MAX. lia. }
  rewrite Hc1 in *.
  change 31 with (Z.ones 5) in Hodd, Heven.
  rewrite Z.land_ones in Hodd, Heven by lia.
  change (2 ^ 5) with 32 in Hodd, Heven.
  destruct (Z.eq_dec ((cnt st + 1) mod 32) 0) as [Hz | Hnz].
  - destruct (Heven Hz) as [Hnt Hpr].
    assert ((cnt st + 1) / 32 = cnt st / 32 + 1) as Hq
      by (clear - Hz Hc; Z.div_mod_to_equations; lia).
    assert (0 <= cnt st / 32) as Hq0 by (apply Z.div_pos; lia).
    assert (ntimes w = (n0 + Z.to_nat (cnt st / 32))%nat) as Hidx by lia.
    destruct (Z.eq_dec (cnt st / 32) (Z.of_nat j)) as [Hj | Hj].
    + (* the sample is the first late one: the loop is left *)
      rewrite Hidx, Hj, Nat2Z.id in Hpr.
      destruct (Z.geb_spec (fst (clk e (n0 + j))) endtime); [| lia].
      destruct fuel; cbn [client_loop]; rewrite Hpr;
        change (0 =? 0) with true; cbv iota; unfold ret;
        (split; [discriminate |]); intros st' w' Hx;
        injection Hx as <- <-; (split; [| lia]);
        rewrite Hc1; clear - Hz Hj Hc; Z.div_mod_to_equations; lia.
    + assert (cnt st / 32 < Z.of_nat j) as Hlt
        by (clear - Hc Hj; Z.div_mod_to_equations; lia).
      specialize (Hearly (Z.to_nat (cnt st / 32)) ltac:(lia)).
      rewrite <- Hidx in Hearly.
      destruct (Z.geb_spec (fst (clk e (ntimes w))) endtime); [lia |].
      apply IH; rewrite ?Hc1, ?Hq; try lia; try congruence.
      clear - Hz Hlt Hc. Z.div_mod_to_equations. lia.
  - destruct (Hodd Hnz) as [Hpr Hnt].
    assert ((cnt st + 1) / 32 = cnt st / 32) as Hq
      by (clear - Hnz Hc; Z.div_mod_to_equations; lia).
    apply IH; rewrite ?Hc1, ?Hq; try lia; try congruence.
    clear - Hnz Hc. Z.div_mod_to_equations. lia.
Qed.

(** X23.  A time-based transfer comes to an end as soon as the clock has
    reached the end time at one of its checks: if the samples of the
    clock taken at the first [j] checks are before the end time and the
    next one is not, the loop is left (unless the process leaves on an
    error) after exactly 32 * (j + 1) packets and j + 1 clock samples,
    that is at most 32 packets after the time was up. *)
Theorem timed_loop_stops_at_first_late_sample (e : env) (g : globals)
  (endtime : Z) (fuel : nat) (st : cloop) (w : world) (j : nat) :
  mesnum g = 0 -> cnt st = 0 -> proceed st <> 0 ->
  (forall i, (i < j)%nat -> fst (clk e (ntimes w + i)) < endtime) ->
  endtime <= fst (clk e (ntimes w + j)) ->
  32 * (Z.of_nat j + 1) <= LLONG_MAX ->
  32 * (Z.of_nat j + 1) <= Z.of_nat fuel ->
  client_loop e g endtime fuel st w <> Fuel
  /\ (forall st' w',
        client_loop e g endtime fuel st w = Go st' w' ->
        cnt st' = 32 * (Z.of_nat j + 1)
        /\ ntimes w' = (ntimes w + j + 1)%nat).
Proof.
  intros Hm Hc Hp Hearly Hlate Hmax Hf.
  apply (client_loop_timed_stop e g endtime (ntimes w) j fuel Hm Hearly
           Hlate Hmax st w); rewrite ?Hc; try assumption; try lia.
  change (0 / 32) with 0. lia.
Qed.

Lemma timed_loop_stops_at_first_late_sample_witness :
  client_loop quiet g_timed 100 100 st_small (fresh [] []) <> Fuel
  /\ (forall st' w',
        client_loop quiet g_timed 100 100 st_small (fresh [] [])
        = Go st' w' ->
        cnt st' = 32 * (Z.of_nat 2 + 1)
        /\ ntimes w' = (ntimes (fresh [] []) + 2 + 1)%nat).
Proof.
  apply (timed_loop_stops_at_first_late_sample quiet g_timed 100 100
           st_small (fresh [] []) 2).
  - reflexivity.
  - reflexivity.
  - discriminate.
  - intros i Hi. destruct i as [| [| i]]; [reflexivity | reflexivity | lia].
  - vm_compute. discriminate.
  - vm_compute. discriminate.
  - vm_compute. discriminate.
Defined.

(** X24.  A port reply of zero bytes is not taken as an error.  When the
    server closes the connection without answering the handshake, the
    client of a counter-based one-way TCP transfer (whose writes still
    succeed) goes on all the same: it sends its N packets, notices only
    at the end that no statistics arrive, and leaves with exit status
    1. *)
Theorem client_sends_without_port_reply (e : env) (g : globals)
  (numrcv0 hogserv0 : Z) (fuel : nat) (w : world) :
  valid_config g ->
  (ipvers g = "4" \/ ipvers g = "6")%char ->
  tcp_connect e (family_of (ipvers g)) = true ->
  prot g = "t"%char -> direct g = "u"%char -> 1 <= mesnum g ->
  (forall k, wr e k = true) -> (forall k, 0 < rd e k) ->
  tcp_in w = [] ->
  mesnum g <= Z.of_nat fuel ->
  exists w',
    client e numrcv0 hogserv0 fuel g w = Exit 1 w'
    /\ tcp_out w'
       = tcp_out w
           ++ (control_message (ipvers g) (prot g) (direct g) (meslen g)
                 ++ [NUL])
           ++ sent_stream (mesnum g) (meslen g).
Proof.
  intros Hv Hi Hc Hp Hd HN Hwr Hrd Hin Hf.
  destruct Hv as (_ & _ & _ & Hlen & Hnum & _).
  unfold client. unfold bind at 1.
  rewrite connect_control_settled by assumption.
  unfold bind at 1.
  assert (Hnn : Forall (fun x => Ascii.eqb x NUL = false)
                  (control_message (ipvers g) (prot g) (direct g) (meslen g))).
  { apply control_message_no_nul; try assumption;
      rewrite ?Hp, ?Hd; try reflexivity;
      destruct Hi as [E | E]; rewrite E; reflexivity. }
  rewrite write_string_ok by first [apply Hwr | exact Hnn].
  match goal with
  | |- context [?x <? 0] =>
      destruct (Z.ltb_spec x 0) as [Hneg | _]; [lia |]
  end.
  unfold bind at 1. unfold sys_read at 1.
  cbn [nread tcp_in did_write].
  pose proof (Hrd (nread w)) as Hr0.
  destruct (Z.leb_spec (rd e (nread w)) 0) as [Hle | _]; [lia |].
  rewrite Hin. cbn [List.length Z.of_nat].
  change (size_t 64) with 64.
  replace (Z.min (rd e (nread w)) (Z.min 64 0)) with 0 by lia.
  change (0 <? 0) with false. cbv iota.
  cbn [Z.to_nat skipn firstn].
  unfold bind at 1. rewrite Hp. change (chr_eq "t" "u") with false.
  cbv iota. unfold ret at 1.
  unfold bind at 1. unfold wakeupcall, modify.
  unfold bind at 1. unfold sys_times at 1.
  match goal with
  | |- context [clk e ?n] => destruct (clk e n) as [begtime begtms]
  end.
  unfold bind at 1.
  match goal with
  | |- context [client_loop e g ?et fuel ?st0 ?w0] =>
      set (endtime := et); set (w1 := w0);
      destruct (client_loop_count e g endtime (Z.to_nat (MAXLEN + 1))
                  Hwr ltac:(lia) Hlen
                  ltac:(unfold MAXLEN in *; lia)
                  ltac:(assumption) ltac:(assumption)
                  (Z.to_nat (mesnum g - 1)) fuel st0 w1)
        as (st' & w' & Hrun & Hcnt & _ & _ & _ & Hout);
      cbn [cnt proceed buf]; try lia; try reflexivity
  end.
  rewrite Hrun.
  destruct (client_loop_uni_keeps e g endtime fuel ltac:(lia)
              ltac:(now rewrite Hd) _ _ _ _ Hrun) as (Ki & Kr & _ & _).
  subst w1. cbn [tcp_in nread took_times set_timedout took_read did_write]
    in Ki, Kr.
  unfold client_finish, bind, modify, sys_read.
  cbn [nread tcp_in set_timedout]. rewrite Ki.
  pose proof (Hrd (nread w')) as Hr1.
  destruct (Z.leb_spec (rd e (nread w')) 0) as [Hle | _]; [lia |].
  cbn [List.length Z.of_nat].
  replace (Z.min (rd e (nread w')) (Z.min (size_t (MAXLEN + 1)) 0)) with 0
    by (assert (0 <= size_t (MAXLEN + 1))
          by (apply Z.mod_pos_bound; lia); lia).
  change (0 <=? 0) with true. cbv iota. unfold exit.
  eexists. split; [reflexivity |].
  cbn [tcp_out took_read set_timedout]. rewrite Hout.
  cbn [tcp_out took_times set_timedout took_read did_write].
  unfold sent_stream. now rewrite <- !app_assoc.
Qed.

Lemma client_sends_without_port_reply_witness :
  exists w',
    client quiet 0 0 3 g_session (fresh [] []) = Exit 1 w'
    /\ tcp_out w'
       = tcp_out (fresh [] [])
           ++ (control_message (ipvers g_session) (prot g_session)
                 (direct g_session) (meslen g_session) ++ [NUL])
           ++ sent_stream (mesnum g_session) (meslen g_session).
Proof.
  apply (client_sends_without_port_reply quiet g_session 0 0 3 (fresh [] [])).
  - unfold valid_config, MAXLEN. cbn. intuition lia.
  - right. reflexivity.
  - reflexivity.
  - reflexivity.
  - reflexivity.
  - vm_compute. discriminate.
  - intros k. reflexivity.
  - intros k. reflexivity.
  - reflexivity.
  - vm_compute. discriminate.
Defined.

End TimedAndEdge.

(* ================================================================== *)
(** ** The handler and its control message *)

Module Handler.
Import CInt Libc Attract Scenario Notions CIntFacts LibcFacts Handshake
  Transfer Session.

(** *** What was written stays written *)

Lemma output_kept_same {A : Type} (w w' : world) (a : A) :
  tcp_out w' = tcp_out w -> output_kept w (Go a w').
Proof. intros H. exists []. now rewrite app_nil_r. Qed.

Lemma only_adds_ret {A : Type} (a : A) : only_adds (ret a).
Proof. intros w. now apply output_kept_same. Qed.

Lemma only_adds_exit {A : Type} (c : Z) : only_adds (@exit A c).
Proof. intros w. exists []. now rewrite app_nil_r. Qed.


Lemma only_adds_get : only_adds get.
Proof. intros w. now apply output_kept_same. Qed.

Lemma only_adds_set_timedout (v : Z) : only_adds (modify (set_timedout v)).
Proof. intros w. now apply output_kept_same. Qed.

Lemma only_adds_set_numtout (v : Z) : only_adds (modify (set_numtout v)).
Proof. intros w. now apply output_kept_same. Qed.

Lemma only_adds_sys_read (e : env) (count : Z) : only_adds (sys_read e count).
Proof.
  intros w. unfold sys_read.
  destruct (rd e (nread w) <=? 0); now apply output_kept_same.
Qed.

Lemma only_adds_sys_write (e : env) (p : list ascii) (len : Z) :
  only_adds (sys_write e p len).
Proof.
  intros w. unfold sys_write. destruct (wr e (nwrite w)).
  - now exists (firstn (Z.to_nat len) p).
  - now apply output_kept_same.
Qed.

Lemma only_adds_sys_sendto (e : env) (p : list ascii) (len : Z) :
  only_adds (sys_sendto e p len).
Proof.
  intros w. unfold sys_sendto.
  destruct (wr e (nwrite w)); now apply output_kept_same.
Qed.

Lemma only_adds_sys_recvfrom (len : Z) : only_adds (sys_recvfrom len).
Proof.
  intros w. unfold sys_recvfrom.
  destruct (udp_in w) as [| [d | |] rest]; now apply output_kept_same.
Qed.

Lemma only_adds_sys_times (e : env) : only_adds (sys_times e).
Proof. intros w. now apply output_kept_same. Qed.

Create HintDb adds.

#[local] Hint Resolve only_adds_ret only_adds_exit only_adds_get
  only_adds_set_timedout only_adds_set_numtout only_adds_sys_read
  only_adds_sys_write only_adds_sys_sendto only_adds_sys_recvfrom
  only_adds_sys_times : adds.








(** *** The handler up to the port reply *)
















End Handler.
